(** * ebpf-NFS: the interception engines and their control planes

    A shallow embedding of the two traffic-control programs of the
    repository, [fileserver_ingress] (fileserver.bpf.c, the HTTP-like
    file-fetch variant) and [nfs_server_tc] (nfs_server.bpf.c, the NFS
    variant), together with the cache-refresh routine
    [cache_file_in_kernel] of each user-space server and the two file
    handle generators; then the other programs of the two objects (the
    XDP counters, the file-open probe and the openat tracepoint) and the
    request and event handlers of the two servers, fileserver.c and
    nfs_server.c.

    Conventions.
    - A frame is the list of bytes between [skb->data] and
      [skb->data_end]; a pointer into it is its offset, so [data] is 0
      and [data_end] is the length of the list.
    - Unsigned C integers are values of [Z], with the wrap-around of
      every arithmetic operation written out ([wrap32], [wrap64]).
    - BPF hash maps are [gmap]s with their [max_entries]; the statistics
      array map is a list of sixteen counters.
    - The ring buffer is the list of committed records, in reservation
      order (the order in which the consumer reads them).  Whether a
      reservation finds room is decided by the environment of the
      invocation ([req_slot], [ev_slot]).
    - All readings of [bpf_ktime_get_ns] made by one invocation are taken
      at one instant, [now].
    - A key or a name of type [char[MAX_FILENAME_LEN]] is written as the
      string that its 256 bytes make once the trailing NULs are dropped
      ([key_of_buffer]).  Memory that the code reads without having
      written it is an input: the stack under the local [filename] of
      the two NFS handlers ([residue]), and the bytes behind the string
      literal that nfs_server.c passes as a key ([after]).
    - The host is little endian and [char] is signed, as on the BPF
      target and on x86. *)

From Stdlib Require Import ZArith Lia Strings.Byte Strings.String.
From stdpp Require Import gmap strings list.
From stdpp Require Import pretty.

Local Open Scope Z_scope.

(** ** Machine integers and frame access *)

Definition wrap8 (z : Z) : Z := z mod 2 ^ 8.
Definition wrap16 (z : Z) : Z := z mod 2 ^ 16.
Definition wrap32 (z : Z) : Z := z mod 2 ^ 32.
Definition wrap64 (z : Z) : Z := z mod 2 ^ 64.

(** Value of a C [char]: signed. *)
Definition schar (b : byte) : Z :=
  let v := Z.of_N (Byte.to_N b) in
  if 128 <=? v then v - 256 else v.

Definition ch (b : byte) : Z := Z.of_N (Byte.to_N b).

(** [((__u8 * )data)[off]]; the handlers only reach it after the
    matching [data_end] check. *)
Definition u8 (frame : list byte) (off : Z) : Z :=
  if off <? 0 then 0 else ch (nth (Z.to_nat off) frame x00).

(** A 16-bit or 32-bit field compared with, or converted by,
    [bpf_htons] / [bpf_ntohl]: its big-endian value. *)
Definition be16 (frame : list byte) (off : Z) : Z :=
  u8 frame off * 256 + u8 frame (off + 1).

Definition be32 (frame : list byte) (off : Z) : Z :=
  ((u8 frame off * 256 + u8 frame (off + 1)) * 256
   + u8 frame (off + 2)) * 256 + u8 frame (off + 3).

(** A field loaded raw (as [ip->saddr], [tcp->source]): host order. *)
Definition le16 (frame : list byte) (off : Z) : Z :=
  u8 frame off + 256 * u8 frame (off + 1).

Definition le32 (frame : list byte) (off : Z) : Z :=
  u8 frame off + 256 * (u8 frame (off + 1)
   + 256 * (u8 frame (off + 2) + 256 * u8 frame (off + 3))).

(** The four bytes a [__u32] store leaves in memory. *)
Definition store_le32 (v : Z) : list byte :=
  let b (k : Z) :=
    default x00 (Byte.of_N (Z.to_N ((v / 2 ^ (8 * k)) mod 256))) in
  [b 0; b 1; b 2; b 3].

#[global] Instance byte_eq_decision : EqDecision byte := Byte.byte_eq_dec.
#[global] Instance byte_countable : Countable byte :=
  inj_countable Byte.to_N Byte.of_N Byte.of_to_N.

(** ** What both programs share *)

Definition TC_ACT_OK : Z := 0.
Definition TC_ACT_SHOT : Z := 2.
Definition ETH_P_IP : Z := 0x0800.
Definition IPPROTO_TCP : Z := 6.
Definition IPPROTO_UDP : Z := 17.

(** [sizeof] of the headers the programs step over. *)
Definition ETH_HLEN : Z := 14.
Definition IP_HLEN : Z := 20.
Definition TCP_HLEN : Z := 20.
Definition UDP_HLEN : Z := 8.

(** Fields of the link and network headers, at their fixed offsets. *)
Definition eth_proto (frame : list byte) : Z := be16 frame 12.
Definition ip_protocol (frame : list byte) : Z := u8 frame (ETH_HLEN + 9).
Definition ip_ihl (frame : list byte) : Z := Z.land (u8 frame ETH_HLEN) 15.
Definition ip_saddr (frame : list byte) : Z := le32 frame (ETH_HLEN + 12).
(** [(void * )ip + (ip->ihl * 4)] *)
Definition l4_off (frame : list byte) : Z := ETH_HLEN + ip_ihl frame * 4.
(** source and destination port sit at the same place in TCP and UDP *)
Definition l4_source (frame : list byte) : Z := le16 frame (l4_off frame).
Definition l4_dest (frame : list byte) : Z := be16 frame (l4_off frame + 2).

(** The terminal outcomes of the decision engine.  The programs have no
    such enumeration: each return point and each branch of the decision
    code is labelled with the outcome it stands for.  [NoDecision] labels
    the return taken when the request record cannot be reserved, which
    happens after the request was recognised and before any decision. *)
Inductive outcome :=
  | PassThrough
  | KernelServed
  | ForwardToControlPlane
  | NotFound
  | NoDecision.

#[global] Instance outcome_eq_decision : EqDecision outcome.
Proof. solve_decision. Defined.

(** The environment of one invocation. *)
Record env := {
  now : Z;               (* bpf_ktime_get_ns() *)
  req_slot : bool;       (* the first bpf_ringbuf_reserve finds room *)
  ev_slot : bool;        (* the second bpf_ringbuf_reserve finds room *)
  residue : list byte    (* what the stack holds where a handler places a
                            local buffer it does not initialise *)
}.

(** [bpf_map_update_elem(map, key, value, BPF_ANY)] on a hash map: a new
    key is refused once the map holds [max_entries] keys. *)
Definition bpf_map_update_elem `{Countable K} {V : Type}
    (max_entries : nat) (m : gmap K V) (k : K) (v : V) : gmap K V :=
  match m !! k with
  | Some _ => <[k := v]> m
  | None => if decide (size m < max_entries)%nat then <[k := v]> m else m
  end.

(** The same call made from user space, whose return value the control
    planes test: [None] stands for a non-zero return. *)
Definition try_update `{Countable K} {V : Type}
    (max_entries : nat) (m : gmap K V) (k : K) (v : V) : option (gmap K V) :=
  match m !! k with
  | Some _ => Some (<[k := v]> m)
  | None =>
      if decide (size m < max_entries)%nat then Some (<[k := v]> m) else None
  end.

(** [update_stats] / [update_nfs_stats]: look the counter up in the array
    map and add to it atomically. *)
Definition update_stats (stat_type : nat) (value : Z) (stats : list Z)
    : list Z :=
  match stats !! stat_type with
  | Some counter => <[stat_type := wrap64 (counter + value)]> stats
  | None => stats
  end.

(** The key a zero-initialised [char[MAX_FILENAME_LEN]] buffer makes:
    two such buffers are equal when they agree up to trailing NULs. *)
Fixpoint strip_nul (bs : list byte) : list byte :=
  match bs with
  | [] => []
  | b :: rest =>
      match strip_nul rest with
      | [] => if decide (b = x00) then [] else [b]
      | rest' => b :: rest'
      end
  end.

Definition key_of_buffer (bs : list byte) : string :=
  string_of_list_byte (strip_nul bs).

(** ** The file-fetch variant: fileserver.bpf.c, fileserver.c *)

Module Http.

Definition MAX_FILENAME_LEN : Z := 256.
Definition MAX_PACKET_SIZE : Z := 1024.

Inductive http_method :=
  | HTTP_UNKNOWN | HTTP_GET | HTTP_POST | HTTP_PUT | HTTP_DELETE.

#[global] Instance http_method_eq_decision : EqDecision http_method.
Proof. solve_decision. Defined.

Inductive file_op_result :=
  | FILE_OP_SUCCESS
  | FILE_OP_NOT_FOUND
  | FILE_OP_ACCESS_DENIED
  | FILE_OP_TOO_LARGE
  | FILE_OP_FORWARD_TO_USER
  | FILE_OP_ERROR.

(** [struct http_request]; [headers] is never written. *)
Record http_request := {
  src_addr : Z;
  src_port : Z;
  method : http_method;
  processed_in_kernel : bool;
  rq_filename : string;
  content_length : Z
}.

Record file_event := {
  client_addr : Z;
  client_port : Z;
  operation : file_op_result;
  ev_filename : string;
  ev_file_size : Z;
  timestamp : Z;
  forwarded_to_user : bool
}.

(** [struct file_cache_entry].  [cached_data] holds the bytes read into
    the array; [valid] is the truth value of the [__u8]. *)
Record file_cache_entry := {
  ce_filename : string;
  file_size : Z;
  last_modified : Z;
  cached_data : list byte;
  cache_hits : Z;
  valid : bool
}.

Inductive record :=
  | ReqRecord (r : http_request)
  | FileRecord (f : file_event).

(** The [const volatile] configuration of fileserver.bpf.c. *)
Record config := {
  enable_kernel_processing : bool;
  max_file_size : Z;
  cache_ttl_seconds : Z
}.

Definition default_config : config :=
  {| enable_kernel_processing := true;
     max_file_size := 4096;
     cache_ttl_seconds := 300 |}.

(** The maps of fileserver.bpf.c. *)
Record state := {
  file_cache : gmap string file_cache_entry;  (* max_entries 1024 *)
  conn_track : gmap Z Z;                      (* max_entries 4096 *)
  stats : list Z;                             (* 16 counters *)
  events : list record
}.

Definition set_file_cache (c : gmap string file_cache_entry) (st : state)
    : state :=
  {| file_cache := c; conn_track := conn_track st;
     stats := stats st; events := events st |}.
Definition set_conn_track (c : gmap Z Z) (st : state) : state :=
  {| file_cache := file_cache st; conn_track := c;
     stats := stats st; events := events st |}.
Definition set_stats (s : list Z) (st : state) : state :=
  {| file_cache := file_cache st; conn_track := conn_track st;
     stats := s; events := events st |}.
Definition set_events (e : list record) (st : state) : state :=
  {| file_cache := file_cache st; conn_track := conn_track st;
     stats := stats st; events := e |}.

Definition init_state : state :=
  {| file_cache := ∅; conn_track := ∅;
     stats := replicate 16 0; events := [] |}.

(** What an invocation leaves behind: the verdict for the stack, the
    frame as the stack gets it back, the maps, and the label of the
    return point. *)
Record result := {
  verdict : Z;
  decision : outcome;
  skb_out : list byte;
  st_out : state
}.

(** [parse_http_method(data, data_end, len)], [data] at offset [p]; the
    parameter [len] is a [__u16]. *)
Definition parse_http_method (frame : list byte) (p len : Z) : http_method :=
  let len := wrap16 len in
  let data_end := Z.of_nat (length frame) in
  let c (i : Z) (b : byte) : bool := u8 frame (p + i) =? ch b in
  if (p + 3 >? data_end) || (len <? 3) then HTTP_UNKNOWN
  else if c 0 "G"%byte && c 1 "E"%byte && c 2 "T"%byte then HTTP_GET
  else if (p + 4 <=? data_end) && (4 <=? len) &&
          c 0 "P"%byte && c 1 "O"%byte && c 2 "S"%byte && c 3 "T"%byte
       then HTTP_POST
  else if c 0 "P"%byte && c 1 "U"%byte && c 2 "T"%byte then HTTP_PUT
  else if (p + 6 <=? data_end) && (6 <=? len) &&
          c 0 "D"%byte && c 1 "E"%byte && c 2 "L"%byte &&
          c 3 "E"%byte && c 4 "T"%byte && c 5 "E"%byte
       then HTTP_DELETE
  else HTTP_UNKNOWN.

(** The loop of [extract_filename]: [n] iterations are left, [i] is the
    payload index, [acc] the characters stored so far (j of them). *)
Fixpoint extract_loop (n : nat) (frame : list byte) (p len i : Z)
    (acc : list byte) : list byte :=
  match n with
  | O => acc
  | S n' =>
      if (i <? 13) && (i <? len) && (Z.of_nat (length acc) <? 8) then
        if p + i >=? Z.of_nat (length frame) then acc
        else
          let c := u8 frame (p + i) in
          if (c =? ch " "%byte) || (c =? ch "?"%byte) ||
             (c =? 13) || (c =? 10) then acc
          else extract_loop n' frame p len (i + 1)
                 (acc ++ [nth (Z.to_nat (p + i)) frame x00])
      else acc
  end.

(** [extract_filename]: the characters written to [filename]; the return
    value is their number.  The parameter [len] is a [__u16]. *)
Definition extract_filename (frame : list byte) (p len : Z) : list byte :=
  let len := wrap16 len in
  let data_end := Z.of_nat (length frame) in
  let c (i : Z) (b : byte) : bool := u8 frame (p + i) =? ch b in
  if (len <? 5) || (p + 5 >? data_end) then []
  else if c 0 "G"%byte && c 1 "E"%byte && c 2 "T"%byte &&
          c 3 " "%byte && c 4 "/"%byte
       then extract_loop 8 frame p len 5 []
  else [].

(** [filename[i]] in the zero-initialised buffer. *)
Definition buf_at (filename : list byte) (i : nat) : byte :=
  nth i filename x00.

Definition check_file_exists (filename : list byte) : bool :=
  let c (i : nat) (b : byte) : bool := bool_decide (buf_at filename i = b) in
  if c 0%nat "i"%byte && c 1%nat "n"%byte && c 2%nat "d"%byte then true
  else if c 0%nat "s"%byte && c 1%nat "t"%byte && c 2%nat "a"%byte then true
  else if c 0%nat "t"%byte && c 1%nat "e"%byte && c 2%nat "s"%byte then true
  else false.

(** A request as the extractor hands it to the decision code. *)
Record request := {
  r_method : http_method;
  r_filename : list byte;
  r_client_ip : Z;
  r_client_port : Z
}.

Definition mk_file_event (e : env) (rq : request) (op : file_op_result)
    (size : Z) (fwd : bool) : file_event :=
  {| client_addr := r_client_ip rq;
     client_port := r_client_port rq;
     operation := op;
     ev_filename := key_of_buffer (r_filename rq);
     ev_file_size := size;
     timestamp := now e;
     forwarded_to_user := fwd |}.

(** [bpf_ringbuf_reserve] of a [file_event], filled and submitted when
    there is room, skipped when there is none. *)
Definition reserve_file_event (e : env) (f : file_event)
    : option file_event :=
  if ev_slot e then Some f else None.

(** [cache_entry->cache_hits++] on the value the map holds. *)
Definition hit (ce : file_cache_entry) : file_cache_entry :=
  {| ce_filename := ce_filename ce; file_size := file_size ce;
     last_modified := last_modified ce; cached_data := cached_data ce;
     cache_hits := wrap32 (cache_hits ce + 1); valid := valid ce |}.

(** Lines 225-285 of [fileserver_ingress]: the decision.  It yields the
    outcome, the final value of [req_event->processed_in_kernel], the
    file event it submitted, if any, and the maps. *)
Definition decide_request (cfg : config) (e : env) (rq : request)
    (st : state) : outcome * bool * option file_event * state :=
  let key := key_of_buffer (r_filename rq) in
  let forward (st : state) :=
    (ForwardToControlPlane, false,
     reserve_file_event e (mk_file_event e rq FILE_OP_FORWARD_TO_USER 0 true),
     set_stats (update_stats 2 1 (stats st)) st) in
  if enable_kernel_processing cfg && bool_decide (r_method rq = HTTP_GET) then
    if check_file_exists (r_filename rq) then
      match file_cache st !! key with
      | Some ce =>
          if valid ce then
            let st1 := set_file_cache (<[key := hit ce]> (file_cache st)) st in
            let st2 := set_stats (update_stats 1 1 (stats st1)) st1 in
            (KernelServed, true,
             reserve_file_event e
               (mk_file_event e rq FILE_OP_SUCCESS (file_size ce) false),
             st2)
          else forward st
      | None => forward st
      end
    else
      (NotFound, false,
       reserve_file_event e (mk_file_event e rq FILE_OP_NOT_FOUND 0 true),
       set_stats (update_stats 3 1 (stats st)) st)
  else
    (ForwardToControlPlane, false, None,
     set_stats (update_stats 2 1 (stats st)) st).

Definition pass (frame : list byte) (st : state) : result :=
  {| verdict := TC_ACT_OK; decision := PassThrough;
     skb_out := frame; st_out := st |}.

(** Lines 200-208 of [fileserver_ingress]: the request the extractor
    hands over, with the default name for an empty one. *)
Definition extract_request (m : http_method) (frame : list byte)
    (http_payload payload_len : Z) : request :=
  let extracted := extract_filename frame http_payload payload_len in
  let filename :=
    if (Z.of_nat (length extracted) =? 0)
    then list_byte_of_string "index.html" ++ [x00]
    else extracted in
  {| r_method := m; r_filename := filename;
     r_client_ip := ip_saddr frame;
     r_client_port := l4_source frame |}.

(** Lines 287-292: connection tracking and the submission of the request
    record, after the decision [dec]. *)
Definition submit (e : env) (frame : list byte) (rq : request)
    (dec : outcome * bool * option file_event * state) : result :=
  let '(d, in_kernel, fev, st2) := dec in
  let st3 :=
    set_conn_track
      (bpf_map_update_elem 4096 (conn_track st2) (r_client_ip rq) (now e))
      st2 in
  let req_event :=
    {| src_addr := r_client_ip rq;
       src_port := r_client_port rq;
       method := r_method rq;
       processed_in_kernel := in_kernel;
       rq_filename := key_of_buffer (r_filename rq);
       content_length := 0 |} in
  {| verdict := TC_ACT_OK; decision := d; skb_out := frame;
     st_out :=
       set_events
         (events st3 ++ ReqRecord req_event ::
            match fev with
            | Some f => [FileRecord f]
            | None => []
            end) st3 |}.

(** Lines 195-292 of [fileserver_ingress]: from the parsing of the method
    to the submission of the request record, for a payload at offset
    [http_payload]. *)
Definition serve (cfg : config) (e : env) (frame : list byte)
    (http_payload payload_len : Z) (st : state) : result :=
  let m := parse_http_method frame http_payload payload_len in
  if bool_decide (m = HTTP_UNKNOWN) then pass frame st
  else
    let rq := extract_request m frame http_payload payload_len in
    let st1 := set_stats (update_stats 0 1 (stats st)) st in
    if negb (req_slot e) then
      {| verdict := TC_ACT_OK; decision := NoDecision;
         skb_out := frame; st_out := st1 |}
    else submit e frame rq (decide_request cfg e rq st1).

(** Lines 163-193 of [fileserver_ingress], the walk over the headers:
    the offset and the length of the HTTP payload, or [None] where the
    function returns [TC_ACT_OK] at once. *)
Definition walk_headers (frame : list byte) : option (Z * Z) :=
  let data_end := Z.of_nat (length frame) in
  if ETH_HLEN >? data_end then None
  else if negb (eth_proto frame =? ETH_P_IP) then None
  else if ETH_HLEN + IP_HLEN >? data_end then None
  else if negb (ip_protocol frame =? IPPROTO_TCP) then None
  else
    let tcp := l4_off frame in
    if tcp + TCP_HLEN >? data_end then None
    else if negb (l4_dest frame =? 80) && negb (l4_dest frame =? 8080)
      then None
    else
      (* tcp->doff is the high nibble of byte 12 of the TCP header *)
      let http_payload := tcp + Z.shiftr (u8 frame (tcp + 12)) 4 * 4 in
      if http_payload >=? data_end then None
      else
        let payload_len := wrap16 (data_end - http_payload) in
        if payload_len <? 4 then None
        else Some (http_payload, payload_len).

(** [fileserver_ingress]. *)
Definition fileserver_ingress (cfg : config) (e : env) (frame : list byte)
    (st : state) : result :=
  match walk_headers frame with
  | None => pass frame st
  | Some (http_payload, payload_len) =>
      serve cfg e frame http_payload payload_len st
  end.

(** *** The control plane: [cache_file_in_kernel] of fileserver.c *)

(** What [stat], [open] and [read] report about one path. *)
Record file := {
  st_reg : bool;        (* S_ISREG(st.st_mode) *)
  st_size : Z;
  st_mtime : Z;
  openable : bool;      (* open(filepath, O_RDONLY) >= 0 *)
  contents : list byte  (* what read() can deliver *)
}.

(** [fs name] is [None] when [stat] fails. *)
Definition filesystem := string -> option file.

(** [strncpy(dst, filename, MAX_FILENAME_LEN - 1)] into a zeroed buffer. *)
Definition strncpy_name (name : string) : string :=
  string_of_list_byte (take 255 (list_byte_of_string name)).

(** The entry [cache_file_in_kernel] fills in for a file [f] of which
    [data] was read. *)
Definition fill_entry (f : file) (filename : string) (data : list byte)
    : file_cache_entry :=
  {| ce_filename := strncpy_name filename;
     file_size := wrap32 (st_size f);
     last_modified := wrap64 (st_mtime f);
     cached_data := data;
     cache_hits := 0;
     valid := true |}.

(** [cache_file_in_kernel(skel, filename)]: the return value and the
    maps.  [enable_kernel_cache] is [env.enable_kernel_cache]; -1 stands
    for every non-zero return, that of a refused map update included.
    The key of the update is the buffer [filename] points to, which the
    caller zeroes before copying the name into it: the name itself. *)
Definition cache_file_in_kernel (enable_kernel_cache : bool)
    (fs : filesystem) (filename : string) (st : state) : Z * state :=
  if negb enable_kernel_cache then (0, st)
  else
    match fs filename with
    | None => (-1, st)
    | Some f =>
        if negb (st_reg f) || (st_size f >? MAX_PACKET_SIZE) then (-1, st)
        else if negb (openable f) then (-1, st)
        else
          let data := take (Z.to_nat (st_size f)) (contents f) in
          let bytes_read := Z.of_nat (length data) in
          if negb (bytes_read =? st_size f) then (-1, st)
          else
            match try_update 1024 (file_cache st) filename
                    (fill_entry f filename data) with
            | Some c => (0, set_file_cache c st)
            | None => (-1, st)
            end
    end.

(** The cache store over time: refreshed by the control plane, consulted
    and hit-marked by the engine. *)
Inductive step : state -> state -> Prop :=
  | step_refresh (en : bool) (fs : filesystem) (name : string) (st : state) :
      step st (cache_file_in_kernel en fs name st).2
  | step_frame (cfg : config) (e : env) (frame : list byte) (st : state) :
      step st (st_out (fileserver_ingress cfg e frame st)).

Inductive reachable : state -> Prop :=
  | reach_init : reachable init_state
  | reach_step (st st' : state) :
      reachable st -> step st st' -> reachable st'.

(** The data-model invariant of one entry.  The variant has no separate
    [data_valid] flag: an entry carries its content whenever it is
    [valid]. *)
Definition entry_ok (ce : file_cache_entry) : Prop :=
  valid ce = true /\
  0 <= file_size ce <= MAX_PACKET_SIZE /\
  Z.of_nat (length (cached_data ce)) = file_size ce.

End Http.

(** ** The remote-filesystem variant: nfs_server.bpf.c, nfs_server.c *)

Module Nfs.

Definition MAX_FILENAME_LEN : Z := 256.
Definition MAX_NFS_DATA_SIZE : Z := 8192.
Definition NFS_PORT : Z := 2049.
Definition RPC_PROGRAM_NFS : Z := 100003.
Definition NFS_VERSION_3 : Z := 3.
Definition RPC_CALL : Z := 0.
Definition RPC_REPLY : Z := 1.
Definition RPC_HEADER_SIZE : Z := 32.  (* sizeof(struct rpc_header) *)

Definition NFSPROC3_NULL : Z := 0.
Definition NFSPROC3_GETATTR : Z := 1.
Definition NFSPROC3_READ : Z := 6.

Inductive nfs_op_result :=
  | NFS_OP_SUCCESS
  | NFS_OP_NOT_FOUND
  | NFS_OP_ACCESS_DENIED
  | NFS_OP_INVALID_HANDLE
  | NFS_OP_FORWARD_TO_USER
  | NFS_OP_CACHE_HIT
  | NFS_OP_ERROR.

Record rpc_header := {
  xid : Z;
  msg_type : Z;
  rpc_version : Z;
  program : Z;
  version : Z;
  procedure : Z;
  auth_flavor : Z;
  auth_len : Z
}.

Record nfs_fh := {
  fh_len : Z;
  fh_data : list byte   (* __u8 data[64] *)
}.

#[global] Instance nfs_fh_eq_decision : EqDecision nfs_fh.
Proof. solve_decision. Defined.

#[global] Instance nfs_fh_countable : Countable nfs_fh :=
  inj_countable'
    (fun fh => (fh_len fh, fh_data fh))
    (fun p => {| fh_len := p.1; fh_data := p.2 |})
    (fun fh => match fh with Build_nfs_fh _ _ => eq_refl end).

(** What [__builtin_memset(&req_event->fh, 0, sizeof(req_event->fh))]
    leaves. *)
Definition zero_fh : nfs_fh :=
  {| fh_len := 0; fh_data := replicate 64 x00 |}.

Record nfs_fattr := {
  type : Z;
  mode : Z;
  nlink : Z;
  uid : Z;
  gid : Z;
  attr_size : Z;
  used : Z;
  fsid : Z;
  fileid : Z;
  atime_sec : Z;
  atime_nsec : Z;
  mtime_sec : Z;
  mtime_nsec : Z;
  ctime_sec : Z;
  ctime_nsec : Z
}.

Record nfs_request := {
  rq_client_addr : Z;
  rq_client_port : Z;
  rq_xid : Z;
  rq_procedure : Z;
  processed_in_kernel : bool;
  rq_filename : string;
  offset : Z;
  count : Z;
  fh : nfs_fh
}.

Record nfs_event := {
  client_addr : Z;
  client_port : Z;
  ev_xid : Z;
  ev_procedure : Z;
  result : nfs_op_result;
  ev_filename : string;
  file_size : Z;
  timestamp : Z;
  forwarded_to_user : bool;
  from_cache : bool
}.

(** [struct nfs_file_cache_entry].  [data] holds the bytes read into the
    array; [valid] and [data_valid] are the truth values of the [__u8]
    flags. *)
Record nfs_file_cache_entry := {
  ce_filename : string;
  ce_fh : nfs_fh;
  attr : nfs_fattr;
  data_size : Z;
  data : list byte;
  cache_time : Z;
  cache_hits : Z;
  valid : bool;
  data_valid : bool
}.

Record nfs_client_state := {
  cs_client_addr : Z;
  last_request_time : Z;
  request_count : Z;
  kernel_processed : Z;
  user_forwarded : Z
}.

Inductive record :=
  | ReqRecord (r : nfs_request)
  | EventRecord (ev : nfs_event).

(** The [const volatile] configuration of nfs_server.bpf.c. *)
Record config := {
  enable_kernel_processing : bool;
  max_cached_file_size : Z;
  cache_ttl_seconds : Z
}.

Definition default_config : config :=
  {| enable_kernel_processing := true;
     max_cached_file_size := 4096;
     cache_ttl_seconds := 300 |}.

(** The maps of nfs_server.bpf.c. *)
Record state := {
  nfs_file_cache : gmap string nfs_file_cache_entry;  (* max_entries 1024 *)
  fh_to_name : gmap nfs_fh string;                    (* max_entries 2048 *)
  client_track : gmap Z nfs_client_state;             (* max_entries 1024 *)
  nfs_stats : list Z;                                 (* 16 counters *)
  nfs_events : list record
}.

Definition set_cache (c : gmap string nfs_file_cache_entry) (st : state)
    : state :=
  {| nfs_file_cache := c; fh_to_name := fh_to_name st;
     client_track := client_track st; nfs_stats := nfs_stats st;
     nfs_events := nfs_events st |}.
Definition set_fh_to_name (m : gmap nfs_fh string) (st : state) : state :=
  {| nfs_file_cache := nfs_file_cache st; fh_to_name := m;
     client_track := client_track st; nfs_stats := nfs_stats st;
     nfs_events := nfs_events st |}.
Definition set_client_track (c : gmap Z nfs_client_state) (st : state)
    : state :=
  {| nfs_file_cache := nfs_file_cache st; fh_to_name := fh_to_name st;
     client_track := c; nfs_stats := nfs_stats st;
     nfs_events := nfs_events st |}.
Definition set_stats (s : list Z) (st : state) : state :=
  {| nfs_file_cache := nfs_file_cache st; fh_to_name := fh_to_name st;
     client_track := client_track st; nfs_stats := s;
     nfs_events := nfs_events st |}.
Definition set_events (e : list record) (st : state) : state :=
  {| nfs_file_cache := nfs_file_cache st; fh_to_name := fh_to_name st;
     client_track := client_track st; nfs_stats := nfs_stats st;
     nfs_events := e |}.

Definition init_state : state :=
  {| nfs_file_cache := ∅; fh_to_name := ∅; client_track := ∅;
     nfs_stats := replicate 16 0; nfs_events := [] |}.

Record outcome_result := {
  verdict : Z;
  decision : outcome;
  skb_out : list byte;
  st_out : state
}.

(** [extract_be32(data, data_end, offset)], [data] at offset [p]. *)
Definition extract_be32 (frame : list byte) (p off : Z) : Z :=
  if p + off + 4 >? Z.of_nat (length frame) then 0
  else be32 frame (p + off).

(** [parse_rpc_header]: [None] stands for the return value -1. *)
Definition parse_rpc_header (frame : list byte) (p payload_len : Z)
    : option rpc_header :=
  if payload_len <? RPC_HEADER_SIZE then None
  else if p + RPC_HEADER_SIZE >? Z.of_nat (length frame) then None
  else Some {| xid := extract_be32 frame p 0;
               msg_type := extract_be32 frame p 4;
               rpc_version := extract_be32 frame p 8;
               program := extract_be32 frame p 12;
               version := extract_be32 frame p 16;
               procedure := extract_be32 frame p 20;
               auth_flavor := extract_be32 frame p 24;
               auth_len := extract_be32 frame p 28 |}.

(** A C string: the characters before the first NUL. *)
Fixpoint c_string (bs : list byte) : list byte :=
  match bs with
  | [] => []
  | b :: rest => if decide (b = x00) then [] else b :: c_string rest
  end.

(** Keys and values of type [char[MAX_FILENAME_LEN]] are written as
    strings: a string stands for the 256 bytes it fills, zeros after it,
    and [key_of_buffer] turns such a buffer into its string. *)
Definition buffer_of (name : string) : list byte :=
  take 256 (list_byte_of_string name ++ replicate 256 x00).

(** The local [char filename[MAX_FILENAME_LEN]] of the two handlers
    after their copy loop, as the key it makes.  The buffer is not
    initialised: the loop stores the characters of the side table's
    value up to and with its first NUL, 255 of them at most, then
    [filename[255]] is set to NUL, and every other byte keeps what
    the stack held, [residue]. *)
Definition copy_name (cached_name : string) (residue : list byte) : string :=
  let src := take 255 (buffer_of cached_name) in
  let stored := take (S (length (c_string src))) src in
  let stack := take 256 (residue ++ replicate 256 x00) in
  key_of_buffer (take 255 (stored ++ drop (length stored) stack) ++ [x00]).

(** The loop of [generate_file_handle] (nfs_server.bpf.c), at index [i]. *)
Fixpoint engine_hash (i : nat) (filename : list byte) (hash : Z) : Z :=
  match filename with
  | [] => hash
  | c :: rest =>
      if bool_decide (i < 256)%nat && negb (bool_decide (c = x00)) then
        let hash' := wrap32 (hash * 31 + schar c) in
        if bool_decide (3 <= i)%nat then hash'   (* if (i >= 3) break; *)
        else engine_hash (S i) rest hash'
      else hash
  end.

(** The stores both generators end with. *)
Definition put_handle (hash : Z) (h : nfs_fh) : nfs_fh :=
  {| fh_len := 8;
     fh_data := store_le32 hash
                ++ store_le32 (Z.lxor hash 0xdeadbeef)
                ++ drop 8 (fh_data h) |}.

(** [generate_file_handle(filename, fh)] of the engine. *)
Definition generate_file_handle (filename : list byte) (h : nfs_fh) : nfs_fh :=
  put_handle (engine_hash 0 filename 0) h.

(** The loop of [generate_nfs_file_handle] (nfs_server.c). *)
Fixpoint server_hash (filename : list byte) (hash : Z) : Z :=
  match filename with
  | [] => hash
  | c :: rest =>
      if bool_decide (c = x00) then hash
      else server_hash rest (wrap32 (hash * 31 + schar c))
  end.

(** [generate_nfs_file_handle(filename, fh)] of the control plane. *)
Definition generate_nfs_file_handle (filename : list byte) (h : nfs_fh)
    : nfs_fh :=
  put_handle (server_hash filename 0) h.

Definition hit (ce : nfs_file_cache_entry) : nfs_file_cache_entry :=
  {| ce_filename := ce_filename ce; ce_fh := ce_fh ce; attr := attr ce;
     data_size := data_size ce; data := data ce;
     cache_time := cache_time ce;
     cache_hits := wrap32 (cache_hits ce + 1);
     valid := valid ce; data_valid := data_valid ce |}.

Definition forward_event (ev : nfs_event) (name : option string) : nfs_event :=
  {| client_addr := client_addr ev; client_port := client_port ev;
     ev_xid := ev_xid ev; ev_procedure := ev_procedure ev;
     result := NFS_OP_FORWARD_TO_USER;
     ev_filename := match name with Some n => n | None => ev_filename ev end;
     file_size := file_size ev; timestamp := timestamp ev;
     forwarded_to_user := true; from_cache := from_cache ev |}.

Definition success_event (ev : nfs_event) (name : string) (sz : Z)
    : nfs_event :=
  {| client_addr := client_addr ev; client_port := client_port ev;
     ev_xid := ev_xid ev; ev_procedure := ev_procedure ev;
     result := NFS_OP_SUCCESS;
     ev_filename := name;
     file_size := sz; timestamp := timestamp ev;
     forwarded_to_user := false; from_cache := true |}.

(** [cache_ttl_seconds * 1000000000ULL] *)
Definition ttl_ns (cfg : config) : Z :=
  wrap64 (cache_ttl_seconds cfg * 1000000000).

(** [handle_nfs_getattr(req, event)]: the return value, the event and the
    maps. *)
Definition handle_nfs_getattr (cfg : config) (e : env) (req : nfs_request)
    (event : nfs_event) (st : state) : Z * nfs_event * state :=
  match fh_to_name st !! fh req with
  | None => (0, forward_event event None, st)
  | Some cached_name =>
      let filename := copy_name cached_name (residue e) in
      match nfs_file_cache st !! filename with
      | None => (0, forward_event event (Some filename), st)
      | Some cache_entry =>
          if negb (valid cache_entry)
          then (0, forward_event event (Some filename), st)
          else if wrap64 (now e - cache_time cache_entry) >? ttl_ns cfg
          then (0, forward_event event (Some filename), st)
          else
            let st1 :=
              set_cache (<[filename := hit cache_entry]> (nfs_file_cache st))
                st in
            (1,
             success_event event filename (wrap32 (attr_size (attr cache_entry))),
             set_stats (update_stats 1 1 (nfs_stats st1)) st1)
      end
  end.

(** [handle_nfs_read(req, event)]. *)
Definition handle_nfs_read (cfg : config) (e : env) (req : nfs_request)
    (event : nfs_event) (st : state) : Z * nfs_event * state :=
  match fh_to_name st !! fh req with
  | None => (0, forward_event event None, st)
  | Some cached_name =>
      let filename := copy_name cached_name (residue e) in
      match nfs_file_cache st !! filename with
      | None => (0, forward_event event (Some filename), st)
      | Some cache_entry =>
          if negb (valid cache_entry) || negb (data_valid cache_entry)
          then (0, forward_event event (Some filename), st)
          else if (offset req >=? data_size cache_entry)
                  || (count req >? MAX_NFS_DATA_SIZE)
                  || (wrap32 (offset req + count req) >? data_size cache_entry)
          then (0, forward_event event (Some filename), st)
          else
            let st1 :=
              set_cache (<[filename := hit cache_entry]> (nfs_file_cache st))
                st in
            (1,
             success_event event filename (count req),
             set_stats (update_stats 1 1 (nfs_stats st1)) st1)
      end
  end.

Definition set_processed (r : nfs_request) : nfs_request :=
  {| rq_client_addr := rq_client_addr r; rq_client_port := rq_client_port r;
     rq_xid := rq_xid r; rq_procedure := rq_procedure r;
     processed_in_kernel := true; rq_filename := rq_filename r;
     offset := offset r; count := count r; fh := fh r |}.

(** Lines 666-689 of [nfs_server_tc]: the switch on the procedure.  It
    yields [handled_in_kernel], the event and the maps. *)
Definition dispatch (cfg : config) (e : env) (rpc : rpc_header)
    (req : nfs_request) (event : nfs_event) (st : state)
    : Z * nfs_event * state :=
  if enable_kernel_processing cfg then
    if procedure rpc =? NFSPROC3_NULL then
      (1,
       {| client_addr := client_addr event; client_port := client_port event;
          ev_xid := ev_xid event; ev_procedure := ev_procedure event;
          result := NFS_OP_SUCCESS; ev_filename := ev_filename event;
          file_size := file_size event; timestamp := timestamp event;
          forwarded_to_user := false; from_cache := false |},
       set_stats (update_stats 1 1 (nfs_stats st)) st)
    else if procedure rpc =? NFSPROC3_GETATTR then
      handle_nfs_getattr cfg e req event st
    else if procedure rpc =? NFSPROC3_READ then
      handle_nfs_read cfg e req event st
    else (0, forward_event event None, st)
  else (0, event, st).

(** [client_state->kernel_processed++] / [client_state->user_forwarded++]. *)
Definition count_kernel (cs : nfs_client_state) : nfs_client_state :=
  {| cs_client_addr := cs_client_addr cs;
     last_request_time := last_request_time cs;
     request_count := request_count cs;
     kernel_processed := wrap32 (kernel_processed cs + 1);
     user_forwarded := user_forwarded cs |}.

Definition count_forwarded (cs : nfs_client_state) : nfs_client_state :=
  {| cs_client_addr := cs_client_addr cs;
     last_request_time := last_request_time cs;
     request_count := request_count cs;
     kernel_processed := kernel_processed cs;
     user_forwarded := wrap32 (user_forwarded cs + 1) |}.

(** Lines 616-631: the client tracker.  The second component tells
    whether [client_state] points into the map (a known client) or at the
    local [new_state] (a new one, whose later increments never reach the
    map). *)
Definition touch (e : env) (client_ip : Z) (st : state) : state * bool :=
  match client_track st !! client_ip with
  | None =>
      let new_state :=
        {| cs_client_addr := client_ip; last_request_time := now e;
           request_count := 1; kernel_processed := 0; user_forwarded := 0 |} in
      (set_client_track
         (bpf_map_update_elem 1024 (client_track st) client_ip new_state) st,
       false)
  | Some cs =>
      (set_client_track
         (<[client_ip :=
              {| cs_client_addr := cs_client_addr cs;
                 last_request_time := now e;
                 request_count := wrap32 (request_count cs + 1);
                 kernel_processed := kernel_processed cs;
                 user_forwarded := user_forwarded cs |}]> (client_track st))
         st,
       true)
  end.

(** Lines 633-705: from the request record to the submission, for a
    validated call. *)
Definition decide_request (cfg : config) (e : env) (rpc : rpc_header)
    (client_ip client_port : Z) (in_map : bool) (st : state)
    : outcome * state :=
  let req_event :=
    {| rq_client_addr := client_ip; rq_client_port := client_port;
       rq_xid := xid rpc; rq_procedure := procedure rpc;
       processed_in_kernel := false; rq_filename := "";
       offset := 0; count := 0; fh := zero_fh |} in
  let nfs_event :=
    {| client_addr := client_ip; client_port := client_port;
       ev_xid := xid rpc; ev_procedure := procedure rpc;
       result := NFS_OP_FORWARD_TO_USER; ev_filename := "";
       file_size := 0; timestamp := now e;
       forwarded_to_user := true; from_cache := false |} in
  let '(handled_in_kernel, nfs_event, st1) :=
    dispatch cfg e rpc req_event nfs_event st in
  let st2 := set_stats (update_stats 0 1 (nfs_stats st1)) st1 in
  let bump (f : nfs_client_state -> nfs_client_state) (st : state) :=
    if in_map then set_client_track (alter f client_ip (client_track st)) st
    else st in
  if negb (handled_in_kernel =? 0) then
    let st3 := bump count_kernel st2 in
    (KernelServed,
     set_events (nfs_events st3 ++
                   [ReqRecord (set_processed req_event);
                    EventRecord nfs_event]) st3)
  else
    let st3 := bump count_forwarded st2 in
    let st4 := set_stats (update_stats 2 1 (nfs_stats st3)) st3 in
    (ForwardToControlPlane,
     set_events (nfs_events st4 ++
                   [ReqRecord req_event; EventRecord nfs_event]) st4).

Definition pass (frame : list byte) (st : state) : outcome_result :=
  {| verdict := TC_ACT_OK; decision := PassThrough;
     skb_out := frame; st_out := st |}.

(** Lines 570-600 of [nfs_server_tc], the walk over the headers: the
    offset and the length of the NFS payload, or [None] where the function
    returns [TC_ACT_OK] at once. *)
Definition walk_headers (frame : list byte) : option (Z * Z) :=
  let data_end := Z.of_nat (length frame) in
  if ETH_HLEN >? data_end then None
  else if negb (eth_proto frame =? ETH_P_IP) then None
  else if ETH_HLEN + IP_HLEN >? data_end then None
  else if negb (ip_protocol frame =? IPPROTO_UDP) then None
  else
    let udp := l4_off frame in
    if udp + UDP_HLEN >? data_end then None
    else if negb (l4_dest frame =? NFS_PORT) then None
    else
      let nfs_payload := udp + UDP_HLEN in
      if nfs_payload >=? data_end then None
      else
        let payload_len := wrap16 (data_end - nfs_payload) in
        if payload_len <? RPC_HEADER_SIZE then None
        else Some (nfs_payload, payload_len).

(** Lines 606-611: the test that rejects what is not an NFSv3 call. *)
Definition not_nfs_call (rpc : rpc_header) : bool :=
  negb (msg_type rpc =? RPC_CALL)
  || negb (rpc_version rpc =? 2)
  || negb (program rpc =? RPC_PROGRAM_NFS)
  || negb (version rpc =? NFS_VERSION_3).

(** [nfs_server_tc]. *)
Definition nfs_server_tc (cfg : config) (e : env) (frame : list byte)
    (st : state) : outcome_result :=
  match walk_headers frame with
  | None => pass frame st
  | Some (nfs_payload, payload_len) =>
      match parse_rpc_header frame nfs_payload payload_len with
      | None => pass frame st
      | Some rpc =>
          if not_nfs_call rpc then pass frame st
          else
            let client_ip := ip_saddr frame in
            let client_port := l4_source frame in
            let '(st1, in_map) := touch e client_ip st in
            if negb (req_slot e) then
              {| verdict := TC_ACT_OK; decision := NoDecision;
                 skb_out := frame; st_out := st1 |}
            else if negb (ev_slot e) then
              (* bpf_ringbuf_discard(req_event, 0) *)
              {| verdict := TC_ACT_OK; decision := NoDecision;
                 skb_out := frame; st_out := st1 |}
            else
              let '(d, st2) :=
                decide_request cfg e rpc client_ip client_port in_map st1 in
              {| verdict := TC_ACT_OK; decision := d;
                 skb_out := frame; st_out := st2 |}
      end
  end.

(** *** The control plane: [cache_file_in_kernel] of nfs_server.c *)

(** What [stat], [open] and [read] report about one path. *)
Record file := {
  st_mode : Z;
  st_nlink : Z;
  st_uid : Z;
  st_gid : Z;
  st_size : Z;
  st_blocks : Z;
  st_ino : Z;
  st_atime : Z;
  st_mtime : Z;
  st_ctime : Z;
  openable : bool;      (* open(filepath, O_RDONLY) >= 0 *)
  contents : list byte  (* what read() can deliver *)
}.

Definition S_ISREG (m : Z) : bool := Z.land m 0xF000 =? 0x8000  (* 0170000, 0100000 *).
Definition S_ISDIR (m : Z) : bool := Z.land m 0xF000 =? 0x4000  (* 0170000, 0040000 *).

(** [fs name] is [None] when [stat] fails. *)
Definition filesystem := string -> option file.

Definition strncpy_name (name : string) : string :=
  string_of_list_byte (take 255 (list_byte_of_string name)).

(** The entry [cache_file_in_kernel] fills in for a file [f] of which
    [bytes] were read; [wall] is [time(NULL)]. *)
Definition fill_entry (wall : Z) (f : file) (filename : string)
    (bytes : list byte) : nfs_file_cache_entry :=
  {| ce_filename := strncpy_name filename;
     ce_fh := generate_nfs_file_handle (list_byte_of_string filename) zero_fh;
     attr :=
       {| type := if S_ISDIR (st_mode f) then 2 else 1;
          mode := wrap32 (st_mode f);
          nlink := wrap32 (st_nlink f);
          uid := wrap32 (st_uid f);
          gid := wrap32 (st_gid f);
          attr_size := wrap64 (st_size f);
          used := wrap64 (st_blocks f * 512);
          fsid := 1;
          fileid := wrap64 (st_ino f);
          atime_sec := wrap64 (st_atime f);
          atime_nsec := 0;
          mtime_sec := wrap64 (st_mtime f);
          mtime_nsec := 0;
          ctime_sec := wrap64 (st_ctime f);
          ctime_nsec := 0 |};
     data_size := wrap32 (st_size f);
     data := bytes;
     cache_time := wrap64 (wall * 1000000000);
     cache_hits := 0;
     valid := true;
     data_valid := true |}.

(** The 256 bytes [bpf_map_update_elem] reads at the pointer [filename]
    where the map wants a [char[MAX_FILENAME_LEN]]: the name, its NUL and
    what the memory holds behind it, [after]. *)
Definition name_key (filename : string) (after : list byte) : string :=
  key_of_buffer (take 256 (list_byte_of_string filename ++ x00 :: after)).

(** [cache_file_in_kernel(skel, filename)]: the return value and the
    maps.  The function passes the pointer [filename] itself as the key
    of the cache and as the value of the side table; its one caller gives
    a string literal, so the bytes behind the name are whatever the
    program image holds there, [after]. *)
Definition cache_file_in_kernel (enable_kernel_cache : bool) (wall : Z)
    (fs : filesystem) (filename : string) (after : list byte) (st : state)
    : Z * state :=
  if negb enable_kernel_cache then (0, st)
  else
    match fs filename with
    | None => (-1, st)
    | Some f =>
        if negb (S_ISREG (st_mode f)) then (-1, st)
        else if st_size f >? MAX_NFS_DATA_SIZE then (-1, st)
        else if negb (openable f) then (-1, st)
        else
          let bytes := take (Z.to_nat (st_size f)) (contents f) in
          let bytes_read := Z.of_nat (length bytes) in
          if negb (bytes_read =? st_size f) then (-1, st)
          else
            let cache_entry := fill_entry wall f filename bytes in
            let key := name_key filename after in
            match try_update 1024 (nfs_file_cache st) key cache_entry with
            | None => (-1, st)
            | Some c =>
                let st1 := set_cache c st in
                match try_update 2048 (fh_to_name st1) (ce_fh cache_entry)
                        key with
                | None => (-1, st1)
                | Some m => (0, set_fh_to_name m st1)
                end
            end
    end.

Inductive step : state -> state -> Prop :=
  | step_refresh (en : bool) (wall : Z) (fs : filesystem) (name : string)
      (after : list byte) (st : state) :
      step st (cache_file_in_kernel en wall fs name after st).2
  | step_frame (cfg : config) (e : env) (frame : list byte) (st : state) :
      step st (st_out (nfs_server_tc cfg e frame st)).

Inductive reachable : state -> Prop :=
  | reach_init : reachable init_state
  | reach_step (st st' : state) :
      reachable st -> step st st' -> reachable st'.

(** The data-model invariant of one entry. *)
Definition entry_ok (ce : nfs_file_cache_entry) : Prop :=
  (data_valid ce = true -> valid ce = true) /\
  0 <= data_size ce <= MAX_NFS_DATA_SIZE /\
  Z.of_nat (length (data ce)) = data_size ce /\
  attr_size (attr ce) = data_size ce.

End Nfs.

(** ** Recognised traffic, stated on the bytes of the frame *)

(** The frame is not what the file-fetch engine listens for: not IPv4
    over Ethernet, not TCP, or a destination port other than 80 and
    8080. *)
Definition http_mismatch (frame : list byte) : Prop :=
  eth_proto frame <> ETH_P_IP \/
  ip_protocol frame <> IPPROTO_TCP \/
  (l4_dest frame <> 80 /\ l4_dest frame <> 8080).

(** The same for the remote-filesystem engine: UDP, port 2049. *)
Definition nfs_mismatch (frame : list byte) : Prop :=
  eth_proto frame <> ETH_P_IP \/
  ip_protocol frame <> IPPROTO_UDP \/
  l4_dest frame <> Nfs.NFS_PORT.

(** The [k]-th 32-bit word of the UDP payload. *)
Definition rpc_word (frame : list byte) (k : Z) : Z :=
  be32 frame (l4_off frame + UDP_HLEN + 4 * k).

(** The RPC envelope is not an NFSv3 call. *)
Definition bad_envelope (frame : list byte) : Prop :=
  rpc_word frame 1 <> Nfs.RPC_CALL \/
  rpc_word frame 2 <> 2 \/
  rpc_word frame 3 <> Nfs.RPC_PROGRAM_NFS \/
  rpc_word frame 4 <> Nfs.NFS_VERSION_3.

(** The frame carries a request the file-fetch engine recognises, and
    [rq] is what the extractor makes of it. *)
Definition http_recognised (frame : list byte) (rq : Http.request) : Prop :=
  exists p len,
    Http.walk_headers frame = Some (p, len) /\
    Http.parse_http_method frame p len <> Http.HTTP_UNKNOWN /\
    rq = Http.extract_request (Http.parse_http_method frame p len)
           frame p len.

(** The frame carries an NFSv3 call, and [rpc] is its decoded envelope. *)
Definition nfs_recognised (frame : list byte) (rpc : Nfs.rpc_header) : Prop :=
  exists p len,
    Nfs.walk_headers frame = Some (p, len) /\
    Nfs.parse_rpc_header frame p len = Some rpc /\
    Nfs.not_nfs_call rpc = false.


(** ** Concrete frames and states *)

Definition bytes_of (l : list Z) : list byte :=
  map (fun z => default x00 (Byte.of_N (Z.to_N z))) l.

(** Ethernet and IPv4 headers (ihl = 5) from 10.0.0.1 to 10.0.0.2. *)
Definition eth_ip (proto : Z) : list byte :=
  bytes_of (replicate 12 0 ++ [8; 0]
            ++ [0x45; 0; 0; 0; 0; 0; 0; 0; 64; proto; 0; 0;
                10; 0; 0; 1; 10; 0; 0; 2]).

(** A TCP header (doff = 5) from port 12345. *)
Definition tcp_hdr (dport : Z) : list byte :=
  bytes_of [0x30; 0x39; dport / 256; dport mod 256;
            0; 0; 0; 0; 0; 0; 0; 0; 0x50; 0x18; 0; 0; 0; 0; 0; 0].

Definition udp_hdr (dport : Z) : list byte :=
  bytes_of [0x30; 0x39; dport / 256; dport mod 256; 0; 0; 0; 0].

Definition http_frame (dport : Z) (payload : string) : list byte :=
  eth_ip 6 ++ tcp_hdr dport ++ list_byte_of_string payload.

Definition word_be (v : Z) : list byte :=
  bytes_of [v / 2 ^ 24; (v / 2 ^ 16) mod 256; (v / 2 ^ 8) mod 256; v mod 256].

Definition rpc_call (x mt rv prog vers proc : Z) : list byte :=
  word_be x ++ word_be mt ++ word_be rv ++ word_be prog ++ word_be vers
  ++ word_be proc ++ word_be 0 ++ word_be 0.

(** The request of test_nfs_server.sh, for procedure [proc]. *)
Definition nfs_frame (dport : Z) (proc : Z) : list byte :=
  eth_ip 17 ++ udp_hdr dport ++ rpc_call 0x12345678 0 2 100003 3 proc.

(** An invocation at instant [t] on a stack of zeros. *)
Definition env_at (t : Z) (rs es : bool) : env :=
  {| now := t; req_slot := rs; ev_slot := es; residue := [] |}.

Definition env0 : env := env_at 1000 true true.

Definition http_entry (name : string) (hits : Z) : Http.file_cache_entry :=
  {| Http.ce_filename := name; Http.file_size := 4;
     Http.last_modified := 0; Http.cached_data := replicate 4 x00;
     Http.cache_hits := hits; Http.valid := true |}.

Definition http_cached (name : string) (hits : Z) : Http.state :=
  Http.set_file_cache {[ name := http_entry name hits ]} Http.init_state.

Definition get_static : list byte :=
  http_frame 8080 "GET /static.html HTTP/1.1".

Definition http_off : Http.config :=
  {| Http.enable_kernel_processing := false;
     Http.max_file_size := 4096; Http.cache_ttl_seconds := 300 |}.

(** The file that nfs_server.c creates and caches at start-up. *)
Definition test_txt : list byte :=
  list_byte_of_string "Hello from NFS server!" ++ [x0a].

Definition test_file : Nfs.file :=
  {| Nfs.st_mode := 0x81A4; Nfs.st_nlink := 1; Nfs.st_uid := 0;
     Nfs.st_gid := 0; Nfs.st_size := 23; Nfs.st_blocks := 8;
     Nfs.st_ino := 42; Nfs.st_atime := 0; Nfs.st_mtime := 0;
     Nfs.st_ctime := 0; Nfs.openable := true; Nfs.contents := test_txt |}.


Definition nfs_fs (f : Nfs.file) : Nfs.filesystem :=
  fun name => if decide (name = "test.txt"%string) then Some f else None.

(** A cache holding test.txt as cached at wall-clock second [wall], with
    a side table that sends the all-zero handle to it. *)
Definition nfs_cached (wall : Z) : Nfs.state :=
  Nfs.set_fh_to_name {[ Nfs.zero_fh := "test.txt"%string ]}
    (Nfs.set_cache
       {[ "test.txt"%string :=
            Nfs.fill_entry wall test_file "test.txt" test_txt ]}
       Nfs.init_state).

Definition get_test : list byte := http_frame 8080 "GET /test.txt HTTP/1.1".

Definition http_file : Http.file :=
  {| Http.st_reg := true; Http.st_size := 23; Http.st_mtime := 0;
     Http.openable := true; Http.contents := test_txt |}.

Definition http_fs : Http.filesystem :=
  fun name => if decide (name = "test.txt"%string) then Some http_file
              else None.

(** The file-fetch maps after the control plane cached test.txt. *)
Definition http_refreshed : Http.state :=
  (Http.cache_file_in_kernel true http_fs "test.txt" Http.init_state).2.

Definition test_rq (m : Http.http_method) : Http.request :=
  {| Http.r_method := m;
     Http.r_filename := list_byte_of_string "test.txt";
     Http.r_client_ip := 16777226; Http.r_client_port := 14640 |}.

Definition call_rpc (proc : Z) : Nfs.rpc_header :=
  {| Nfs.xid := 0x12345678; Nfs.msg_type := 0; Nfs.rpc_version := 2;
     Nfs.program := 100003; Nfs.version := 3; Nfs.procedure := proc;
     Nfs.auth_flavor := 0; Nfs.auth_len := 0 |}.

(** Bytes that may lie behind the literal "test.txt" in the image of
    nfs_server: the literal [main] uses next. *)
Definition image_tail : list byte :=
  list_byte_of_string "Pre-cached test.txt in kernel" ++ [x0a; x00].

(** The NFS maps after the control plane cached test.txt at start-up, at
    wall-clock second [wall]. *)
Definition nfs_refreshed_at (wall : Z) : Nfs.state :=
  (Nfs.cache_file_in_kernel true wall (nfs_fs test_file) "test.txt"
     image_tail Nfs.init_state).2.

Definition nfs_refreshed : Nfs.state := nfs_refreshed_at 0.





Definition nfs_off : Nfs.config :=
  {| Nfs.enable_kernel_processing := false;
     Nfs.max_cached_file_size := 4096; Nfs.cache_ttl_seconds := 300 |}.

(** ** The other programs of the two objects *)

(** [XDP_PASS] of [enum xdp_action] (vmlinux.h). *)
Definition XDP_PASS : Z := 2.

(** [fileserver_xdp]: the return value and the maps. *)
Definition fileserver_xdp (frame : list byte) (st : Http.state)
    : Z * Http.state :=
  let data_end := Z.of_nat (length frame) in
  if ETH_HLEN >? data_end then (XDP_PASS, st)
  else if negb (eth_proto frame =? ETH_P_IP) then (XDP_PASS, st)
  else if ETH_HLEN + IP_HLEN >? data_end then (XDP_PASS, st)
  else (XDP_PASS, Http.set_stats (update_stats 4 1 (Http.stats st)) st).

(** [nfs_server_xdp]: the return value and the maps. *)
Definition nfs_server_xdp (frame : list byte) (st : Nfs.state)
    : Z * Nfs.state :=
  let data_end := Z.of_nat (length frame) in
  if ETH_HLEN >? data_end then (XDP_PASS, st)
  else if negb (eth_proto frame =? ETH_P_IP) then (XDP_PASS, st)
  else if ETH_HLEN + IP_HLEN >? data_end then (XDP_PASS, st)
  else if negb (ip_protocol frame =? IPPROTO_UDP) then (XDP_PASS, st)
  else if l4_off frame + UDP_HLEN >? data_end then (XDP_PASS, st)
  else if l4_dest frame =? Nfs.NFS_PORT
       then (XDP_PASS, Nfs.set_stats (update_stats 4 1 (Nfs.nfs_stats st)) st)
  else (XDP_PASS, st).

(** [trace_file_open] of fileserver.bpf.c.  [filename] is the name read
    from the dentry, [None] when the pointer is null; the one
    reservation finds room when [req_slot] says so.  The record holds
    the name as [bpf_probe_read_str] stores it: at most
    [MAX_FILENAME_LEN - 1] characters of it, up to its NUL. *)
Definition trace_file_open (cfg : Http.config) (e : env)
    (filename : option (list byte)) (st : Http.state) : Z * Http.state :=
  if negb (Http.enable_kernel_processing cfg) then (0, st)
  else
    match filename with
    | None => (0, st)
    | Some name =>
        if negb (req_slot e) then (0, st)
        else
          let event :=
            {| Http.client_addr := 0; Http.client_port := 0;
               Http.operation := Http.FILE_OP_SUCCESS;
               Http.ev_filename :=
                 string_of_list_byte (take 255 (Nfs.c_string name));
               Http.ev_file_size := 0;
               Http.timestamp := now e;
               Http.forwarded_to_user := false |} in
          (0, Http.set_events (Http.events st ++ [Http.FileRecord event]) st)
    end.

(** [trace_openat] of nfs_server.bpf.c. *)
Definition trace_openat (cfg : Nfs.config) (st : Nfs.state) : Z * Nfs.state :=
  if negb (Nfs.enable_kernel_processing cfg) then (0, st)
  else (0, Nfs.set_stats (update_stats 3 1 (Nfs.nfs_stats st)) st).

(** The value of a counter of the statistics array; 0 stands for a
    failed lookup. *)
Definition stat_at (stats : list Z) (i : nat) : Z := default 0 (stats !! i).

(** The counter that the file-fetch decision code adds to for an
    outcome. *)
Definition http_counter (d : outcome) : nat :=
  match d with
  | KernelServed => 1
  | ForwardToControlPlane => 2
  | NotFound => 3
  | _ => 0
  end.

(** The file-fetch maps after [n] invocations of [fileserver_ingress],
    interleaved with any number of refreshes by the control plane and of
    invocations of [fileserver_xdp] and [trace_file_open]. *)
Inductive http_run : nat -> Http.state -> Prop :=
  | http_run_init : http_run 0 Http.init_state
  | http_run_refresh n st en fs name :
      http_run n st ->
      http_run n (Http.cache_file_in_kernel en fs name st).2
  | http_run_xdp n st frame :
      http_run n st -> http_run n (fileserver_xdp frame st).2
  | http_run_open n st cfg e filename :
      http_run n st -> http_run n (trace_file_open cfg e filename st).2
  | http_run_frame n st cfg e frame :
      http_run n st ->
      http_run (S n) (Http.st_out (Http.fileserver_ingress cfg e frame st)).

(** The same for the programs of nfs_server.bpf.c. *)
Inductive nfs_run : nat -> Nfs.state -> Prop :=
  | nfs_run_init : nfs_run 0 Nfs.init_state
  | nfs_run_refresh n st en wall fs name after :
      nfs_run n st ->
      nfs_run n (Nfs.cache_file_in_kernel en wall fs name after st).2
  | nfs_run_xdp n st frame :
      nfs_run n st -> nfs_run n (nfs_server_xdp frame st).2
  | nfs_run_openat n st cfg :
      nfs_run n st -> nfs_run n (trace_openat cfg st).2
  | nfs_run_frame n st cfg e frame :
      nfs_run n st ->
      nfs_run (S n) (Nfs.st_out (Nfs.nfs_server_tc cfg e frame st)).

(** The result code of the file event that goes with an outcome. *)
Definition http_operation (d : outcome) : Http.file_op_result :=
  match d with
  | KernelServed => Http.FILE_OP_SUCCESS
  | NotFound => Http.FILE_OP_NOT_FOUND
  | _ => Http.FILE_OP_FORWARD_TO_USER
  end.

(** What the counters of the file-fetch array satisfy after [n]
    invocations of the handler: kernel served, forwarded and not found
    never add up to more than the requests counted, which are at most
    [n]. *)
Definition http_stats_ok (n : nat) (s : list Z) : Prop :=
  length s = 16%nat /\
  0 <= stat_at s 1 /\ 0 <= stat_at s 2 /\ 0 <= stat_at s 3 /\
  stat_at s 1 + stat_at s 2 + stat_at s 3 <= stat_at s 0 /\
  stat_at s 0 <= Z.of_nat n.

(** The same for the remote-filesystem array, where every counted
    request is either kernel served or forwarded. *)
Definition nfs_stats_ok (n : nat) (s : list Z) : Prop :=
  length s = 16%nat /\
  0 <= stat_at s 1 /\ 0 <= stat_at s 2 /\
  stat_at s 1 + stat_at s 2 = stat_at s 0 /\
  stat_at s 0 <= Z.of_nat n.

(** The request record [fileserver_ingress] submits for [rq]. *)
Definition http_req_record (rq : Http.request) (in_kernel : bool)
    : Http.http_request :=
  {| Http.src_addr := Http.r_client_ip rq;
     Http.src_port := Http.r_client_port rq;
     Http.method := Http.r_method rq;
     Http.processed_in_kernel := in_kernel;
     Http.rq_filename := key_of_buffer (Http.r_filename rq);
     Http.content_length := 0 |}.

(** The request record [nfs_server_tc] submits for the call [rpc]: the
    handle, the offset, the count and the name are those of the zeroed
    record, for no code decodes them from the frame. *)
Definition nfs_req_record (frame : list byte) (rpc : Nfs.rpc_header)
    (in_kernel : bool) : Nfs.nfs_request :=
  {| Nfs.rq_client_addr := ip_saddr frame;
     Nfs.rq_client_port := l4_source frame;
     Nfs.rq_xid := Nfs.xid rpc; Nfs.rq_procedure := Nfs.procedure rpc;
     Nfs.processed_in_kernel := in_kernel; Nfs.rq_filename := "";
     Nfs.offset := 0; Nfs.count := 0; Nfs.fh := Nfs.zero_fh |}.

(** The declared sizes of the maps of fileserver.bpf.c. *)
Definition http_capacity (st : Http.state) : Prop :=
  (size (Http.file_cache st) <= 1024)%nat /\
  (size (Http.conn_track st) <= 4096)%nat /\
  length (Http.stats st) = 16%nat.

(** The declared sizes of the maps of nfs_server.bpf.c. *)
Definition nfs_capacity (st : Nfs.state) : Prop :=
  (size (Nfs.nfs_file_cache st) <= 1024)%nat /\
  (size (Nfs.fh_to_name st) <= 2048)%nat /\
  (size (Nfs.client_track st) <= 1024)%nat /\
  length (Nfs.nfs_stats st) = 16%nat.

(** Every handle in the side table has the length [put_handle] stores. *)
Definition handle_table_ok (st : Nfs.state) : Prop :=
  forall h name, Nfs.fh_to_name st !! h = Some name -> Nfs.fh_len h = 8.

(** No entry of the cache store was ever hit. *)
Definition never_hit (st : Nfs.state) : Prop :=
  forall k ce, Nfs.nfs_file_cache st !! k = Some ce -> Nfs.cache_hits ce = 0.

(** ** The request line, read as a list of characters *)

(** The characters that end the name in [extract_filename]: space,
    question mark, carriage return and line feed. *)
Definition delimiter (b : byte) : bool :=
  (ch b =? ch " "%byte) || (ch b =? ch "?"%byte) ||
  (ch b =? 13) || (ch b =? 10).

Fixpoint until_delimiter (l : list byte) : list byte :=
  match l with
  | [] => []
  | b :: rest => if delimiter b then [] else b :: until_delimiter rest
  end.

(** The name of a payload that starts with [GET /]: what follows, up to
    the first delimiter and at most eight characters of it. *)
Definition requested_name (payload : list byte) : list byte :=
  if bool_decide (take 5 payload = list_byte_of_string "GET /")
  then until_delimiter (take 8 (drop 5 payload))
  else [].

Definition post_test : list byte := http_frame 80 "POST /test.txt HTTP/1.1".

(** ** The client tables *)



(** The names [check_file_exists] lets through: those that start with
    [ind], [sta] or [tes]. *)
Definition servable_name (name : list byte) : Prop :=
  take 3 name = list_byte_of_string "ind" \/
  take 3 name = list_byte_of_string "sta" \/
  take 3 name = list_byte_of_string "tes".

Definition get_hello : list byte := http_frame 80 "GET /hello.txt HTTP/1.1".

(** The handle the control plane derives for a name. *)
Definition handle_of (name : string) : Nfs.nfs_fh :=
  Nfs.generate_nfs_file_handle (list_byte_of_string name) Nfs.zero_fh.

(** An export directory in which every name is the test file. *)
Definition every_name : Nfs.filesystem := fun _ => Some test_file.

(** ** The control plane of the remote-filesystem variant: nfs_server.c *)

Module NfsControl.

(** [struct nfs_server_stats]; the counters are [uint64_t]. *)
Record nfs_server_stats := {
  total_requests : Z;
  kernel_processed : Z;
  user_processed : Z;
  cache_hits : Z;
  cache_misses : Z;
  file_not_found : Z;
  access_denied : Z;
  errors : Z
}.

Definition stats0 : nfs_server_stats :=
  {| total_requests := 0; kernel_processed := 0; user_processed := 0;
     cache_hits := 0; cache_misses := 0; file_not_found := 0;
     access_denied := 0; errors := 0 |}.

(** A reply under construction: the buffer [response], whose initial
    content is whatever the stack held, and the cursor [p] as an offset
    into it.  Every store of the two handlers lies inside the buffer. *)
Record cursor := {
  buf : list byte;
  pos : nat
}.

(** A store of [bs] at offset [off]. *)
Definition poke (b : list byte) (off : nat) (bs : list byte) : list byte :=
  take off b ++ bs ++ drop (off + length bs) b.

(** The four bytes [htonl(val)] leaves in memory. *)
Definition be_bytes (val : Z) : list byte :=
  let v := wrap32 val in
  bytes_of [v / 2 ^ 24; (v / 2 ^ 16) mod 256; (v / 2 ^ 8) mod 256; v mod 256].

(** [xdr_encode_u32(&p, val)] *)
Definition xdr_encode_u32 (val : Z) (c : cursor) : cursor :=
  {| buf := poke (buf c) (pos c) (be_bytes val); pos := pos c + 4 |}.

(** [xdr_encode_u64(&p, val)] *)
Definition xdr_encode_u64 (val : Z) (c : cursor) : cursor :=
  let v := wrap64 val in
  xdr_encode_u32 (Z.land v 0xFFFFFFFF) (xdr_encode_u32 (Z.shiftr v 32) c).

(** [xdr_decode_u32(&p)]: the value and the cursor after it. *)
Definition xdr_decode_u32 (buffer : list byte) (p : Z) : Z * Z :=
  (be32 buffer p, p + 4).

(** What [sendto(client_sock, response, p - response, ...)] sends. *)
Definition sent (c : cursor) : list byte := take (pos c) (buf c).

(** The RPC reply header both handlers encode. *)
Definition reply_header (xid : Z) (c : cursor) : cursor :=
  xdr_encode_u32 0 (xdr_encode_u32 0 (xdr_encode_u32 0 (xdr_encode_u32 0
    (xdr_encode_u32 1 (xdr_encode_u32 xid c))))).

Definition count_user_processed (s : nfs_server_stats) : nfs_server_stats :=
  {| total_requests := total_requests s;
     kernel_processed := kernel_processed s;
     user_processed := wrap64 (user_processed s + 1);
     cache_hits := cache_hits s; cache_misses := cache_misses s;
     file_not_found := file_not_found s;
     access_denied := access_denied s; errors := errors s |}.

(** [handle_nfs_getattr(client_sock, client_addr, request, req_len, xid)]:
    the datagram sent and the statistics.  [fs] resolves a name below
    the export root, [stack] is the initial content of [response]. *)
Definition handle_nfs_getattr (fs : Nfs.filesystem) (stack : list byte)
    (request : list byte) (req_len : Z) (xid : Z) (s : nfs_server_stats)
    : list byte * nfs_server_stats :=
  let filename := "test.txt"%string in
  let c := reply_header xid {| buf := stack; pos := 0 |} in
  match fs filename with
  | None => (sent (xdr_encode_u32 2 c), s)
  | Some st =>
      let c := xdr_encode_u32 0 c in
      let c := xdr_encode_u32 (if Nfs.S_ISDIR (Nfs.st_mode st) then 2 else 1) c in
      let c := xdr_encode_u32 (Nfs.st_mode st) c in
      let c := xdr_encode_u32 (Nfs.st_nlink st) c in
      let c := xdr_encode_u32 (Nfs.st_uid st) c in
      let c := xdr_encode_u32 (Nfs.st_gid st) c in
      let c := xdr_encode_u64 (Nfs.st_size st) c in
      let c := xdr_encode_u64 (Nfs.st_blocks st * 512) c in
      let c := xdr_encode_u64 1 c in
      let c := xdr_encode_u64 (Nfs.st_ino st) c in
      let c := xdr_encode_u64 (Nfs.st_atime st) c in
      let c := xdr_encode_u32 0 c in
      let c := xdr_encode_u64 (Nfs.st_mtime st) c in
      let c := xdr_encode_u32 0 c in
      let c := xdr_encode_u64 (Nfs.st_ctime st) c in
      let c := xdr_encode_u32 0 c in
      (sent c, count_user_processed s)
  end.

(** [handle_nfs_read]: [offset] is 0 and [count] is 1024.  [read] on a
    directory fails; on any other file that [open] accepts it delivers
    up to [count] bytes of the content. *)
Definition handle_nfs_read (fs : Nfs.filesystem) (stack : list byte)
    (request : list byte) (req_len : Z) (xid : Z) (s : nfs_server_stats)
    : list byte * nfs_server_stats :=
  let filename := "test.txt"%string in
  let count := 1024%nat in
  let c := reply_header xid {| buf := stack; pos := 0 |} in
  let no_entry := (sent (xdr_encode_u32 2 c), s) in
  match fs filename with
  | None => no_entry
  | Some f =>
      if negb (Nfs.openable f) then no_entry
      else if Nfs.S_ISDIR (Nfs.st_mode f)
      then (sent (xdr_encode_u32 5 c), s)          (* bytes_read < 0 *)
      else
        let data := take count (Nfs.contents f) in
        let bytes_read := Z.of_nat (length data) in
        (* read(fd, p + 12, count) *)
        let c := {| buf := poke (buf c) (pos c + 12) data; pos := pos c |} in
        let c := xdr_encode_u32 0 c in
        let c := xdr_encode_u32 bytes_read c in
        let c := xdr_encode_u32
                   (if bytes_read <? Z.of_nat count then 1 else 0) c in
        let c := xdr_encode_u32 bytes_read c in
        (* p += bytes_read *)
        let c := {| buf := buf c; pos := pos c + length data |} in
        (sent c, count_user_processed s)
  end.

Definition count_request (s : nfs_server_stats) : nfs_server_stats :=
  {| total_requests := wrap64 (total_requests s + 1);
     kernel_processed := kernel_processed s;
     user_processed := user_processed s;
     cache_hits := cache_hits s; cache_misses := cache_misses s;
     file_not_found := file_not_found s;
     access_denied := access_denied s; errors := errors s |}.

(** [process_nfs_request(client_sock, client_addr, buffer, len)]: the
    datagram sent, if any, and the statistics. *)
Definition process_nfs_request (fs : Nfs.filesystem) (stack : list byte)
    (buffer : list byte) (len : Z) (s : nfs_server_stats)
    : option (list byte) * nfs_server_stats :=
  if len <? 24 then (None, s)
  else
    let '(xid, p) := xdr_decode_u32 buffer 0 in
    let '(msg_type, p) := xdr_decode_u32 buffer p in
    let '(rpc_vers, p) := xdr_decode_u32 buffer p in
    let '(prog, p) := xdr_decode_u32 buffer p in
    let '(vers, p) := xdr_decode_u32 buffer p in
    let '(proc, p) := xdr_decode_u32 buffer p in
    if negb (msg_type =? 0) || negb (rpc_vers =? 2)
       || negb (prog =? Nfs.RPC_PROGRAM_NFS)
       || negb (vers =? Nfs.NFS_VERSION_3)
    then (None, s)
    else
      let s := count_request s in
      if proc =? Nfs.NFSPROC3_GETATTR then
        let '(reply, s) := handle_nfs_getattr fs stack buffer len xid s in
        (Some reply, s)
      else if proc =? Nfs.NFSPROC3_READ then
        let '(reply, s) := handle_nfs_read fs stack buffer len xid s in
        (Some reply, s)
      else (None, s).

(** [handle_event(ctx, data, data_sz)]: the two record types differ in
    size, which is how the handler tells them apart. *)
Definition handle_event (s : nfs_server_stats) (r : Nfs.record)
    : nfs_server_stats :=
  match r with
  | Nfs.ReqRecord _ => s
  | Nfs.EventRecord event =>
      let hits := if Nfs.from_cache event
                  then wrap64 (cache_hits s + 1) else cache_hits s in
      let misses := if negb (Nfs.from_cache event)
                       && Nfs.forwarded_to_user event
                    then wrap64 (cache_misses s + 1) else cache_misses s in
      let kernel :=
        if match Nfs.result event with
           | Nfs.NFS_OP_SUCCESS => true
           | _ => false
           end && negb (Nfs.forwarded_to_user event)
        then wrap64 (kernel_processed s + 1) else kernel_processed s in
      {| total_requests := total_requests s;
         kernel_processed := kernel;
         user_processed := user_processed s;
         cache_hits := hits; cache_misses := misses;
         file_not_found := file_not_found s;
         access_denied := access_denied s; errors := errors s |}
  end.

(** [ring_buffer__poll]: the handler runs on each record, oldest first. *)
Definition poll (records : list Nfs.record) (s : nfs_server_stats)
    : nfs_server_stats :=
  foldl handle_event s records.

(** The same encodings as byte strings. *)
Definition u64_bytes (val : Z) : list byte :=
  let v := wrap64 val in
  be_bytes (Z.shiftr v 32) ++ be_bytes (Z.land v 0xFFFFFFFF).

Definition header_bytes (xid : Z) : list byte :=
  be_bytes xid ++ be_bytes 1 ++ be_bytes 0 ++ be_bytes 0 ++ be_bytes 0
  ++ be_bytes 0.

(** The attributes of a [struct nfs_fattr], in the order and the widths
    of the GETATTR reply. *)
Definition fattr_bytes (a : Nfs.nfs_fattr) : list byte :=
  be_bytes (Nfs.type a) ++ be_bytes (Nfs.mode a) ++ be_bytes (Nfs.nlink a)
  ++ be_bytes (Nfs.uid a) ++ be_bytes (Nfs.gid a)
  ++ u64_bytes (Nfs.attr_size a) ++ u64_bytes (Nfs.used a)
  ++ u64_bytes (Nfs.fsid a) ++ u64_bytes (Nfs.fileid a)
  ++ u64_bytes (Nfs.atime_sec a) ++ be_bytes (Nfs.atime_nsec a)
  ++ u64_bytes (Nfs.mtime_sec a) ++ be_bytes (Nfs.mtime_nsec a)
  ++ u64_bytes (Nfs.ctime_sec a) ++ be_bytes (Nfs.ctime_nsec a).

End NfsControl.

(** A GETATTR call cut after the six words that [process_nfs_request]
    decodes. *)
Definition short_call : list byte :=
  eth_ip 17 ++ udp_hdr 2049 ++ take 24 (rpc_call 0x12345678 0 2 100003 3 1).

(** A reply buffer as the stack may hold it. *)
Definition stale_stack : list byte := replicate 4096 xff.

(** ** The control plane of the file-fetch variant: fileserver.c *)

Module FileControl.

(** [struct server_stats]; the counters are [uint64_t]. *)
Record server_stats := {
  total_requests : Z;
  kernel_processed : Z;
  user_processed : Z;
  cache_hits : Z;
  cache_misses : Z;
  file_not_found : Z;
  errors : Z
}.

Definition stats0 : server_stats :=
  {| total_requests := 0; kernel_processed := 0; user_processed := 0;
     cache_hits := 0; cache_misses := 0; file_not_found := 0; errors := 0 |}.

Definition crlf : string :=
  String (Ascii.ascii_of_nat 13) (String (Ascii.ascii_of_nat 10) EmptyString).

Definition status_text (status_code : Z) : string :=
  if status_code =? 200 then "OK"
  else if status_code =? 404 then "Not Found"
  else if status_code =? 500 then "Internal Server Error"
  else "Unknown".

(** The header [snprintf] formats.  Every caller passes one of a few
    literals as [content_type], so the header stays far below the 512
    bytes of the buffer and [header_len] is its length. *)
Definition response_header (status_code : Z) (content_type : string)
    (body_len : Z) : string :=
  "HTTP/1.1 " +:+ pretty status_code +:+ " " +:+ status_text status_code
  +:+ crlf
  +:+ "Content-Type: " +:+ content_type +:+ crlf
  +:+ "Content-Length: " +:+ pretty body_len +:+ crlf
  +:+ "Connection: close" +:+ crlf
  +:+ crlf.

(** [send_http_response(client_sock, status_code, content_type, body,
    body_len)]: the bytes sent on the connection. *)
Definition send_http_response (status_code : Z) (content_type : string)
    (body : list byte) (body_len : Z) : list byte :=
  list_byte_of_string (response_header status_code content_type body_len)
  ++ (if body_len >? 0 then take (Z.to_nat body_len) body else []).

(** [strstr(haystack, needle) != NULL] *)
Fixpoint strstr (haystack needle : string) : bool :=
  String.prefix needle haystack ||
  match haystack with
  | EmptyString => false
  | String _ rest => strstr rest needle
  end.

Definition count_not_found (s : server_stats) : server_stats :=
  {| total_requests := total_requests s;
     kernel_processed := kernel_processed s;
     user_processed := user_processed s;
     cache_hits := cache_hits s; cache_misses := cache_misses s;
     file_not_found := wrap64 (file_not_found s + 1);
     errors := errors s |}.

Definition count_error (s : server_stats) : server_stats :=
  {| total_requests := total_requests s;
     kernel_processed := kernel_processed s;
     user_processed := user_processed s;
     cache_hits := cache_hits s; cache_misses := cache_misses s;
     file_not_found := file_not_found s;
     errors := wrap64 (errors s + 1) |}.

Definition count_user_processed (s : server_stats) : server_stats :=
  {| total_requests := total_requests s;
     kernel_processed := kernel_processed s;
     user_processed := wrap64 (user_processed s + 1);
     cache_hits := cache_hits s; cache_misses := cache_misses s;
     file_not_found := file_not_found s;
     errors := errors s |}.

Definition count_request (s : server_stats) : server_stats :=
  {| total_requests := wrap64 (total_requests s + 1);
     kernel_processed := kernel_processed s;
     user_processed := user_processed s;
     cache_hits := cache_hits s; cache_misses := cache_misses s;
     file_not_found := file_not_found s;
     errors := errors s |}.

Definition count_kernel_processed (s : server_stats) : server_stats :=
  {| total_requests := total_requests s;
     kernel_processed := wrap64 (kernel_processed s + 1);
     user_processed := user_processed s;
     cache_hits := cache_hits s; cache_misses := cache_misses s;
     file_not_found := file_not_found s;
     errors := errors s |}.

Definition content_type_of (filename : string) : string :=
  if strstr filename ".html" || strstr filename ".htm" then "text/html"
  else if strstr filename ".css" then "text/css"
  else if strstr filename ".js" then "application/javascript"
  else if strstr filename ".jpg" || strstr filename ".jpeg" then "image/jpeg"
  else if strstr filename ".png" then "image/png"
  else "text/plain".

Definition body_of (s : string) : list byte := list_byte_of_string s.

Definition server_error (s : server_stats) : Z * list byte * server_stats :=
  (-1,
   send_http_response 500 "text/plain" (body_of "Internal Server Error") 21,
   count_error s).

(** [serve_file(client_sock, filename)]: the return value, the bytes sent
    and the statistics.  [fs] resolves a name below the document root;
    [malloc_ok] tells whether [malloc] succeeds. *)
Definition serve_file (fs : Http.filesystem) (malloc_ok : bool)
    (filename : string) (s : server_stats)
    : Z * list byte * server_stats :=
  let not_found :=
    let body :=
      body_of "<html><body><h1>404 Not Found</h1></body></html>" in
    (-1, send_http_response 404 "text/html" body (Z.of_nat (length body)),
     count_not_found s) in
  if strstr filename ".." || strstr filename "//" then
    (-1, send_http_response 403 "text/plain" (body_of "Forbidden") 9, s)
  else
    match fs filename with
    | None => not_found
    | Some f =>
        if negb (Http.st_reg f) then not_found
        else if negb (Http.openable f) then server_error s
        else if negb malloc_ok then server_error s
        else
          let buffer := take (Z.to_nat (Http.st_size f)) (Http.contents f) in
          let bytes_read := Z.of_nat (length buffer) in
          if negb (bytes_read =? Http.st_size f) then server_error s
          else
            (0,
             send_http_response 200 (content_type_of filename) buffer
               bytes_read,
             count_user_processed s)
    end.

(** [isspace] in the C locale. *)
Definition isspace (b : byte) : bool :=
  (ch b =? 32) || ((9 <=? ch b) && (ch b <=? 13)).

Fixpoint skip_space (s : list byte) : list byte :=
  match s with
  | [] => []
  | b :: rest => if isspace b then skip_space rest else s
  end.

(** The characters a [%Ns] directive stores, and the input left. *)
Fixpoint scan_chars (width : nat) (s : list byte) : list byte * list byte :=
  match width, s with
  | S w, b :: rest =>
      if isspace b then ([], s)
      else let '(token, input) := scan_chars w rest in (b :: token, input)
  | _, _ => ([], s)
  end.

(** A [%Ns] directive: white space is skipped, then up to N characters
    that are not white space are stored; the directive fails when the
    input ends first. *)
Definition scan_s (width : nat) (s : list byte)
    : option (list byte * list byte) :=
  match skip_space s with
  | [] => None
  | s' => Some (scan_chars width s')
  end.

(** [sscanf(request, "%15s %255s %15s", method, path, version) == 3],
    with the three strings stored. *)
Definition sscanf3 (request : list byte)
    : option (list byte * list byte * list byte) :=
  match scan_s 15 request with
  | None => None
  | Some (method, input) =>
      match scan_s 255 input with
      | None => None
      | Some (path, input) =>
          match scan_s 15 input with
          | None => None
          | Some (version, _) => Some (method, path, version)
          end
      end
  end.

(** The name [handle_http_request] derives from the path. *)
Definition filename_of (path : list byte) : string :=
  if bool_decide (path = list_byte_of_string "/") then "index.html"
  else string_of_list_byte (take 255 (drop 1 path)).

(** [handle_http_request(client_sock, request, skel)]: the bytes sent,
    the maps and the statistics.  [request] holds the characters of the
    request up to its terminating NUL. *)
Definition handle_http_request (enable_kernel_cache : bool)
    (fs : Http.filesystem) (malloc_ok : bool) (request : list byte)
    (st : Http.state) (s : server_stats)
    : list byte * Http.state * server_stats :=
  match sscanf3 request with
  | None =>
      (send_http_response 400 "text/plain" (body_of "Bad Request") 11, st, s)
  | Some (method, path, version) =>
      let filename := filename_of path in
      if bool_decide (method = list_byte_of_string "GET") then
        let '(_, st) :=
          Http.cache_file_in_kernel enable_kernel_cache fs filename st in
        let '(_, response, s) := serve_file fs malloc_ok filename s in
        (response, st, count_request s)
      else
        (send_http_response 405 "text/plain" (body_of "Method Not Allowed")
           18,
         st, count_request s)
  end.

(** [handle_event(ctx, data, data_sz)]: the two record types differ in
    size, which is how the handler tells them apart. *)
Definition handle_event (s : server_stats) (r : Http.record) : server_stats :=
  match r with
  | Http.ReqRecord req =>
      if Http.processed_in_kernel req then count_kernel_processed s else s
  | Http.FileRecord _ => s
  end.

(** [ring_buffer__poll]: the handler runs on each record, oldest first. *)
Definition poll (records : list Http.record) (s : server_stats)
    : server_stats :=
  foldl handle_event s records.

End FileControl.

(** A request for a file above the document root, and a file system in
    which that path is a small regular file. *)
Definition get_above : list byte :=
  list_byte_of_string "GET /../secret HTTP/1.1".

Definition fs_above : Http.filesystem :=
  fun name => if decide (name = "../secret"%string) then Some http_file
              else None.

(** A name without white space and without the characters at which the
    engine's extractor stops. *)
Definition plain_name (name : list byte) : Prop :=
  Forall (fun b => FileControl.isspace b = false /\ delimiter b = false /\
                   b <> x00) name.

(** The request line of a GET for [name]. *)
Definition get_line (name : list byte) : list byte :=
  list_byte_of_string "GET /" ++ name ++ list_byte_of_string " HTTP/1.1".

(** ** Names, entries and handles *)

(** Each file-fetch entry carries the name it is stored under. *)
Definition http_names_ok (st : Http.state) : Prop :=
  forall k ce, Http.file_cache st !! k = Some ce ->
               Http.ce_filename ce = Http.strncpy_name k.

(** Each NFS entry was filled for a name: it carries that name (cut to
    255 characters) and the handle of that name, and it is stored under
    the 256 bytes found at the pointer to that name, which are the name
    followed by what the memory holds behind it.  The side table sends
    the handle of a name to such a key, and that key is in the cache. *)
Definition nfs_names_ok (st : Nfs.state) : Prop :=
  (forall k ce, Nfs.nfs_file_cache st !! k = Some ce ->
                exists name after,
                  k = Nfs.name_key name after /\
                  Nfs.ce_filename ce = Nfs.strncpy_name name /\
                  Nfs.ce_fh ce = handle_of name) /\
  (forall h v, Nfs.fh_to_name st !! h = Some v ->
               exists name after,
                 v = Nfs.name_key name after /\
                 h = handle_of name /\
                 is_Some (Nfs.nfs_file_cache st !! v)).

(** * Properties *)

(** ** Proof steps shared by the theorems *)

Ltac to_prop :=
  repeat match goal with
  | H : negb _ = true |- _ => apply Bool.negb_true_iff in H
  | H : negb _ = false |- _ => apply Bool.negb_false_iff in H
  | H : (_ && _) = true |- _ => apply Bool.andb_true_iff in H; destruct H
  | H : (_ || _) = false |- _ => apply Bool.orb_false_iff in H; destruct H
  | H : (_ >? _) = _ |- _ => rewrite Z.gtb_ltb in H
  | H : (_ >=? _) = _ |- _ => rewrite Z.geb_leb in H
  | H : (_ <? _) = true |- _ => apply Z.ltb_lt in H
  | H : (_ <? _) = false |- _ => apply Z.ltb_ge in H
  | H : (_ <=? _) = true |- _ => apply Z.leb_le in H
  | H : (_ <=? _) = false |- _ => apply Z.leb_gt in H
  | H : (_ =? _) = true |- _ => apply Z.eqb_eq in H
  | H : (_ =? _) = false |- _ => apply Z.eqb_neq in H
  end.

Ltac walk tac :=
  repeat match goal with
  | |- context [if ?b then _ else _] => destruct b; try tac
  | |- context [match ?x with _ => _ end] => destruct x; try tac
  end.

Lemma serve_verdict cfg e frame p len st :
  Http.verdict (Http.serve cfg e frame p len st) = TC_ACT_OK /\
  Http.skb_out (Http.serve cfg e frame p len st) = frame.
Proof.
  unfold Http.serve, Http.pass.
  destruct (bool_decide _); [split; reflexivity|].
  destruct (negb (req_slot e)); [split; reflexivity|].
  destruct (Http.decide_request _ _ _ _) as [[[d ik] fev] st2].
  split; reflexivity.
Qed.

(** The ways through [fileserver_ingress]: the frame is passed through,
    or the request record finds no room, or the decision is taken. *)
Lemma http_cases cfg e frame st :
  let r := Http.fileserver_ingress cfg e frame st in
  let st1 := Http.set_stats (update_stats 0 1 (Http.stats st)) st in
  r = Http.pass frame st \/
  (req_slot e = false /\
   r = {| Http.verdict := TC_ACT_OK; Http.decision := NoDecision;
          Http.skb_out := frame; Http.st_out := st1 |}) \/
  (req_slot e = true /\
   exists rq, r = Http.submit e frame rq (Http.decide_request cfg e rq st1)).
Proof.
  cbv zeta. unfold Http.fileserver_ingress.
  destruct (Http.walk_headers frame) as [[p len]|]; [|by left].
  unfold Http.serve.
  destruct (bool_decide _); [by left|].
  right. destruct (req_slot e); simpl; [right|left]; eauto.
Qed.

Lemma http_verdict cfg e frame st :
  Http.verdict (Http.fileserver_ingress cfg e frame st) = TC_ACT_OK /\
  Http.skb_out (Http.fileserver_ingress cfg e frame st) = frame.
Proof.
  unfold Http.fileserver_ingress.
  destruct (Http.walk_headers frame) as [[p len]|]; [|by split].
  apply serve_verdict.
Qed.

Lemma nfs_verdict cfg e frame st :
  Nfs.verdict (Nfs.nfs_server_tc cfg e frame st) = TC_ACT_OK /\
  Nfs.skb_out (Nfs.nfs_server_tc cfg e frame st) = frame.
Proof.
  unfold Nfs.nfs_server_tc, Nfs.pass.
  walk ltac:(split; reflexivity).
Qed.

(** Either the file-fetch engine passes the frame through untouched, or
    the frame is IPv4, TCP, to port 80 or 8080. *)
Lemma http_walk_Some frame p len :
  Http.walk_headers frame = Some (p, len) ->
  eth_proto frame = ETH_P_IP /\ ip_protocol frame = IPPROTO_TCP /\
  (l4_dest frame = 80 \/ l4_dest frame = 8080).
Proof.
  unfold Http.walk_headers.
  destruct (ETH_HLEN >? _); [done|].
  destruct (eth_proto frame =? ETH_P_IP) eqn:He; simpl; [|done].
  destruct (ETH_HLEN + IP_HLEN >? _); [done|].
  destruct (ip_protocol frame =? IPPROTO_TCP) eqn:Hp; simpl; [|done].
  destruct (l4_off frame + TCP_HLEN >? _); [done|].
  destruct (negb (l4_dest frame =? 80) && negb (l4_dest frame =? 8080))
    eqn:Hd; [done|].
  intros _. to_prop. repeat split; try done.
  apply Bool.andb_false_iff in Hd as [Hd|Hd]; to_prop; auto.
Qed.

Lemma http_walk cfg e frame st :
  Http.fileserver_ingress cfg e frame st = Http.pass frame st \/
  (eth_proto frame = ETH_P_IP /\ ip_protocol frame = IPPROTO_TCP /\
   (l4_dest frame = 80 \/ l4_dest frame = 8080)).
Proof.
  unfold Http.fileserver_ingress.
  destruct (Http.walk_headers frame) as [[p len]|] eqn:Hw; [|by left].
  right. by eapply http_walk_Some.
Qed.

Lemma extract_be32_in_bounds frame p off :
  0 <= off -> off + 4 <= Nfs.RPC_HEADER_SIZE ->
  p + Nfs.RPC_HEADER_SIZE <= Z.of_nat (length frame) ->
  Nfs.extract_be32 frame p off = be32 frame (p + off).
Proof.
  intros H0 H1 H2. unfold Nfs.extract_be32.
  destruct (p + off + 4 >? _) eqn:Hb; [|done].
  unfold Nfs.RPC_HEADER_SIZE in *. to_prop. lia.
Qed.

(** Either the remote-filesystem engine passes the frame through
    untouched, or the frame is IPv4, UDP, to port 2049, and carries the
    envelope of an NFSv3 call. *)
Lemma nfs_walk_Some frame p len :
  Nfs.walk_headers frame = Some (p, len) ->
  eth_proto frame = ETH_P_IP /\ ip_protocol frame = IPPROTO_UDP /\
  l4_dest frame = Nfs.NFS_PORT /\ p = l4_off frame + UDP_HLEN.
Proof.
  unfold Nfs.walk_headers.
  destruct (ETH_HLEN >? _); [done|].
  destruct (eth_proto frame =? ETH_P_IP) eqn:He; simpl; [|done].
  destruct (ETH_HLEN + IP_HLEN >? _); [done|].
  destruct (ip_protocol frame =? IPPROTO_UDP) eqn:Hp; simpl; [|done].
  destruct (l4_off frame + UDP_HLEN >? _); [done|].
  destruct (l4_dest frame =? Nfs.NFS_PORT) eqn:Hd; simpl; [|done].
  destruct (l4_off frame + UDP_HLEN >=? _); [done|].
  destruct (wrap16 _ <? _); [done|].
  intros [= <- <-]. to_prop. by repeat split.
Qed.

Lemma nfs_walk cfg e frame st :
  Nfs.nfs_server_tc cfg e frame st = Nfs.pass frame st \/
  (eth_proto frame = ETH_P_IP /\ ip_protocol frame = IPPROTO_UDP /\
   l4_dest frame = Nfs.NFS_PORT /\
   rpc_word frame 1 = Nfs.RPC_CALL /\ rpc_word frame 2 = 2 /\
   rpc_word frame 3 = Nfs.RPC_PROGRAM_NFS /\
   rpc_word frame 4 = Nfs.NFS_VERSION_3).
Proof.
  unfold Nfs.nfs_server_tc.
  destruct (Nfs.walk_headers frame) as [[p len]|] eqn:Hw; [|by left].
  apply nfs_walk_Some in Hw as (He & Hp & Hd & ->).
  unfold Nfs.parse_rpc_header.
  destruct (len <? _); [by left|].
  destruct (l4_off frame + UDP_HLEN + Nfs.RPC_HEADER_SIZE >? _) eqn:Hb;
    [by left|].
  unfold Nfs.not_nfs_call.
  cbn [Nfs.msg_type Nfs.rpc_version Nfs.program Nfs.version].
  to_prop.
  rewrite !extract_be32_in_bounds by (unfold Nfs.RPC_HEADER_SIZE in *; lia).
  destruct (_ || _) eqn:Hv; [by left|].
  right. to_prop. unfold rpc_word. by repeat split.
Qed.

(** ** C10 *)

(** C10.  Both per-frame handlers are total functions of the frame, the
    maps and the environment, and on every input they hand the stack the
    verdict [TC_ACT_OK] together with the frame they were given: no
    branch returns another verdict and none touches the bytes of the
    frame, whatever the decision is. *)
Theorem handlers_always_return_tc_act_ok :
  (forall cfg e frame st,
     Http.verdict (Http.fileserver_ingress cfg e frame st) = TC_ACT_OK /\
     Http.skb_out (Http.fileserver_ingress cfg e frame st) = frame) /\
  (forall cfg e frame st,
     Nfs.verdict (Nfs.nfs_server_tc cfg e frame st) = TC_ACT_OK /\
     Nfs.skb_out (Nfs.nfs_server_tc cfg e frame st) = frame).
Proof. split; [apply http_verdict | apply nfs_verdict]. Qed.

(** ** C4 *)

(** C4.  A frame that is not IPv4 over Ethernet, or not of the variant's
    transport, or not to the variant's port(s), and, in the
    remote-filesystem variant, a frame whose RPC envelope is not an NFSv3
    call (message type, RPC version, program or program version wrong),
    is passed through: the handler returns at a point labelled
    [PassThrough] with every map and the event channel exactly as they
    were. *)
Theorem unrecognised_frame_changes_nothing :
  (forall cfg e frame st,
     http_mismatch frame ->
     Http.fileserver_ingress cfg e frame st = Http.pass frame st) /\
  (forall cfg e frame st,
     nfs_mismatch frame \/ bad_envelope frame ->
     Nfs.nfs_server_tc cfg e frame st = Nfs.pass frame st).
Proof.
  split; intros cfg e frame st H.
  - destruct (http_walk cfg e frame st) as [|(He & Hp & Hd)]; [done|].
    unfold http_mismatch in H. exfalso. intuition congruence.
  - destruct (nfs_walk cfg e frame st)
      as [|(He & Hp & Hd & H1 & H2 & H3 & H4)]; [done|].
    unfold nfs_mismatch, bad_envelope in H. exfalso. intuition congruence.
Qed.

(** The ways through [nfs_server_tc]: the frame is passed through, or
    one of the two records finds no room (after the client tracker was
    touched), or the decision is taken. *)
Lemma nfs_cases cfg e frame st :
  let r := Nfs.nfs_server_tc cfg e frame st in
  let ip := ip_saddr frame in
  r = Nfs.pass frame st \/
  (req_slot e && ev_slot e = false /\
   r = {| Nfs.verdict := TC_ACT_OK; Nfs.decision := NoDecision;
          Nfs.skb_out := frame; Nfs.st_out := (Nfs.touch e ip st).1 |}) \/
  (req_slot e = true /\ ev_slot e = true /\
   exists rpc,
     let d := Nfs.decide_request cfg e rpc ip (l4_source frame)
                (Nfs.touch e ip st).2 (Nfs.touch e ip st).1 in
     r = {| Nfs.verdict := TC_ACT_OK; Nfs.decision := d.1;
            Nfs.skb_out := frame; Nfs.st_out := d.2 |}).
Proof.
  cbv zeta. unfold Nfs.nfs_server_tc.
  destruct (Nfs.walk_headers frame) as [[p len]|]; [|by left].
  destruct (Nfs.parse_rpc_header _ _ _) as [rpc|]; [|by left].
  destruct (Nfs.not_nfs_call rpc) eqn:Hv; [by left|].
  right.
  destruct (Nfs.touch e (ip_saddr frame) st) as [st1 in_map]; simpl.
  destruct (req_slot e); simpl; [|by left].
  destruct (ev_slot e); simpl; [|by left].
  right. split; [done|]. split; [done|]. exists rpc.
  by destruct (Nfs.decide_request _ _ _ _ _ _ _).
Qed.

Lemma unrecognised_frame_changes_nothing_witness :
  Http.fileserver_ingress Http.default_config env0
    (http_frame 81 "GET / HTTP/1.1") http_refreshed
  = Http.pass (http_frame 81 "GET / HTTP/1.1") http_refreshed /\
  Nfs.nfs_server_tc Nfs.default_config env0
    (eth_ip 17 ++ udp_hdr 2049 ++ rpc_call 7 0 3 100003 3 1) (nfs_cached 0)
  = Nfs.pass (eth_ip 17 ++ udp_hdr 2049 ++ rpc_call 7 0 3 100003 3 1)
      (nfs_cached 0).
Proof.
  split.
  - apply (proj1 unrecognised_frame_changes_nothing
             Http.default_config env0 (http_frame 81 "GET / HTTP/1.1")
             http_refreshed).
    right. right. split; vm_compute; discriminate.
  - apply (proj2 unrecognised_frame_changes_nothing
             Nfs.default_config env0
             (eth_ip 17 ++ udp_hdr 2049 ++ rpc_call 7 0 3 100003 3 1)
             (nfs_cached 0)).
    right. right. left. vm_compute. discriminate.
Defined.

(** ** C5 *)

(** C5, as the code has it.  A frame the file-fetch engine does not pass
    through is IPv4 over Ethernet, TCP, and addressed to port 80 or to
    port 8080; a frame the remote-filesystem engine does not pass through
    is IPv4 over Ethernet, UDP, and addressed to port 2049.  Any frame
    whose destination port is not among the variant's fixed ports is
    passed through. *)
Theorem recognised_frames_match_the_fixed_ports :
  (forall cfg e frame st,
     Http.decision (Http.fileserver_ingress cfg e frame st) <> PassThrough ->
     eth_proto frame = ETH_P_IP /\ ip_protocol frame = IPPROTO_TCP /\
     (l4_dest frame = 80 \/ l4_dest frame = 8080)) /\
  (forall cfg e frame st,
     Nfs.decision (Nfs.nfs_server_tc cfg e frame st) <> PassThrough ->
     eth_proto frame = ETH_P_IP /\ ip_protocol frame = IPPROTO_UDP /\
     l4_dest frame = Nfs.NFS_PORT).
Proof.
  split; intros cfg e frame st H.
  - destruct (http_walk cfg e frame st) as [E|?]; [|done].
    rewrite E in H. by destruct H.
  - destruct (nfs_walk cfg e frame st) as [E|(? & ? & ? & _)]; [|done].
    rewrite E in H. by destruct H.
Qed.

Lemma recognised_frames_match_the_fixed_ports_witness :
  (eth_proto get_static = ETH_P_IP /\
   ip_protocol get_static = IPPROTO_TCP /\
   (l4_dest get_static = 80 \/ l4_dest get_static = 8080)) /\
  (eth_proto (nfs_frame 2049 1) = ETH_P_IP /\
   ip_protocol (nfs_frame 2049 1) = IPPROTO_UDP /\
   l4_dest (nfs_frame 2049 1) = Nfs.NFS_PORT).
Proof.
  split.
  - apply (proj1 recognised_frames_match_the_fixed_ports
             Http.default_config env0 get_static Http.init_state).
    vm_compute. discriminate.
  - apply (proj2 recognised_frames_match_the_fixed_ports
             Nfs.default_config env0 (nfs_frame 2049 1) Nfs.init_state).
    vm_compute. discriminate.
Defined.

(** C5, as the specification words it, fails: the file-fetch engine has
    no single port outside of which every frame is passed through, since
    it takes requests on port 80 and on port 8080 alike. *)
Lemma file_fetch_listens_on_two_ports :
  ~ (exists port, forall cfg e frame st,
       l4_dest frame <> port ->
       Http.decision (Http.fileserver_ingress cfg e frame st) = PassThrough).
Proof.
  intros [port H].
  assert (E80 : l4_dest (http_frame 80 "GET / HTTP/1.1") = 80)
    by (vm_compute; reflexivity).
  assert (E8080 : l4_dest (http_frame 8080 "GET / HTTP/1.1") = 8080)
    by (vm_compute; reflexivity).
  destruct (decide (port = 80)) as [->|Hne].
  - specialize (H Http.default_config env0
                  (http_frame 8080 "GET / HTTP/1.1") Http.init_state).
    rewrite E8080 in H. specialize (H ltac:(lia)).
    vm_compute in H. discriminate.
  - specialize (H Http.default_config env0
                  (http_frame 80 "GET / HTTP/1.1") Http.init_state).
    rewrite E80 in H. specialize (H ltac:(lia)).
    vm_compute in H. discriminate.
Qed.

(** ** From the handlers to the decision code *)

Lemma http_ingress_decides cfg e frame st rq :
  http_recognised frame rq ->
  req_slot e = true ->
  Http.fileserver_ingress cfg e frame st =
  Http.submit e frame rq
    (Http.decide_request cfg e rq
       (Http.set_stats (update_stats 0 1 (Http.stats st)) st)).
Proof.
  intros (p & len & Hw & Hm & ->) Hs.
  unfold Http.fileserver_ingress. rewrite Hw.
  unfold Http.serve. rewrite bool_decide_false by done.
  by rewrite Hs.
Qed.

Lemma nfs_tc_decides cfg e frame st rpc :
  nfs_recognised frame rpc ->
  req_slot e = true ->
  ev_slot e = true ->
  let d := Nfs.decide_request cfg e rpc (ip_saddr frame) (l4_source frame)
             (Nfs.touch e (ip_saddr frame) st).2
             (Nfs.touch e (ip_saddr frame) st).1 in
  Nfs.nfs_server_tc cfg e frame st =
  {| Nfs.verdict := TC_ACT_OK; Nfs.decision := d.1;
     Nfs.skb_out := frame; Nfs.st_out := d.2 |}.
Proof.
  intros (p & len & Hw & Hp & Hv) Hr He. cbv zeta.
  unfold Nfs.nfs_server_tc. rewrite Hw, Hp, Hv.
  destruct (Nfs.touch e (ip_saddr frame) st) as [st1 in_map].
  rewrite Hr, He. simpl.
  by destruct (Nfs.decide_request _ _ _ _ _ _ _).
Qed.

(** The client tracker touches nothing but its own table. *)
Lemma nfs_touch_keeps e ip st :
  Nfs.nfs_events (Nfs.touch e ip st).1 = Nfs.nfs_events st /\
  Nfs.nfs_file_cache (Nfs.touch e ip st).1 = Nfs.nfs_file_cache st /\
  Nfs.fh_to_name (Nfs.touch e ip st).1 = Nfs.fh_to_name st /\
  Nfs.nfs_stats (Nfs.touch e ip st).1 = Nfs.nfs_stats st.
Proof. unfold Nfs.touch. by destruct (Nfs.client_track st !! ip). Qed.

(** ** C6 *)

Lemma http_decide_disabled cfg e rq st :
  Http.enable_kernel_processing cfg = false ->
  Http.decide_request cfg e rq st =
    (ForwardToControlPlane, false, None,
     Http.set_stats (update_stats 2 1 (Http.stats st)) st).
Proof. intros H. unfold Http.decide_request. by rewrite H. Qed.

Lemma nfs_decide_disabled cfg e rpc ip port in_map st :
  Nfs.enable_kernel_processing cfg = false ->
  (Nfs.decide_request cfg e rpc ip port in_map st).1 = ForwardToControlPlane.
Proof.
  intros H. unfold Nfs.decide_request, Nfs.dispatch. by rewrite H.
Qed.

(** The NFS decision with the switch off, in full: the request and the
    forwarded counters advance, the tracked client has one more forwarded
    request, and the two records are submitted as they were initialised. *)
Lemma nfs_decide_disabled_result cfg e rpc ip port (in_map : bool) st :
  Nfs.enable_kernel_processing cfg = false ->
  let st2 := Nfs.set_stats (update_stats 0 1 (Nfs.nfs_stats st)) st in
  let st3 :=
    if in_map
    then Nfs.set_client_track
           (alter Nfs.count_forwarded ip (Nfs.client_track st2)) st2
    else st2 in
  let st4 := Nfs.set_stats (update_stats 2 1 (Nfs.nfs_stats st3)) st3 in
  Nfs.decide_request cfg e rpc ip port in_map st =
    (ForwardToControlPlane,
     Nfs.set_events
       (Nfs.nfs_events st4 ++
          [Nfs.ReqRecord
             {| Nfs.rq_client_addr := ip; Nfs.rq_client_port := port;
                Nfs.rq_xid := Nfs.xid rpc;
                Nfs.rq_procedure := Nfs.procedure rpc;
                Nfs.processed_in_kernel := false; Nfs.rq_filename := "";
                Nfs.offset := 0; Nfs.count := 0; Nfs.fh := Nfs.zero_fh |};
           Nfs.EventRecord
             {| Nfs.client_addr := ip; Nfs.client_port := port;
                Nfs.ev_xid := Nfs.xid rpc;
                Nfs.ev_procedure := Nfs.procedure rpc;
                Nfs.result := Nfs.NFS_OP_FORWARD_TO_USER;
                Nfs.ev_filename := ""; Nfs.file_size := 0;
                Nfs.timestamp := now e; Nfs.forwarded_to_user := true;
                Nfs.from_cache := false |}]) st4).
Proof.
  intros H. cbv zeta. unfold Nfs.decide_request, Nfs.dispatch.
  rewrite H. reflexivity.
Qed.

(** C6, as the code has it.  With [enable_kernel_processing] off:
    - the decision code of either variant forwards: the outcome is
      [ForwardToControlPlane], the forwarded counter advances by one, the
      request record is submitted with [processed_in_kernel] unset (and,
      in the remote-filesystem variant, with the forwarded event), and
      the cache is not looked at;
    - no invocation of either handler ends at [KernelServed] or at
      [NotFound];
    - the invocation for a recognised request reaches the decision code
      only when its records are reserved: then it ends at
      [ForwardToControlPlane] with the request counter and the forwarded
      counter advanced and the records submitted; when the channel has
      no room it ends before any decision, with no forwarded counter and
      no record. *)
Theorem disabled_switch_forwards_every_request :
  (forall cfg e rq st,
     Http.enable_kernel_processing cfg = false ->
     Http.decide_request cfg e rq st =
       (ForwardToControlPlane, false, None,
        Http.set_stats (update_stats 2 1 (Http.stats st)) st)) /\
  (forall cfg e rpc ip port (in_map : bool) st,
     Nfs.enable_kernel_processing cfg = false ->
     let '(d, st') := Nfs.decide_request cfg e rpc ip port in_map st in
     d = ForwardToControlPlane /\
     Nfs.nfs_file_cache st' = Nfs.nfs_file_cache st /\
     Nfs.fh_to_name st' = Nfs.fh_to_name st /\
     Nfs.nfs_stats st' =
       update_stats 2 1 (update_stats 0 1 (Nfs.nfs_stats st)) /\
     Nfs.client_track st' =
       (if in_map
        then alter Nfs.count_forwarded ip (Nfs.client_track st)
        else Nfs.client_track st) /\
     exists rq ev,
       Nfs.nfs_events st' =
         Nfs.nfs_events st ++ [Nfs.ReqRecord rq; Nfs.EventRecord ev] /\
       Nfs.processed_in_kernel rq = false /\
       Nfs.rq_xid rq = Nfs.xid rpc /\
       Nfs.rq_procedure rq = Nfs.procedure rpc /\
       Nfs.result ev = Nfs.NFS_OP_FORWARD_TO_USER /\
       Nfs.forwarded_to_user ev = true /\
       Nfs.from_cache ev = false) /\
  (forall cfg e frame st,
     Http.enable_kernel_processing cfg = false ->
     let d := Http.decision (Http.fileserver_ingress cfg e frame st) in
     d <> KernelServed /\ d <> NotFound) /\
  (forall cfg e frame st,
     Nfs.enable_kernel_processing cfg = false ->
     let d := Nfs.decision (Nfs.nfs_server_tc cfg e frame st) in
     d <> KernelServed /\ d <> NotFound) /\
  (forall cfg e frame st rq,
     Http.enable_kernel_processing cfg = false ->
     http_recognised frame rq ->
     let r := Http.fileserver_ingress cfg e frame st in
     Http.file_cache (Http.st_out r) = Http.file_cache st /\
     if req_slot e then
       Http.decision r = ForwardToControlPlane /\
       Http.stats (Http.st_out r) =
         update_stats 2 1 (update_stats 0 1 (Http.stats st)) /\
       Http.events (Http.st_out r) =
         Http.events st ++ [Http.ReqRecord (http_req_record rq false)]
     else
       Http.decision r = NoDecision /\
       Http.stats (Http.st_out r) = update_stats 0 1 (Http.stats st) /\
       Http.events (Http.st_out r) = Http.events st) /\
  (forall cfg e frame st rpc,
     Nfs.enable_kernel_processing cfg = false ->
     nfs_recognised frame rpc ->
     let r := Nfs.nfs_server_tc cfg e frame st in
     Nfs.nfs_file_cache (Nfs.st_out r) = Nfs.nfs_file_cache st /\
     if req_slot e && ev_slot e then
       Nfs.decision r = ForwardToControlPlane /\
       Nfs.nfs_stats (Nfs.st_out r) =
         update_stats 2 1 (update_stats 0 1 (Nfs.nfs_stats st)) /\
       exists ev,
         Nfs.nfs_events (Nfs.st_out r) =
           Nfs.nfs_events st ++
             [Nfs.ReqRecord (nfs_req_record frame rpc false);
              Nfs.EventRecord ev] /\
         Nfs.result ev = Nfs.NFS_OP_FORWARD_TO_USER /\
         Nfs.forwarded_to_user ev = true /\
         Nfs.from_cache ev = false
     else
       Nfs.decision r = NoDecision /\
       Nfs.nfs_stats (Nfs.st_out r) = Nfs.nfs_stats st /\
       Nfs.nfs_events (Nfs.st_out r) = Nfs.nfs_events st).
Proof.
  split; [|split; [|split; [|split; [|split]]]].
  - intros cfg e rq st H. by apply http_decide_disabled.
  - intros cfg e rpc ip port in_map st H.
    rewrite (nfs_decide_disabled_result cfg e rpc ip port in_map st H).
    cbv zeta. destruct in_map; simpl; repeat split; try done;
      eexists _, _; (split; [reflexivity|]); by repeat split.
  - intros cfg e frame st H. cbv zeta.
    destruct (http_cases cfg e frame st) as [E|[[Hs E]|[Hs [rq E]]]];
      rewrite E; clear E; try done.
    by rewrite http_decide_disabled.
  - intros cfg e frame st H. cbv zeta.
    destruct (nfs_cases cfg e frame st) as [E|[[Hs E]|(Hr & He & rpc & E)]];
      rewrite E; clear E; try done.
    cbn [Nfs.decision]. by rewrite nfs_decide_disabled.
  - intros cfg e frame st rq H Hrq. cbv zeta.
    destruct (req_slot e) eqn:Hs.
    + rewrite (http_ingress_decides cfg e frame st rq Hrq Hs).
      rewrite http_decide_disabled by done. by repeat split.
    + destruct Hrq as (p & len & Hw & Hm & ->).
      unfold Http.fileserver_ingress. rewrite Hw.
      unfold Http.serve. rewrite bool_decide_false by done.
      rewrite Hs. by repeat split.
  - intros cfg e frame st rpc H Hrpc. cbv zeta.
    destruct (nfs_touch_keeps e (ip_saddr frame) st) as (Hev & Hk & Hf & Hst).
    destruct (req_slot e && ev_slot e) eqn:Hs.
    + apply andb_true_iff in Hs as [Hr He].
      rewrite (nfs_tc_decides cfg e frame st rpc Hrpc Hr He).
      rewrite (nfs_decide_disabled_result cfg e rpc _ _ _ _ H).
      cbv zeta. cbn [Nfs.decision Nfs.st_out fst snd].
      destruct (Nfs.touch e (ip_saddr frame) st).2; simpl;
        rewrite ?Hk, ?Hst, ?Hev; repeat split; try done;
        eexists; (split; [reflexivity|]); by repeat split.
    + destruct Hrpc as (p & len & Hw & Hp & Hv).
      unfold Nfs.nfs_server_tc. rewrite Hw, Hp, Hv.
      destruct (Nfs.touch e (ip_saddr frame) st) as [st1 in_map].
      simpl in Hev, Hk, Hst.
      destruct (req_slot e); simpl in *; [rewrite Hs|]; by repeat split.
Qed.

(** C6, as the specification words it, fails: with the switch off and no
    room for the request record, the recognised GET of test.txt ends
    before any decision, not at [ForwardToControlPlane], and the
    forwarded counter stays at zero; the same holds of a recognised
    GETATTR call. *)
Lemma disabled_switch_with_a_full_channel :
  ~ (forall cfg e frame st rq,
       Http.enable_kernel_processing cfg = false ->
       http_recognised frame rq ->
       Http.decision (Http.fileserver_ingress cfg e frame st)
       = ForwardToControlPlane) /\
  ~ (forall cfg e frame st rpc,
       Nfs.enable_kernel_processing cfg = false ->
       nfs_recognised frame rpc ->
       Nfs.decision (Nfs.nfs_server_tc cfg e frame st)
       = ForwardToControlPlane) /\
  (let r := Http.fileserver_ingress http_off (env_at 1000 false true)
              get_test http_refreshed in
   Http.decision r = NoDecision /\
   stat_at (Http.stats (Http.st_out r)) 2 = 0 /\
   Http.events (Http.st_out r) = []) /\
  (let r := Nfs.nfs_server_tc nfs_off (env_at 1000 true false)
              (nfs_frame 2049 Nfs.NFSPROC3_GETATTR) nfs_refreshed in
   Nfs.decision r = NoDecision /\
   stat_at (Nfs.nfs_stats (Nfs.st_out r)) 2 = 0 /\
   Nfs.nfs_events (Nfs.st_out r) = []).
Proof.
  split; [|split; [|split]].
  - intros H.
    specialize (H http_off (env_at 1000 false true) get_test http_refreshed
                  (test_rq Http.HTTP_GET) eq_refl).
    assert (Hrq : http_recognised get_test (test_rq Http.HTTP_GET)).
    { exists 54, 22. vm_compute. by repeat split. }
    specialize (H Hrq). vm_compute in H. discriminate.
  - intros H.
    specialize (H nfs_off (env_at 1000 true false)
                  (nfs_frame 2049 Nfs.NFSPROC3_GETATTR) nfs_refreshed
                  (call_rpc Nfs.NFSPROC3_GETATTR) eq_refl).
    assert (Hrpc : nfs_recognised (nfs_frame 2049 Nfs.NFSPROC3_GETATTR)
                     (call_rpc Nfs.NFSPROC3_GETATTR)).
    { exists 42, 32. vm_compute. by repeat split. }
    specialize (H Hrpc). vm_compute in H. discriminate.
  - cbv zeta. repeat split; vm_compute; reflexivity.
  - cbv zeta. repeat split; vm_compute; reflexivity.
Qed.

Lemma disabled_switch_forwards_every_request_witness :
  (let r := Http.fileserver_ingress http_off env0 get_test http_refreshed in
   Http.file_cache (Http.st_out r) = Http.file_cache http_refreshed /\
   Http.decision r = ForwardToControlPlane /\
   Http.stats (Http.st_out r) =
     update_stats 2 1 (update_stats 0 1 (Http.stats http_refreshed)) /\
   Http.events (Http.st_out r) =
     Http.events http_refreshed ++
       [Http.ReqRecord (http_req_record (test_rq Http.HTTP_GET) false)]) /\
  Nfs.decision
    (Nfs.nfs_server_tc nfs_off env0 (nfs_frame 2049 Nfs.NFSPROC3_GETATTR)
       nfs_refreshed)
  = ForwardToControlPlane.
Proof.
  split.
  - apply (proj1 (proj2 (proj2 (proj2 (proj2
             disabled_switch_forwards_every_request))))
             http_off env0 get_test http_refreshed
             (test_rq Http.HTTP_GET) eq_refl).
    exists 54, 22. vm_compute. by repeat split.
  - apply (proj2 (proj2 (proj2 (proj2 (proj2
             disabled_switch_forwards_every_request))))
             nfs_off env0 (nfs_frame 2049 Nfs.NFSPROC3_GETATTR)
             nfs_refreshed (call_rpc Nfs.NFSPROC3_GETATTR) eq_refl).
    exists 42, 32. vm_compute. by repeat split.
Defined.

(** ** C1 *)

(** What the file-fetch decision looks like when it is a cache hit. *)
Lemma http_decide_served cfg e rq st :
  (Http.decide_request cfg e rq st).1.1.1 = KernelServed ->
  exists ce,
    Http.file_cache st !! key_of_buffer (Http.r_filename rq) = Some ce /\
    Http.valid ce = true /\
    Http.decide_request cfg e rq st =
      (KernelServed, true,
       Http.reserve_file_event e
         (Http.mk_file_event e rq Http.FILE_OP_SUCCESS (Http.file_size ce)
            false),
       Http.set_stats
         (update_stats 1 1 (Http.stats st))
         (Http.set_file_cache
            (<[key_of_buffer (Http.r_filename rq) := Http.hit ce]>
               (Http.file_cache st)) st)).
Proof.
  unfold Http.decide_request.
  destruct (_ && _); [|discriminate].
  destruct (Http.check_file_exists _); [|discriminate].
  destruct (Http.file_cache st !! _) as [ce|]; [|discriminate].
  destruct (Http.valid ce) eqn:Hv; [|discriminate].
  intros _. exists ce. by rewrite Hv.
Qed.

(** What the switch on the procedure leaves: the tracker, the side table
    and the event channel as they were, and either nothing handled and no
    map touched, or a success event whose name, when it comes from the
    cache, is that of a valid entry. *)
Lemma nfs_dispatch_spec cfg e rpc req ev st :
  let '(h, ev', st') := Nfs.dispatch cfg e rpc req ev st in
  Nfs.nfs_events st' = Nfs.nfs_events st /\
  Nfs.client_track st' = Nfs.client_track st /\
  Nfs.fh_to_name st' = Nfs.fh_to_name st /\
  ((h = 0 /\ st' = st) \/
   (h = 1 /\ Nfs.result ev' = Nfs.NFS_OP_SUCCESS /\
    Nfs.forwarded_to_user ev' = false /\
    (Nfs.from_cache ev' = true ->
     exists ce, Nfs.nfs_file_cache st !! Nfs.ev_filename ev' = Some ce /\
                Nfs.valid ce = true))).
Proof.
  unfold Nfs.dispatch, Nfs.handle_nfs_getattr, Nfs.handle_nfs_read.
  destruct (Nfs.enable_kernel_processing cfg); [|by auto 6].
  destruct (Nfs.procedure rpc =? Nfs.NFSPROC3_NULL).
  { repeat split; try done. right. repeat split; try done. }
  destruct (Nfs.procedure rpc =? Nfs.NFSPROC3_GETATTR).
  { destruct (Nfs.fh_to_name st !! _) as [name|]; [|by auto 6].
    destruct (Nfs.nfs_file_cache st !! _) as [ce|] eqn:Hc; [|by auto 6].
    destruct (Nfs.valid ce) eqn:Hv; simpl; [|by auto 6].
    destruct (_ >? _); [by auto 6|].
    repeat split; try done. right. repeat split; try done.
    intros _. simpl. eauto. }
  destruct (Nfs.procedure rpc =? Nfs.NFSPROC3_READ); [|by auto 6].
  destruct (Nfs.fh_to_name st !! _) as [name|]; [|by auto 6].
  destruct (Nfs.nfs_file_cache st !! _) as [ce|] eqn:Hc; [|by auto 6].
  destruct (Nfs.valid ce) eqn:Hv; simpl; [|by auto 6].
  destruct (Nfs.data_valid ce); simpl; [|by auto 6].
  destruct (_ || _); [by auto 6|].
  repeat split; try done. right. repeat split; try done.
  intros _. simpl. eauto.
Qed.

(** C1, as the code has it.  When the decision is [KernelServed] the
    engine synthesises no response and keeps the frame on its normal
    path: the verdict is [TC_ACT_OK] and the frame is handed back as it
    came.  What the engine does at the interception point is to record
    the hit: the request record is submitted with [processed_in_kernel]
    set, followed by a success event that, for a cache hit, names a valid
    entry of the cache and, in the file-fetch variant, carries the size
    stored in that entry (the file event is left out when the channel has
    no room for it). *)
Theorem kernel_served_is_recorded_not_answered :
  (forall cfg e frame st,
     let r := Http.fileserver_ingress cfg e frame st in
     Http.decision r = KernelServed ->
     Http.verdict r = TC_ACT_OK /\ Http.skb_out r = frame /\
     exists rq ce,
       Http.file_cache st !! key_of_buffer (Http.r_filename rq) = Some ce /\
       Http.valid ce = true /\
       Http.events (Http.st_out r) =
         Http.events st ++
         Http.ReqRecord
           {| Http.src_addr := Http.r_client_ip rq;
              Http.src_port := Http.r_client_port rq;
              Http.method := Http.HTTP_GET;
              Http.processed_in_kernel := true;
              Http.rq_filename := key_of_buffer (Http.r_filename rq);
              Http.content_length := 0 |} ::
         (if ev_slot e
          then [Http.FileRecord
                  (Http.mk_file_event e rq Http.FILE_OP_SUCCESS
                     (Http.file_size ce) false)]
          else [])) /\
  (forall cfg e frame st,
     let r := Nfs.nfs_server_tc cfg e frame st in
     Nfs.decision r = KernelServed ->
     Nfs.verdict r = TC_ACT_OK /\ Nfs.skb_out r = frame /\
     exists rq ev,
       Nfs.nfs_events (Nfs.st_out r) =
         Nfs.nfs_events st ++ [Nfs.ReqRecord rq; Nfs.EventRecord ev] /\
       Nfs.processed_in_kernel rq = true /\
       Nfs.result ev = Nfs.NFS_OP_SUCCESS /\
       Nfs.forwarded_to_user ev = false /\
       (Nfs.from_cache ev = true ->
        exists ce, Nfs.nfs_file_cache st !! Nfs.ev_filename ev = Some ce /\
                   Nfs.valid ce = true)).
Proof.
  split; intros cfg e frame st r Hd.
  - split; [apply http_verdict|]. split; [apply http_verdict|].
    subst r.
    destruct (http_cases cfg e frame st) as [E|[[Hs E]|[Hs [rq E]]]];
      rewrite E in Hd |- *; clear E; try discriminate.
    set (st1 := Http.set_stats _ st) in *.
    assert (Hk : (Http.decide_request cfg e rq st1).1.1.1 = KernelServed).
    { by destruct (Http.decide_request cfg e rq st1) as [[[d ik] fev] st2]. }
    destruct (http_decide_served _ _ _ _ Hk) as (ce & Hc & Hv & E).
    assert (Hm : Http.r_method rq = Http.HTTP_GET).
    { revert Hk. unfold Http.decide_request.
      destruct (Http.enable_kernel_processing cfg); [|discriminate]. simpl.
      case_bool_decide; [done|discriminate]. }
    rewrite E. exists rq, ce. split; [done|]. split; [done|].
    unfold Http.submit, Http.reserve_file_event. rewrite Hm.
    by destruct (ev_slot e).
  - split; [apply nfs_verdict|]. split; [apply nfs_verdict|].
    subst r.
    destruct (nfs_cases cfg e frame st) as [E|[[Hs E]|(Hr & He & rpc & E)]];
      rewrite E in Hd |- *; clear E; try discriminate.
    cbn [Nfs.decision Nfs.st_out] in *.
    destruct (nfs_touch_keeps e (ip_saddr frame) st) as (Ht1 & Ht2 & _).
    revert Hd. unfold Nfs.decide_request.
    match goal with |- context [Nfs.dispatch ?a ?b ?c ?d ?f ?g] =>
      pose proof (nfs_dispatch_spec a b c d f g) as Hs;
      destruct (Nfs.dispatch a b c d f g) as [[h ev'] st']
    end.
    destruct Hs as (Hev & _ & _ & Hs).
    destruct (negb (h =? 0)) eqn:Hh; [|discriminate].
    intros _. destruct Hs as [[-> _]|(-> & H1 & H2 & H3)]; [discriminate|].
    eexists _, ev'. split.
    + cbn [snd]. destruct (Nfs.touch e (ip_saddr frame) st).2; simpl;
        by rewrite Hev, Ht1.
    + repeat split; try done. intros Hf.
      destruct (H3 Hf) as (ce & Hc & Hv). rewrite Ht2 in Hc. eauto.
Qed.

Lemma kernel_served_is_recorded_not_answered_witness :
  Http.verdict
    (Http.fileserver_ingress Http.default_config env0 get_test http_refreshed)
  = TC_ACT_OK.
Proof.
  apply (proj1 kernel_served_is_recorded_not_answered
           Http.default_config env0 get_test http_refreshed).
  vm_compute. reflexivity.
Defined.

(** C1, as the specification words it, fails: a request decided
    [KernelServed] is not terminal.  The GET for test.txt, cached by the
    control plane, is a cache hit, and its frame still goes up the stack
    with [TC_ACT_OK]. *)
Lemma kernel_served_frame_is_not_terminal :
  ~ (forall cfg e frame st,
       Http.decision (Http.fileserver_ingress cfg e frame st) = KernelServed ->
       Http.verdict (Http.fileserver_ingress cfg e frame st) <> TC_ACT_OK).
Proof.
  intros H.
  apply (H Http.default_config env0 get_test http_refreshed).
  - vm_compute. reflexivity.
  - apply http_verdict.
Qed.

(** ** Hits and expiry in the decision code *)

Lemma http_decide_hit cfg e rq st ce :
  Http.enable_kernel_processing cfg = true ->
  Http.r_method rq = Http.HTTP_GET ->
  Http.check_file_exists (Http.r_filename rq) = true ->
  Http.file_cache st !! key_of_buffer (Http.r_filename rq) = Some ce ->
  Http.valid ce = true ->
  Http.decide_request cfg e rq st =
    (KernelServed, true,
     Http.reserve_file_event e
       (Http.mk_file_event e rq Http.FILE_OP_SUCCESS (Http.file_size ce)
          false),
     Http.set_stats
       (update_stats 1 1 (Http.stats st))
       (Http.set_file_cache
          (<[key_of_buffer (Http.r_filename rq) := Http.hit ce]>
             (Http.file_cache st)) st)).
Proof.
  intros He Hm Hx Hc Hv. unfold Http.decide_request.
  by rewrite He, Hm, Hx, Hc, Hv.
Qed.




(** The outcome of an NFS decision is that of the switch on the
    procedure, and so is the cache it leaves. *)
Lemma nfs_decide_cache cfg e rpc ip port in_map st :
  let req :=
    {| Nfs.rq_client_addr := ip; Nfs.rq_client_port := port;
       Nfs.rq_xid := Nfs.xid rpc; Nfs.rq_procedure := Nfs.procedure rpc;
       Nfs.processed_in_kernel := false; Nfs.rq_filename := "";
       Nfs.offset := 0; Nfs.count := 0; Nfs.fh := Nfs.zero_fh |} in
  let ev :=
    {| Nfs.client_addr := ip; Nfs.client_port := port;
       Nfs.ev_xid := Nfs.xid rpc; Nfs.ev_procedure := Nfs.procedure rpc;
       Nfs.result := Nfs.NFS_OP_FORWARD_TO_USER; Nfs.ev_filename := "";
       Nfs.file_size := 0; Nfs.timestamp := now e;
       Nfs.forwarded_to_user := true; Nfs.from_cache := false |} in
  let d := Nfs.dispatch cfg e rpc req ev st in
  (Nfs.decide_request cfg e rpc ip port in_map st).1 =
    (if negb (d.1.1 =? 0) then KernelServed else ForwardToControlPlane) /\
  Nfs.nfs_file_cache (Nfs.decide_request cfg e rpc ip port in_map st).2 =
    Nfs.nfs_file_cache d.2.
Proof.
  cbv zeta. unfold Nfs.decide_request.
  destruct (Nfs.dispatch _ _ _ _ _ _) as [[h ev'] st'].
  cbn [fst snd]. destruct (negb (h =? 0)), in_map; by simpl.
Qed.

Lemma try_update_Some `{Countable K} {V : Type} n (m m' : gmap K V) k v :
  try_update n m k v = Some m' -> m' = <[k := v]> m.
Proof.
  unfold try_update. destruct (m !! k); [congruence|].
  case_decide; congruence.
Qed.

(** What a successful refresh of the NFS cache installs. *)
Lemma nfs_refresh_ok wall fs filename after st st' :
  Nfs.cache_file_in_kernel true wall fs filename after st = (0, st') ->
  exists f,
    fs filename = Some f /\
    0 <= Nfs.st_size f <= Nfs.MAX_NFS_DATA_SIZE /\
    let bytes := take (Z.to_nat (Nfs.st_size f)) (Nfs.contents f) in
    let ce := Nfs.fill_entry wall f filename bytes in
    let key := Nfs.name_key filename after in
    Z.of_nat (length bytes) = Nfs.st_size f /\
    Nfs.nfs_file_cache st' = <[key := ce]> (Nfs.nfs_file_cache st) /\
    Nfs.fh_to_name st' = <[Nfs.ce_fh ce := key]> (Nfs.fh_to_name st).
Proof.
  unfold Nfs.cache_file_in_kernel. simpl.
  destruct (fs filename) as [f|]; [|discriminate].
  destruct (negb (Nfs.S_ISREG _)); [discriminate|].
  destruct (Nfs.st_size f >? _) eqn:Hs; [discriminate|].
  destruct (negb (Nfs.openable f)); [discriminate|].
  destruct (negb (_ =? _)) eqn:Hr; [discriminate|].
  match goal with |- context [try_update 1024 ?m ?k ?v] =>
    destruct (try_update 1024 m k v) as [c|] eqn:Hc; [|discriminate] end.
  match goal with |- context [try_update 2048 ?m ?k ?v] =>
    destruct (try_update 2048 m k v) as [m'|] eqn:Hm; [|discriminate] end.
  intros [= <-]. exists f. to_prop.
  apply try_update_Some in Hc, Hm. simpl in Hm. subst c m'.
  repeat split; try done; lia.
Qed.



(** ** C7 *)





(** ** C8 *)

(** From index [i] on, the engine's loop hashes what the server's loop
    hashes of the first [4 - i] characters. *)
Lemma engine_hash_take name :
  forall (i : nat) (hash : Z),
    (i <= 3)%nat ->
    Nfs.engine_hash i name hash = Nfs.server_hash (take (4 - i) name) hash.
Proof.
  induction name as [|c rest IH]; intros i hash Hi.
  - by rewrite take_nil.
  - replace (4 - i)%nat with (S (3 - i)) by lia. simpl.
    rewrite bool_decide_true by lia. simpl.
    destruct (bool_decide (c = x00)); simpl; [done|].
    case_bool_decide.
    + replace (3 - i)%nat with 0%nat by lia. by rewrite take_0.
    + rewrite IH by lia. do 2 f_equal; lia.
Qed.

(** C8, as the code has it.  Each generator is a function of the name
    alone, but the two are not the same function: the engine's stops
    after four characters, so its handle for a name is the control
    plane's handle for the first four characters of that name.  The two
    handles agree for every name of at most four characters. *)
Theorem engine_handle_hashes_four_characters :
  (forall name h,
     Nfs.generate_file_handle name h =
     Nfs.generate_nfs_file_handle (take 4 name) h) /\
  (forall name h,
     (length name <= 4)%nat ->
     Nfs.generate_file_handle name h = Nfs.generate_nfs_file_handle name h).
Proof.
  assert (H : forall name h,
            Nfs.generate_file_handle name h =
            Nfs.generate_nfs_file_handle (take 4 name) h).
  { intros name h. unfold Nfs.generate_file_handle,
      Nfs.generate_nfs_file_handle.
    by rewrite (engine_hash_take name 0 0) by lia. }
  split; [done|].
  intros name h Hl. rewrite H. by rewrite take_ge by lia.
Qed.

Lemma engine_handle_hashes_four_characters_witness :
  Nfs.generate_file_handle (list_byte_of_string "test") Nfs.zero_fh =
  Nfs.generate_nfs_file_handle (list_byte_of_string "test") Nfs.zero_fh.
Proof.
  apply (proj2 engine_handle_hashes_four_characters
           (list_byte_of_string "test") Nfs.zero_fh).
  vm_compute. lia.
Defined.

(** C8, as the specification words it, fails: for test.txt, the file the
    control plane caches at start-up, the engine derives the handle of
    "test" and the control plane the handle of the whole name. *)
Lemma handles_differ_for_test_txt :
  ~ (forall name h,
       Nfs.generate_file_handle name h = Nfs.generate_nfs_file_handle name h).
Proof.
  intros H.
  specialize (H (list_byte_of_string "test.txt") Nfs.zero_fh).
  vm_compute in H. discriminate.
Qed.

(** ** C9 *)

Lemma http_decide_cache cfg e rq st k ce' :
  Http.file_cache (Http.decide_request cfg e rq st).2 !! k = Some ce' ->
  exists ce, Http.file_cache st !! k = Some ce /\
             (ce' = ce \/ ce' = Http.hit ce).
Proof.
  unfold Http.decide_request.
  destruct (_ && _); [|by eauto].
  destruct (Http.check_file_exists _); [|by eauto].
  destruct (Http.file_cache st !! _) as [ce|] eqn:Hc; [|by eauto].
  destruct (Http.valid ce); [|by eauto].
  simpl. rewrite lookup_insert.
  case_decide; [|by eauto]. subst k. intros [= <-]. eauto.
Qed.

Lemma http_ingress_cache cfg e frame st k ce' :
  Http.file_cache (Http.st_out (Http.fileserver_ingress cfg e frame st)) !! k
    = Some ce' ->
  exists ce, Http.file_cache st !! k = Some ce /\
             (ce' = ce \/ ce' = Http.hit ce).
Proof.
  destruct (http_cases cfg e frame st) as [E|[[Hs E]|[Hs [rq E]]]];
    rewrite E; clear E; simpl; [by eauto|by eauto|].
  pose proof (http_decide_cache cfg e rq
                (Http.set_stats (update_stats 0 1 (Http.stats st)) st) k ce')
    as Hd.
  destruct (Http.decide_request _ _ _ _) as [[[d ik] fev] st2]. simpl.
  exact Hd.
Qed.


(** A file-fetch refresh either leaves the maps alone or stores the entry
    of a regular file no larger than the inline buffer. *)
Lemma http_refresh_cases en fs name st :
  let st' := (Http.cache_file_in_kernel en fs name st).2 in
  st' = st \/
  exists f,
    fs name = Some f /\ Http.st_reg f = true /\
    0 <= Http.st_size f <= Http.MAX_PACKET_SIZE /\
    let data := take (Z.to_nat (Http.st_size f)) (Http.contents f) in
    Z.of_nat (length data) = Http.st_size f /\
    st' = Http.set_file_cache
            (<[name := Http.fill_entry f name data]> (Http.file_cache st)) st.
Proof.
  cbv zeta. unfold Http.cache_file_in_kernel.
  destruct (negb en); [by left|].
  destruct (fs name) as [f|]; [|by left].
  destruct (Http.st_reg f) eqn:Hreg; simpl; [|by left].
  destruct (Http.st_size f >? _) eqn:Hs; [by left|].
  destruct (negb (Http.openable f)); [by left|].
  destruct (negb (_ =? _)) eqn:Hr; [by left|].
  match goal with |- context [try_update 1024 ?m ?k ?v] =>
    destruct (try_update 1024 m k v) as [c|] eqn:Hc; [|by left] end.
  apply try_update_Some in Hc. subst c. to_prop.
  right. exists f. repeat split; try done; lia.
Qed.





(** An NFS refresh either leaves the cache alone or stores the entry of a
    regular file no larger than the inline buffer. *)
Lemma nfs_refresh_cases en wall fs name after st :
  let st' := (Nfs.cache_file_in_kernel en wall fs name after st).2 in
  Nfs.nfs_file_cache st' = Nfs.nfs_file_cache st \/
  exists f,
    fs name = Some f /\ Nfs.S_ISREG (Nfs.st_mode f) = true /\
    0 <= Nfs.st_size f <= Nfs.MAX_NFS_DATA_SIZE /\
    let bytes := take (Z.to_nat (Nfs.st_size f)) (Nfs.contents f) in
    Z.of_nat (length bytes) = Nfs.st_size f /\
    Nfs.nfs_file_cache st' =
      <[Nfs.name_key name after := Nfs.fill_entry wall f name bytes]>
        (Nfs.nfs_file_cache st).
Proof.
  cbv zeta. unfold Nfs.cache_file_in_kernel.
  destruct (negb en); [by left|].
  destruct (fs name) as [f|]; [|by left].
  destruct (Nfs.S_ISREG _) eqn:Hreg; simpl; [|by left].
  destruct (Nfs.st_size f >? _) eqn:Hs; [by left|].
  destruct (negb (Nfs.openable f)); [by left|].
  destruct (negb (_ =? _)) eqn:Hr; [by left|].
  match goal with |- context [try_update 1024 ?m ?k ?v] =>
    destruct (try_update 1024 m k v) as [c|] eqn:Hc; [|by left] end.
  apply try_update_Some in Hc. subst c. to_prop.
  right. exists f.
  split; [done|]. split; [done|]. split; [lia|]. split; [done|].
  match goal with |- context [try_update 2048 ?m ?k ?v] =>
    by destruct (try_update 2048 m k v) end.
Qed.







(** * Further properties of the engines *)

(** ** Counters and outcomes *)

Lemma http_decide_stats cfg e rq st :
  Http.stats (Http.decide_request cfg e rq st).2 =
  update_stats (http_counter (Http.decide_request cfg e rq st).1.1.1) 1
    (Http.stats st).
Proof.
  unfold Http.decide_request.
  destruct (_ && _); [|done].
  destruct (Http.check_file_exists _); [|done].
  destruct (Http.file_cache st !! _) as [ce|]; [|done].
  by destruct (Http.valid ce).
Qed.

Lemma nfs_dispatch_stats cfg e rpc req ev st :
  Nfs.nfs_stats (Nfs.dispatch cfg e rpc req ev st).2 =
  if negb ((Nfs.dispatch cfg e rpc req ev st).1.1 =? 0)
  then update_stats 1 1 (Nfs.nfs_stats st)
  else Nfs.nfs_stats st.
Proof.
  unfold Nfs.dispatch, Nfs.handle_nfs_getattr, Nfs.handle_nfs_read.
  destruct (Nfs.enable_kernel_processing cfg); [|done].
  destruct (Nfs.procedure rpc =? Nfs.NFSPROC3_NULL); [done|].
  destruct (Nfs.procedure rpc =? Nfs.NFSPROC3_GETATTR).
  { destruct (Nfs.fh_to_name st !! _) as [name|]; [|done].
    destruct (Nfs.nfs_file_cache st !! _) as [ce|]; [|done].
    destruct (negb (Nfs.valid ce)); [done|].
    by destruct (_ >? _). }
  destruct (Nfs.procedure rpc =? Nfs.NFSPROC3_READ); [|done].
  destruct (Nfs.fh_to_name st !! _) as [name|]; [|done].
  destruct (Nfs.nfs_file_cache st !! _) as [ce|]; [|done].
  destruct (negb (Nfs.valid ce) || negb (Nfs.data_valid ce)); [done|].
  by destruct (_ || _).
Qed.

Lemma nfs_decide_stats cfg e rpc ip port in_map st :
  Nfs.nfs_stats (Nfs.decide_request cfg e rpc ip port in_map st).2 =
  match (Nfs.decide_request cfg e rpc ip port in_map st).1 with
  | KernelServed => update_stats 0 1 (update_stats 1 1 (Nfs.nfs_stats st))
  | _ => update_stats 2 1 (update_stats 0 1 (Nfs.nfs_stats st))
  end.
Proof.
  unfold Nfs.decide_request.
  match goal with |- context [Nfs.dispatch ?a ?b ?c ?d ?f ?g] =>
    pose proof (nfs_dispatch_stats a b c d f g) as Hs;
    destruct (Nfs.dispatch a b c d f g) as [[h ev'] st']
  end.
  cbn [fst snd] in Hs.
  destruct (negb (h =? 0)), in_map; simpl; by rewrite Hs.
Qed.

Lemma http_decide_outcomes cfg e rq st :
  let d := (Http.decide_request cfg e rq st).1.1.1 in
  d = KernelServed \/ d = ForwardToControlPlane \/ d = NotFound.
Proof.
  cbv zeta. unfold Http.decide_request.
  destruct (_ && _); [|by auto].
  destruct (Http.check_file_exists _); [|by auto].
  destruct (Http.file_cache st !! _) as [ce|]; [|by auto].
  destruct (Http.valid ce); by auto.
Qed.

Lemma nfs_decide_outcomes cfg e rpc ip port in_map st :
  let d := (Nfs.decide_request cfg e rpc ip port in_map st).1 in
  d = KernelServed \/ d = ForwardToControlPlane.
Proof.
  cbv zeta. unfold Nfs.decide_request.
  destruct (Nfs.dispatch _ _ _ _ _ _) as [[h ev'] st'].
  destruct (negb (h =? 0)); by auto.
Qed.

Lemma http_ingress_stats cfg e frame st :
  let r := Http.fileserver_ingress cfg e frame st in
  Http.stats (Http.st_out r) =
  match Http.decision r with
  | PassThrough => Http.stats st
  | NoDecision => update_stats 0 1 (Http.stats st)
  | d => update_stats (http_counter d) 1 (update_stats 0 1 (Http.stats st))
  end.
Proof.
  cbv zeta.
  destruct (http_cases cfg e frame st) as [E|[[Hs E]|[Hs [rq E]]]];
    rewrite E; clear E; try done.
  set (st1 := Http.set_stats _ st).
  pose proof (http_decide_stats cfg e rq st1) as Hd.
  pose proof (http_decide_outcomes cfg e rq st1) as Ho.
  destruct (Http.decide_request cfg e rq st1) as [[[d ik] fev] st2].
  simpl in *. rewrite Hd. by destruct Ho as [->|[->| ->]].
Qed.

Lemma nfs_tc_stats cfg e frame st :
  let r := Nfs.nfs_server_tc cfg e frame st in
  Nfs.decision r <> NotFound /\
  Nfs.nfs_stats (Nfs.st_out r) =
  match Nfs.decision r with
  | KernelServed => update_stats 0 1 (update_stats 1 1 (Nfs.nfs_stats st))
  | ForwardToControlPlane =>
      update_stats 2 1 (update_stats 0 1 (Nfs.nfs_stats st))
  | _ => Nfs.nfs_stats st
  end.
Proof.
  cbv zeta.
  destruct (nfs_touch_keeps e (ip_saddr frame) st) as (_ & _ & _ & Ht).
  destruct (nfs_cases cfg e frame st) as [E|[[Hs E]|(Hr & He & rpc & E)]];
    rewrite E; clear E; cbn [Nfs.decision Nfs.st_out Nfs.pass]; try done.
  rewrite nfs_decide_stats, Ht.
  by destruct (nfs_decide_outcomes cfg e rpc (ip_saddr frame)
                 (l4_source frame) (Nfs.touch e (ip_saddr frame) st).2
                 (Nfs.touch e (ip_saddr frame) st).1) as [-> | ->].
Qed.


(** ** Statistics over a run *)

Lemma length_update_stats k v s : length (update_stats k v s) = length s.
Proof.
  unfold update_stats. destruct (s !! k); [|done]. apply length_insert.
Qed.

Lemma stat_at_update k v s i :
  stat_at (update_stats k v s) i =
  if decide (i = k /\ (k < length s)%nat)
  then wrap64 (stat_at s k + v) else stat_at s i.
Proof.
  unfold stat_at, update_stats.
  destruct (s !! k) as [c|] eqn:Hk.
  - assert (k < length s)%nat by (by eapply lookup_lt_Some).
    case_decide as Hd.
    + destruct Hd as [-> _]. by rewrite list_lookup_insert_eq.
    + rewrite list_lookup_insert_ne; [done|]. intros <-. by apply Hd.
  - apply lookup_ge_None in Hk. case_decide as Hd; [|done].
    destruct Hd. lia.
Qed.

Ltac stats_step :=
  repeat rewrite stat_at_update; repeat rewrite length_update_stats;
  repeat case_decide; unfold wrap64;
  repeat (rewrite Z.mod_small by lia); try lia.

Lemma trace_file_open_keeps cfg e filename st :
  Http.stats (trace_file_open cfg e filename st).2 = Http.stats st /\
  Http.file_cache (trace_file_open cfg e filename st).2
  = Http.file_cache st /\
  Http.conn_track (trace_file_open cfg e filename st).2
  = Http.conn_track st.
Proof.
  unfold trace_file_open.
  destruct (negb _); [done|]. destruct filename; [|done].
  by destruct (negb _).
Qed.

Lemma http_run_stats n st :
  http_run n st -> Z.of_nat n < 2 ^ 64 -> http_stats_ok n (Http.stats st).
Proof.
  induction 1 as [|n st en fs name Hr IH|n st frame Hr IH
                  |n st cfg e filename Hr IH|n st cfg e frame Hr IH];
    intros Hn.
  - unfold http_stats_ok. vm_compute. repeat split; congruence.
  - destruct (http_refresh_cases en fs name st) as [E|(f & _ & _ & _ & _ & E)];
      cbv zeta in *; rewrite E; by apply IH.
  - specialize (IH Hn). unfold fileserver_xdp.
    repeat (case_match; [done|]). simpl.
    destruct IH as (Hl & Ha & Hb & Hc & Hs & Hz).
    unfold http_stats_ok. rewrite length_update_stats.
    split; [done|]. stats_step.
  - destruct (trace_file_open_keeps cfg e filename st) as (E & _).
    rewrite E. by apply IH.
  - specialize (IH ltac:(lia)).
    destruct IH as (Hl & Ha & Hb & Hc & Hs & Hz).
    unfold http_stats_ok. rewrite http_ingress_stats.
    destruct (Http.decision _); simpl;
      repeat rewrite length_update_stats; (split; [done|]);
      stats_step.
Qed.

Lemma nfs_refresh_stats en wall fs name after st :
  Nfs.nfs_stats (Nfs.cache_file_in_kernel en wall fs name after st).2
  = Nfs.nfs_stats st.
Proof.
  unfold Nfs.cache_file_in_kernel.
  repeat (case_match; try done).
Qed.

Lemma nfs_run_stats n st :
  nfs_run n st -> Z.of_nat n < 2 ^ 64 -> nfs_stats_ok n (Nfs.nfs_stats st).
Proof.
  induction 1 as [|n st en wall fs name after Hr IH|n st frame Hr IH
                  |n st cfg Hr IH|n st cfg e frame Hr IH]; intros Hn.
  - unfold nfs_stats_ok. vm_compute. repeat split; congruence.
  - rewrite nfs_refresh_stats. by apply IH.
  - specialize (IH Hn). unfold nfs_server_xdp.
    repeat (case_match; try done). simpl.
    destruct IH as (Hl & Ha & Hb & Hs & Hz).
    unfold nfs_stats_ok. rewrite length_update_stats.
    split; [done|]. stats_step.
  - specialize (IH Hn). unfold trace_openat.
    case_match; [done|]. simpl.
    destruct IH as (Hl & Ha & Hb & Hs & Hz).
    unfold nfs_stats_ok. rewrite length_update_stats.
    split; [done|]. stats_step.
  - specialize (IH ltac:(lia)).
    destruct IH as (Hl & Ha & Hb & Hs & Hz).
    unfold nfs_stats_ok.
    destruct (nfs_tc_stats cfg e frame st) as [_ E]. cbv zeta in E.
    rewrite E.
    destruct (Nfs.decision _); simpl;
      repeat rewrite length_update_stats; (split; [done|]);
      stats_step.
Qed.

(** X2.  The counters are conservative.  After [n] invocations of the
    handler, with fewer than 2^64 of them, interleaved with any refreshes
    and invocations of the other programs that share the array: in the
    file-fetch array, kernel served + forwarded + not found is at most
    the requests counted, which is at most [n]; in the remote-filesystem
    array, kernel served + forwarded is exactly the requests counted. *)
Theorem counters_are_conservative :
  (forall n st, http_run n st -> Z.of_nat n < 2 ^ 64 ->
                http_stats_ok n (Http.stats st)) /\
  (forall n st, nfs_run n st -> Z.of_nat n < 2 ^ 64 ->
                nfs_stats_ok n (Nfs.nfs_stats st)).
Proof. split; [exact http_run_stats | exact nfs_run_stats]. Qed.

Lemma counters_are_conservative_witness :
  http_stats_ok 1
    (Http.stats
       (Http.st_out (Http.fileserver_ingress Http.default_config env0
                       get_test Http.init_state))) /\
  nfs_stats_ok 1
    (Nfs.nfs_stats
       (Nfs.st_out (Nfs.nfs_server_tc Nfs.default_config env0
                      (nfs_frame 2049 1) Nfs.init_state))).
Proof.
  split.
  - apply (proj1 counters_are_conservative 1%nat).
    + apply http_run_frame, http_run_init.
    + vm_compute. reflexivity.
  - apply (proj2 counters_are_conservative 1%nat).
    + apply nfs_run_frame, nfs_run_init.
    + vm_compute. reflexivity.
Defined.

(** ** The records on the channel *)

Lemma http_ingress_shape cfg e frame st :
  let r := Http.fileserver_ingress cfg e frame st in
  let st1 := Http.set_stats (update_stats 0 1 (Http.stats st)) st in
  r = Http.pass frame st \/
  exists rq,
    http_recognised frame rq /\
    ((req_slot e = false /\
      r = {| Http.verdict := TC_ACT_OK; Http.decision := NoDecision;
             Http.skb_out := frame; Http.st_out := st1 |}) \/
     (req_slot e = true /\
      r = Http.submit e frame rq (Http.decide_request cfg e rq st1))).
Proof.
  cbv zeta. unfold Http.fileserver_ingress.
  destruct (Http.walk_headers frame) as [[p len]|] eqn:Hw; [|by left].
  unfold Http.serve.
  case_bool_decide as Hm; [by left|].
  right. eexists. split; [by exists p, len|].
  destruct (req_slot e); simpl; [right|left]; eauto.
Qed.

Lemma nfs_tc_shape cfg e frame st :
  let r := Nfs.nfs_server_tc cfg e frame st in
  let ip := ip_saddr frame in
  r = Nfs.pass frame st \/
  exists rpc,
    nfs_recognised frame rpc /\
    ((req_slot e && ev_slot e = false /\
      r = {| Nfs.verdict := TC_ACT_OK; Nfs.decision := NoDecision;
             Nfs.skb_out := frame; Nfs.st_out := (Nfs.touch e ip st).1 |}) \/
     (req_slot e = true /\ ev_slot e = true /\
      let d := Nfs.decide_request cfg e rpc ip (l4_source frame)
                 (Nfs.touch e ip st).2 (Nfs.touch e ip st).1 in
      r = {| Nfs.verdict := TC_ACT_OK; Nfs.decision := d.1;
             Nfs.skb_out := frame; Nfs.st_out := d.2 |})).
Proof.
  cbv zeta. unfold Nfs.nfs_server_tc.
  destruct (Nfs.walk_headers frame) as [[p len]|] eqn:Hw; [|by left].
  destruct (Nfs.parse_rpc_header _ _ _) as [rpc|] eqn:Hp; [|by left].
  destruct (Nfs.not_nfs_call rpc) eqn:Hv; [by left|].
  right. exists rpc. split; [by exists p, len|].
  destruct (Nfs.touch e (ip_saddr frame) st) as [st1 in_map]; simpl.
  destruct (req_slot e); simpl; [|by left].
  destruct (ev_slot e); simpl; [|by left].
  right. split; [done|]. split; [done|].
  by destruct (Nfs.decide_request _ _ _ _ _ _ _).
Qed.

Lemma http_decide_events cfg e rq st :
  let '(d, ik, fev, st') := Http.decide_request cfg e rq st in
  Http.events st' = Http.events st /\
  Http.conn_track st' = Http.conn_track st /\
  ik = bool_decide (d = KernelServed) /\
  (d = KernelServed \/ d = ForwardToControlPlane \/ d = NotFound) /\
  exists sz,
    fev = (if Http.enable_kernel_processing cfg
              && bool_decide (Http.r_method rq = Http.HTTP_GET)
           then Http.reserve_file_event e
                  (Http.mk_file_event e rq (http_operation d) sz (negb ik))
           else None) /\
    (d <> KernelServed -> sz = 0) /\
    (d = KernelServed ->
     exists ce, Http.file_cache st !! key_of_buffer (Http.r_filename rq)
                = Some ce /\ sz = Http.file_size ce).
Proof.
  unfold Http.decide_request.
  destruct (_ && _).
  - destruct (Http.check_file_exists _).
    + destruct (Http.file_cache st !! _) as [ce|] eqn:Hc.
      * destruct (Http.valid ce).
        -- repeat split; auto. exists (Http.file_size ce).
           repeat split; [done|]. intros _. by exists ce.
        -- repeat split; auto. exists 0. by repeat split.
      * repeat split; auto. exists 0. by repeat split.
    + repeat split; auto. exists 0. by repeat split.
  - repeat split; auto. exists 0. by repeat split.
Qed.

Lemma http_ingress_events cfg e frame st :
  let r := Http.fileserver_ingress cfg e frame st in
  let d := Http.decision r in
  exists new,
    Http.events (Http.st_out r) = Http.events st ++ new /\
    match d with
    | PassThrough | NoDecision => new = []
    | _ =>
      exists rq fev,
        http_recognised frame rq /\
        new = Http.ReqRecord
                (http_req_record rq (bool_decide (d = KernelServed)))
              :: match fev with Some f => [Http.FileRecord f] | None => [] end /\
        (fev = None <->
         ev_slot e = false \/ Http.enable_kernel_processing cfg = false \/
         Http.r_method rq <> Http.HTTP_GET) /\
        forall f, fev = Some f ->
          Http.operation f = http_operation d /\
          Http.forwarded_to_user f = negb (bool_decide (d = KernelServed)) /\
          Http.ev_filename f = key_of_buffer (Http.r_filename rq) /\
          Http.client_addr f = Http.r_client_ip rq /\
          Http.client_port f = Http.r_client_port rq /\
          Http.timestamp f = now e
    end.
Proof.
  cbv zeta.
  destruct (http_ingress_shape cfg e frame st)
    as [E|(rq & Hrec & [[Hs E]|[Hs E]])]; rewrite E; clear E.
  - exists []. by rewrite app_nil_r.
  - exists []. by rewrite app_nil_r.
  - set (st1 := Http.set_stats _ st).
    pose proof (http_decide_events cfg e rq st1) as Hd.
    destruct (Http.decide_request cfg e rq st1) as [[[d ik] fev] st2].
    destruct Hd as (He & _ & -> & Ho & sz & Hf & _).
    cbn [Http.submit Http.decision Http.st_out Http.events Http.set_events
         Http.set_conn_track].
    rewrite He. eexists. split; [reflexivity|].
    assert (exists rq' fev',
      http_recognised frame rq' /\
      Http.ReqRecord
        {| Http.src_addr := Http.r_client_ip rq;
           Http.src_port := Http.r_client_port rq;
           Http.method := Http.r_method rq;
           Http.processed_in_kernel := bool_decide (d = KernelServed);
           Http.rq_filename := key_of_buffer (Http.r_filename rq);
           Http.content_length := 0 |}
      :: match fev with Some f => [Http.FileRecord f] | None => [] end =
      Http.ReqRecord (http_req_record rq' (bool_decide (d = KernelServed)))
      :: match fev' with Some f => [Http.FileRecord f] | None => [] end /\
      (fev' = None <->
       ev_slot e = false \/ Http.enable_kernel_processing cfg = false \/
       Http.r_method rq' <> Http.HTTP_GET) /\
      forall f, fev' = Some f ->
        Http.operation f = http_operation d /\
        Http.forwarded_to_user f = negb (bool_decide (d = KernelServed)) /\
        Http.ev_filename f = key_of_buffer (Http.r_filename rq') /\
        Http.client_addr f = Http.r_client_ip rq' /\
        Http.client_port f = Http.r_client_port rq' /\
        Http.timestamp f = now e) as Hgoal.
    { exists rq, fev. split; [done|]. split; [done|].
      rewrite Hf. unfold Http.reserve_file_event.
      destruct (Http.enable_kernel_processing cfg); simpl.
      - case_bool_decide as Hm; simpl.
        + destruct (ev_slot e); simpl.
          * split; [split; [done|]; intros [?|[?|?]]; done|].
            by intros f [= <-].
          * split; [split; auto|]. done.
        + split; [split; auto|]. done.
      - split; [split; auto|]. done. }
    by destruct Ho as [-> |[-> | ->]].
Qed.

(** X3.  What [fileserver_ingress] puts on the channel.  The records
    already there are never touched.  A frame passed through, and a
    request whose record found no room, add nothing.  A decided request
    adds its request record, marked as processed in the kernel exactly
    when the outcome is kernel served, followed by at most one file
    event.  The file event is missing exactly when it found no room, the
    switch is off or the method is not GET; when present it carries the
    result code of the outcome, the name and the client of the request
    and the time of the invocation. *)
Theorem file_fetch_records_follow_the_decision cfg e frame st :
  let r := Http.fileserver_ingress cfg e frame st in
  let d := Http.decision r in
  exists new,
    Http.events (Http.st_out r) = Http.events st ++ new /\
    match d with
    | PassThrough | NoDecision => new = []
    | _ =>
      exists rq fev,
        http_recognised frame rq /\
        new = Http.ReqRecord
                (http_req_record rq (bool_decide (d = KernelServed)))
              :: match fev with Some f => [Http.FileRecord f] | None => [] end /\
        (fev = None <->
         ev_slot e = false \/ Http.enable_kernel_processing cfg = false \/
         Http.r_method rq <> Http.HTTP_GET) /\
        forall f, fev = Some f ->
          Http.operation f = http_operation d /\
          Http.forwarded_to_user f = negb (bool_decide (d = KernelServed)) /\
          Http.ev_filename f = key_of_buffer (Http.r_filename rq) /\
          Http.client_addr f = Http.r_client_ip rq /\
          Http.client_port f = Http.r_client_port rq /\
          Http.timestamp f = now e
    end.
Proof. exact (http_ingress_events cfg e frame st). Qed.

Lemma nfs_dispatch_event cfg e rpc req ev st :
  Nfs.result ev = Nfs.NFS_OP_FORWARD_TO_USER ->
  Nfs.forwarded_to_user ev = true ->
  Nfs.from_cache ev = false ->
  let '(h, ev', st') := Nfs.dispatch cfg e rpc req ev st in
  Nfs.client_addr ev' = Nfs.client_addr ev /\
  Nfs.client_port ev' = Nfs.client_port ev /\
  Nfs.ev_xid ev' = Nfs.ev_xid ev /\
  Nfs.ev_procedure ev' = Nfs.ev_procedure ev /\
  Nfs.timestamp ev' = Nfs.timestamp ev /\
  (h = 0 \/ h = 1) /\
  (h = 0 ->
   Nfs.result ev' = Nfs.NFS_OP_FORWARD_TO_USER /\
   Nfs.forwarded_to_user ev' = true /\ Nfs.from_cache ev' = false) /\
  (h = 1 ->
   Nfs.result ev' = Nfs.NFS_OP_SUCCESS /\
   Nfs.forwarded_to_user ev' = false).
Proof.
  intros Hr Hf Hc.
  unfold Nfs.dispatch, Nfs.handle_nfs_getattr, Nfs.handle_nfs_read.
  destruct (Nfs.enable_kernel_processing cfg);
    [|by repeat split; auto].
  destruct (Nfs.procedure rpc =? Nfs.NFSPROC3_NULL);
    [by repeat split; auto|].
  destruct (Nfs.procedure rpc =? Nfs.NFSPROC3_GETATTR).
  { destruct (Nfs.fh_to_name st !! _) as [name|];
      [|by repeat split; auto].
    destruct (Nfs.nfs_file_cache st !! _) as [ce|];
      [|by repeat split; auto].
    destruct (negb (Nfs.valid ce)); [by repeat split; auto|].
    destruct (_ >? _); by repeat split; auto. }
  destruct (Nfs.procedure rpc =? Nfs.NFSPROC3_READ);
    [|by repeat split; auto].
  destruct (Nfs.fh_to_name st !! _) as [name|];
    [|by repeat split; auto].
  destruct (Nfs.nfs_file_cache st !! _) as [ce|];
    [|by repeat split; auto].
  destruct (negb (Nfs.valid ce) || negb (Nfs.data_valid ce));
    [by repeat split; auto|].
  destruct (_ || _); by repeat split; auto.
Qed.

Lemma nfs_decide_events cfg e rpc ip port in_map st :
  let r := Nfs.decide_request cfg e rpc ip port in_map st in
  exists ev,
    Nfs.nfs_events r.2 =
      Nfs.nfs_events st ++
      [Nfs.ReqRecord
         {| Nfs.rq_client_addr := ip; Nfs.rq_client_port := port;
            Nfs.rq_xid := Nfs.xid rpc; Nfs.rq_procedure := Nfs.procedure rpc;
            Nfs.processed_in_kernel := bool_decide (r.1 = KernelServed);
            Nfs.rq_filename := "";
            Nfs.offset := 0; Nfs.count := 0; Nfs.fh := Nfs.zero_fh |};
       Nfs.EventRecord ev] /\
    Nfs.client_addr ev = ip /\ Nfs.client_port ev = port /\
    Nfs.ev_xid ev = Nfs.xid rpc /\
    Nfs.ev_procedure ev = Nfs.procedure rpc /\
    Nfs.timestamp ev = now e /\
    Nfs.forwarded_to_user ev = negb (bool_decide (r.1 = KernelServed)) /\
    Nfs.result ev = (if bool_decide (r.1 = KernelServed)
                     then Nfs.NFS_OP_SUCCESS else Nfs.NFS_OP_FORWARD_TO_USER) /\
    (r.1 = ForwardToControlPlane -> Nfs.from_cache ev = false).
Proof.
  cbv zeta. unfold Nfs.decide_request.
  match goal with |- context [Nfs.dispatch ?a ?b ?c ?d ?f ?g] =>
    pose proof (nfs_dispatch_event a b c d f g eq_refl eq_refl eq_refl) as Hd;
    pose proof (nfs_dispatch_spec a b c d f g) as Hs;
    destruct (Nfs.dispatch a b c d f g) as [[h ev'] st']
  end.
  destruct Hs as (Hev & _).
  destruct Hd as (Ha & Hp & Hx & Hpr & Ht & Hh & H0 & H1).
  exists ev'. cbn in Ha, Hp, Hx, Hpr, Ht.
  destruct Hh as [-> | ->]; simpl.
  - destruct (H0 eq_refl) as (? & ? & ?).
    destruct in_map; simpl; rewrite Hev; by repeat split.
  - destruct (H1 eq_refl) as (? & ?).
    destruct in_map; simpl; rewrite Hev; by repeat split.
Qed.

Lemma nfs_tc_events cfg e frame st :
  let r := Nfs.nfs_server_tc cfg e frame st in
  let d := Nfs.decision r in
  exists new,
    Nfs.nfs_events (Nfs.st_out r) = Nfs.nfs_events st ++ new /\
    match d with
    | KernelServed | ForwardToControlPlane =>
      exists rpc ev,
        nfs_recognised frame rpc /\
        new = [Nfs.ReqRecord
                 (nfs_req_record frame rpc (bool_decide (d = KernelServed)));
               Nfs.EventRecord ev] /\
        Nfs.client_addr ev = ip_saddr frame /\
        Nfs.client_port ev = l4_source frame /\
        Nfs.ev_xid ev = Nfs.xid rpc /\
        Nfs.ev_procedure ev = Nfs.procedure rpc /\
        Nfs.timestamp ev = now e /\
        Nfs.forwarded_to_user ev = negb (bool_decide (d = KernelServed)) /\
        Nfs.result ev = (if bool_decide (d = KernelServed)
                         then Nfs.NFS_OP_SUCCESS
                         else Nfs.NFS_OP_FORWARD_TO_USER) /\
        (d = ForwardToControlPlane -> Nfs.from_cache ev = false)
    | _ => new = []
    end.
Proof.
  cbv zeta.
  destruct (nfs_touch_keeps e (ip_saddr frame) st) as (Ht & _).
  destruct (nfs_tc_shape cfg e frame st)
    as [E|(rpc & Hrec & [[Hs E]|(Hr & He & E)])]; rewrite E; clear E.
  - exists []. by rewrite app_nil_r.
  - exists []. simpl. by rewrite Ht, app_nil_r.
  - cbn [Nfs.decision Nfs.st_out].
    destruct (nfs_decide_events cfg e rpc (ip_saddr frame) (l4_source frame)
                (Nfs.touch e (ip_saddr frame) st).2
                (Nfs.touch e (ip_saddr frame) st).1) as (ev & Hev & Hrest).
    cbv zeta in Hev, Hrest. rewrite Ht in Hev.
    eexists. split; [exact Hev|].
    destruct (nfs_decide_outcomes cfg e rpc (ip_saddr frame)
                (l4_source frame) (Nfs.touch e (ip_saddr frame) st).2
                (Nfs.touch e (ip_saddr frame) st).1) as [Ho | Ho];
      cbv zeta in Ho; rewrite Ho in *; by exists rpc, ev.
Qed.

(** X4.  What [nfs_server_tc] puts on the channel.  The records already
    there are never touched.  A frame passed through, and a call for
    which one of the two records found no room, add nothing.  A decided
    call adds exactly two records: the request record, marked as
    processed in the kernel exactly when the outcome is kernel served,
    whose handle, offset, count and name are those of the zeroed record
    whatever the frame carries; and the event, with the transaction id
    and the procedure of the call, the time of the invocation, and the
    result code of the outcome. *)
Theorem remote_fs_records_follow_the_decision cfg e frame st :
  let r := Nfs.nfs_server_tc cfg e frame st in
  let d := Nfs.decision r in
  exists new,
    Nfs.nfs_events (Nfs.st_out r) = Nfs.nfs_events st ++ new /\
    match d with
    | KernelServed | ForwardToControlPlane =>
      exists rpc ev,
        nfs_recognised frame rpc /\
        new = [Nfs.ReqRecord
                 (nfs_req_record frame rpc (bool_decide (d = KernelServed)));
               Nfs.EventRecord ev] /\
        Nfs.client_addr ev = ip_saddr frame /\
        Nfs.client_port ev = l4_source frame /\
        Nfs.ev_xid ev = Nfs.xid rpc /\
        Nfs.ev_procedure ev = Nfs.procedure rpc /\
        Nfs.timestamp ev = now e /\
        Nfs.forwarded_to_user ev = negb (bool_decide (d = KernelServed)) /\
        Nfs.result ev = (if bool_decide (d = KernelServed)
                         then Nfs.NFS_OP_SUCCESS
                         else Nfs.NFS_OP_FORWARD_TO_USER) /\
        (d = ForwardToControlPlane -> Nfs.from_cache ev = false)
    | _ => new = []
    end.
Proof. exact (nfs_tc_events cfg e frame st). Qed.

(** ** The sizes of the maps *)

Lemma size_alter `{Countable K} {V : Type} (f : V -> V) k (m : gmap K V) :
  size (alter f k m) = size m.
Proof. by rewrite <-!(size_dom (D := gset K)), dom_alter_L. Qed.

Lemma size_insert_present `{Countable K} {V : Type} k v w (m : gmap K V) :
  m !! k = Some w -> size (<[k := v]> m) = size m.
Proof. intros Hk. apply map_size_insert_Some. by exists w. Qed.

Lemma bpf_update_size `{Countable K} {V : Type} n (m : gmap K V) k v :
  (size m <= n)%nat -> (size (bpf_map_update_elem n m k v) <= n)%nat.
Proof.
  intros Hm. unfold bpf_map_update_elem.
  destruct (m !! k) as [w|] eqn:Hk.
  - by rewrite (size_insert_present _ _ w).
  - case_decide; [|done]. rewrite map_size_insert_None by done. lia.
Qed.

Lemma try_update_size `{Countable K} {V : Type} n (m m' : gmap K V) k v :
  try_update n m k v = Some m' -> (size m <= n)%nat -> (size m' <= n)%nat.
Proof.
  unfold try_update. intros Ht Hm.
  destruct (m !! k) as [w|] eqn:Hk.
  - injection Ht as <-. by rewrite (size_insert_present _ _ w).
  - case_decide; [|done]. injection Ht as <-.
    rewrite map_size_insert_None by done. lia.
Qed.

Lemma http_decide_sizes cfg e rq st :
  let st' := (Http.decide_request cfg e rq st).2 in
  size (Http.file_cache st') = size (Http.file_cache st) /\
  Http.conn_track st' = Http.conn_track st /\
  length (Http.stats st') = length (Http.stats st).
Proof.
  cbv zeta. rewrite http_decide_stats, length_update_stats.
  unfold Http.decide_request.
  destruct (_ && _); [|done].
  destruct (Http.check_file_exists _); [|done].
  destruct (Http.file_cache st !! _) as [ce|] eqn:Hc; [|done].
  destruct (Http.valid ce); [|done].
  simpl. by rewrite (size_insert_present _ _ ce).
Qed.

Lemma http_ingress_capacity cfg e frame st :
  http_capacity st ->
  http_capacity (Http.st_out (Http.fileserver_ingress cfg e frame st)).
Proof.
  intros (Hc & Ht & Hl).
  destruct (http_cases cfg e frame st) as [E|[[Hs E]|[Hs [rq E]]]];
    rewrite E; clear E.
  - done.
  - unfold http_capacity. simpl. by rewrite length_update_stats.
  - set (st1 := Http.set_stats _ st).
    destruct (http_decide_sizes cfg e rq st1) as (Hc' & Ht' & Hl').
    destruct (Http.decide_request cfg e rq st1) as [[[d ik] fev] st2].
    unfold http_capacity. simpl in *.
    rewrite Hc', Hl', Ht', length_update_stats.
    split; [done|]. split; [|done]. by apply bpf_update_size.
Qed.

Lemma http_refresh_capacity en fs name st :
  http_capacity st ->
  http_capacity (Http.cache_file_in_kernel en fs name st).2.
Proof.
  intros (Hc & Ht & Hl). unfold Http.cache_file_in_kernel.
  destruct (negb en); [done|].
  destruct (fs name) as [f|]; [|done].
  destruct (_ || _); [done|].
  destruct (negb (Http.openable f)); [done|].
  destruct (negb _); [done|].
  match goal with |- context [try_update 1024 ?m ?k ?v] =>
    destruct (try_update 1024 m k v) as [c|] eqn:Hu end; [|done].
  split; [|done]. simpl. by eapply try_update_size.
Qed.

Lemma http_run_capacity n st : http_run n st -> http_capacity st.
Proof.
  induction 1 as [|n st en fs name Hr IH|n st frame Hr IH
                  |n st cfg e filename Hr IH|n st cfg e frame Hr IH].
  - unfold http_capacity. simpl. rewrite !map_size_empty.
    repeat split; lia.
  - by apply http_refresh_capacity.
  - destruct IH as (Hc & Ht & Hl). unfold fileserver_xdp.
    repeat (case_match; [done|]).
    unfold http_capacity. simpl. by rewrite length_update_stats.
  - destruct (trace_file_open_keeps cfg e filename st) as (E1 & E2 & E3).
    unfold http_capacity. by rewrite E1, E2, E3.
  - by apply http_ingress_capacity.
Qed.

Lemma nfs_touch_capacity e ip st :
  (size (Nfs.client_track st) <= 1024)%nat ->
  (size (Nfs.client_track (Nfs.touch e ip st).1) <= 1024)%nat.
Proof.
  intros Hs. unfold Nfs.touch.
  destruct (Nfs.client_track st !! ip) as [cs|] eqn:Hk; simpl.
  - by rewrite (size_insert_present _ _ cs).
  - by apply bpf_update_size.
Qed.

Lemma nfs_dispatch_sizes cfg e rpc req ev st :
  let st' := (Nfs.dispatch cfg e rpc req ev st).2 in
  size (Nfs.nfs_file_cache st') = size (Nfs.nfs_file_cache st).
Proof.
  cbv zeta.
  unfold Nfs.dispatch, Nfs.handle_nfs_getattr, Nfs.handle_nfs_read.
  destruct (Nfs.enable_kernel_processing cfg); [|done].
  destruct (Nfs.procedure rpc =? Nfs.NFSPROC3_NULL); [done|].
  destruct (Nfs.procedure rpc =? Nfs.NFSPROC3_GETATTR).
  { destruct (Nfs.fh_to_name st !! _) as [name|]; [|done].
    destruct (Nfs.nfs_file_cache st !! _) as [ce|] eqn:Hc; [|done].
    destruct (negb (Nfs.valid ce)); [done|].
    destruct (_ >? _); [done|].
    simpl. by rewrite (size_insert_present _ _ ce). }
  destruct (Nfs.procedure rpc =? Nfs.NFSPROC3_READ); [|done].
  destruct (Nfs.fh_to_name st !! _) as [name|]; [|done].
  destruct (Nfs.nfs_file_cache st !! _) as [ce|] eqn:Hc; [|done].
  destruct (negb (Nfs.valid ce) || negb (Nfs.data_valid ce)); [done|].
  destruct (_ || _); [done|].
  simpl. by rewrite (size_insert_present _ _ ce).
Qed.

Lemma nfs_decide_sizes cfg e rpc ip port in_map st :
  let st' := (Nfs.decide_request cfg e rpc ip port in_map st).2 in
  size (Nfs.nfs_file_cache st') = size (Nfs.nfs_file_cache st) /\
  Nfs.fh_to_name st' = Nfs.fh_to_name st /\
  size (Nfs.client_track st') = size (Nfs.client_track st) /\
  length (Nfs.nfs_stats st') = length (Nfs.nfs_stats st).
Proof.
  cbv zeta. rewrite nfs_decide_stats.
  split; [|split; [|split]].
  - destruct (nfs_decide_cache cfg e rpc ip port in_map st) as [_ E].
    cbv zeta in E. rewrite E. apply nfs_dispatch_sizes.
  - unfold Nfs.decide_request.
    match goal with |- context [Nfs.dispatch ?a ?b ?c ?d ?f ?g] =>
      pose proof (nfs_dispatch_spec a b c d f g) as Hs;
      destruct (Nfs.dispatch a b c d f g) as [[h ev'] st']
    end.
    destruct Hs as (_ & _ & Hf & _).
    destruct (negb (h =? 0)), in_map; simpl; done.
  - unfold Nfs.decide_request.
    match goal with |- context [Nfs.dispatch ?a ?b ?c ?d ?f ?g] =>
      pose proof (nfs_dispatch_spec a b c d f g) as Hs;
      destruct (Nfs.dispatch a b c d f g) as [[h ev'] st']
    end.
    destruct Hs as (_ & Hc & _ & _).
    destruct (negb (h =? 0)), in_map; simpl;
      rewrite ?size_alter; by rewrite Hc.
  - destruct (Nfs.decide_request _ _ _ _ _ _ _).1;
      by rewrite !length_update_stats.
Qed.

Lemma nfs_tc_capacity cfg e frame st :
  nfs_capacity st ->
  nfs_capacity (Nfs.st_out (Nfs.nfs_server_tc cfg e frame st)).
Proof.
  intros (Hc & Hf & Ht & Hl).
  pose proof (nfs_touch_capacity e (ip_saddr frame) st Ht) as Ht'.
  destruct (nfs_touch_keeps e (ip_saddr frame) st) as (_ & Hc' & Hf' & Hl').
  destruct (nfs_cases cfg e frame st) as [E|[[Hs E]|(Hr & He & rpc & E)]];
    rewrite E; clear E; cbn [Nfs.st_out Nfs.pass].
  - done.
  - unfold nfs_capacity. by rewrite Hc', Hf', Hl'.
  - destruct (nfs_decide_sizes cfg e rpc (ip_saddr frame) (l4_source frame)
                (Nfs.touch e (ip_saddr frame) st).2
                (Nfs.touch e (ip_saddr frame) st).1) as (A & B & C & D).
    cbv zeta in A, B, C, D. unfold nfs_capacity.
    by rewrite A, B, C, D, Hc', Hf', Hl'.
Qed.

Lemma nfs_refresh_capacity en wall fs name after st :
  nfs_capacity st ->
  nfs_capacity (Nfs.cache_file_in_kernel en wall fs name after st).2.
Proof.
  intros (Hc & Hf & Ht & Hl). unfold Nfs.cache_file_in_kernel.
  destruct (negb en); [done|].
  destruct (fs name) as [f|]; [|done].
  destruct (negb (Nfs.S_ISREG _)); [done|].
  destruct (_ >? _); [done|].
  destruct (negb (Nfs.openable f)); [done|].
  destruct (negb _); [done|].
  match goal with |- context [try_update 1024 ?m ?k ?v] =>
    destruct (try_update 1024 m k v) as [c|] eqn:Hu end; [|done].
  apply try_update_size in Hu; [|done].
  match goal with |- context [try_update 2048 ?m ?k ?v] =>
    destruct (try_update 2048 m k v) as [c2|] eqn:Hu2 end; [|done].
  apply try_update_size in Hu2; [|done].
  done.
Qed.

Lemma nfs_run_capacity n st : nfs_run n st -> nfs_capacity st.
Proof.
  induction 1 as [|n st en wall fs name after Hr IH|n st frame Hr IH
                  |n st cfg Hr IH|n st cfg e frame Hr IH].
  - unfold nfs_capacity. simpl. rewrite !map_size_empty.
    repeat split; lia.
  - by apply nfs_refresh_capacity.
  - destruct IH as (Hc & Hf & Ht & Hl). unfold nfs_server_xdp.
    repeat (case_match; try done).
    unfold nfs_capacity. simpl. by rewrite length_update_stats.
  - destruct IH as (Hc & Hf & Ht & Hl). unfold trace_openat.
    case_match; [done|].
    unfold nfs_capacity. simpl. by rewrite length_update_stats.
  - by apply nfs_tc_capacity.
Qed.

(** X5.  The maps never outgrow their declared sizes.  Whatever the
    control planes refresh and the programs process, the file cache of
    the file-fetch object holds at most 1024 entries and its connection
    table at most 4096; the file cache of the remote-filesystem object
    holds at most 1024 entries, its handle table at most 2048 and its
    client table at most 1024; both statistics arrays keep their 16
    counters. *)
Theorem maps_stay_within_their_sizes :
  (forall n st, http_run n st -> http_capacity st) /\
  (forall n st, nfs_run n st -> nfs_capacity st).
Proof. split; [exact http_run_capacity | exact nfs_run_capacity]. Qed.

Lemma maps_stay_within_their_sizes_witness :
  http_capacity http_refreshed /\ nfs_capacity nfs_refreshed.
Proof.
  split.
  - apply (proj1 maps_stay_within_their_sizes 0%nat).
    apply (http_run_refresh 0 Http.init_state true http_fs "test.txt").
    apply http_run_init.
  - apply (proj2 maps_stay_within_their_sizes 0%nat).
    apply (nfs_run_refresh 0 Nfs.init_state true 0 (nfs_fs test_file)
             "test.txt" image_tail).
    apply nfs_run_init.
Defined.

(** ** The handle the engine looks up *)

Lemma nfs_dispatch_no_handle cfg e rpc req ev st :
  Nfs.fh_to_name st !! Nfs.fh req = None ->
  let r := Nfs.dispatch cfg e rpc req ev st in
  Nfs.nfs_file_cache r.2 = Nfs.nfs_file_cache st /\
  (r.1.1 <> 0 ->
   Nfs.enable_kernel_processing cfg = true /\
   Nfs.procedure rpc = Nfs.NFSPROC3_NULL).
Proof.
  intros Hn. cbv zeta.
  unfold Nfs.dispatch, Nfs.handle_nfs_getattr, Nfs.handle_nfs_read.
  rewrite Hn.
  destruct (Nfs.enable_kernel_processing cfg); [|done].
  destruct (Nfs.procedure rpc =? Nfs.NFSPROC3_NULL) eqn:Hp.
  { apply Z.eqb_eq in Hp. done. }
  destruct (Nfs.procedure rpc =? Nfs.NFSPROC3_GETATTR); [done|].
  by destruct (Nfs.procedure rpc =? Nfs.NFSPROC3_READ).
Qed.

Lemma nfs_decide_no_handle cfg e rpc ip port in_map st :
  Nfs.fh_to_name st !! Nfs.zero_fh = None ->
  let r := Nfs.decide_request cfg e rpc ip port in_map st in
  Nfs.nfs_file_cache r.2 = Nfs.nfs_file_cache st /\
  (r.1 = KernelServed ->
   Nfs.enable_kernel_processing cfg = true /\
   Nfs.procedure rpc = Nfs.NFSPROC3_NULL).
Proof.
  intros Hn.
  destruct (nfs_decide_cache cfg e rpc ip port in_map st) as [Hd Hc].
  cbv zeta in *. rewrite Hd, Hc.
  match goal with |- context [Nfs.dispatch ?a ?b ?c ?d ?f ?g] =>
    destruct (nfs_dispatch_no_handle a b c d f g Hn) as [Hk Hh];
    cbv zeta in Hk, Hh;
    destruct (Nfs.dispatch a b c d f g) as [[h ev'] st']
  end.
  simpl in *. split; [done|].
  destruct (h =? 0) eqn:E; [done|]. apply Z.eqb_neq in E. auto.
Qed.

Lemma nfs_refresh_handles en wall fs name after st :
  handle_table_ok st ->
  handle_table_ok (Nfs.cache_file_in_kernel en wall fs name after st).2.
Proof.
  intros Hok. unfold Nfs.cache_file_in_kernel.
  destruct (negb en); [done|].
  destruct (fs name) as [f|]; [|done].
  destruct (negb (Nfs.S_ISREG _)); [done|].
  destruct (_ >? _); [done|].
  destruct (negb (Nfs.openable f)); [done|].
  destruct (negb _); [done|].
  match goal with |- context [try_update 1024 ?m ?k ?v] =>
    destruct (try_update 1024 m k v) as [c|] eqn:Hu end; [|done].
  match goal with |- context [try_update 2048 ?m ?k ?v] =>
    destruct (try_update 2048 m k v) as [c2|] eqn:Hu2 end; [|done].
  apply try_update_Some in Hu2. subst c2.
  intros h nm. cbn [snd Nfs.fh_to_name Nfs.set_fh_to_name Nfs.set_cache].
  destruct (decide (h = Nfs.ce_fh (Nfs.fill_entry wall f name
              (take (Z.to_nat (Nfs.st_size f)) (Nfs.contents f)))))
    as [-> | Hne].
  - done.
  - rewrite lookup_insert_ne by done. apply Hok.
Qed.

Lemma nfs_tc_handles cfg e frame st :
  Nfs.fh_to_name (Nfs.st_out (Nfs.nfs_server_tc cfg e frame st))
  = Nfs.fh_to_name st.
Proof.
  destruct (nfs_touch_keeps e (ip_saddr frame) st) as (_ & _ & Hf & _).
  destruct (nfs_cases cfg e frame st) as [E|[[Hs E]|(Hr & He & rpc & E)]];
    rewrite E; clear E; cbn [Nfs.st_out Nfs.pass]; try done.
  destruct (nfs_decide_sizes cfg e rpc (ip_saddr frame) (l4_source frame)
              (Nfs.touch e (ip_saddr frame) st).2
              (Nfs.touch e (ip_saddr frame) st).1) as (_ & B & _).
  cbv zeta in B. by rewrite B.
Qed.

Lemma nfs_run_handles n st : nfs_run n st -> handle_table_ok st.
Proof.
  induction 1 as [|n st en wall fs name after Hr IH|n st frame Hr IH
                  |n st cfg Hr IH|n st cfg e frame Hr IH].
  - intros h name. simpl. by rewrite lookup_empty.
  - by apply nfs_refresh_handles.
  - unfold nfs_server_xdp. by repeat (case_match; try done).
  - unfold trace_openat. by case_match.
  - unfold handle_table_ok. by rewrite nfs_tc_handles.
Qed.

Lemma handle_table_no_zero st :
  handle_table_ok st -> Nfs.fh_to_name st !! Nfs.zero_fh = None.
Proof.
  intros Hok. destruct (Nfs.fh_to_name st !! Nfs.zero_fh) as [name|] eqn:E;
    [|done].
  by apply Hok in E.
Qed.

Lemma nfs_tc_no_handle cfg e frame st :
  handle_table_ok st ->
  let r := Nfs.nfs_server_tc cfg e frame st in
  Nfs.nfs_file_cache (Nfs.st_out r) = Nfs.nfs_file_cache st /\
  (Nfs.decision r = KernelServed ->
   Nfs.enable_kernel_processing cfg = true /\
   exists rpc, nfs_recognised frame rpc /\
               Nfs.procedure rpc = Nfs.NFSPROC3_NULL).
Proof.
  intros Hok%handle_table_no_zero. cbv zeta.
  destruct (nfs_touch_keeps e (ip_saddr frame) st) as (_ & Hc & Hf & _).
  destruct (nfs_tc_shape cfg e frame st)
    as [E|(rpc & Hrec & [[Hs E]|(Hr & He & E)])]; rewrite E; clear E;
    cbn [Nfs.st_out Nfs.decision Nfs.pass]; try done.
  rewrite <-Hf in Hok.
  destruct (nfs_decide_no_handle cfg e rpc (ip_saddr frame) (l4_source frame)
              (Nfs.touch e (ip_saddr frame) st).2
              (Nfs.touch e (ip_saddr frame) st).1 Hok) as [A B].
  cbv zeta in A, B. rewrite A, Hc. split; [done|].
  intros Hd. destruct (B Hd). split; [done|]. by exists rpc.
Qed.

Lemma nfs_run_never_hit n st : nfs_run n st -> never_hit st.
Proof.
  induction 1 as [|n st en wall fs name after Hr IH|n st frame Hr IH
                  |n st cfg Hr IH|n st cfg e frame Hr IH].
  - intros k ce. simpl. by rewrite lookup_empty.
  - intros k ce.
    destruct (nfs_refresh_cases en wall fs name after st)
      as [E|(f & _ & _ & _ & _ & E)]; cbv zeta in *; rewrite E.
    + apply IH.
    + destruct (decide (k = Nfs.name_key name after)) as [-> | Hne].
      * rewrite lookup_insert_eq. by intros [= <-].
      * rewrite lookup_insert_ne by done. apply IH.
  - unfold nfs_server_xdp. by repeat (case_match; try done).
  - unfold trace_openat. by case_match.
  - apply nfs_run_handles in Hr.
    destruct (nfs_tc_no_handle cfg e frame st Hr) as [E _].
    cbv zeta in E. unfold never_hit. by rewrite E.
Qed.

(** X6.  The engine never answers from the cache the control plane
    fills.  The request record's handle is the zeroed one, of length 0,
    while every handle the control plane stores in the side table has
    length 8.  So in every state that the programs and the control plane
    reach from the empty maps, an invocation leaves the cache store as
    it was, only a NULL call with the switch on is kernel served, and no
    cache entry was ever hit. *)
Theorem reachable_cache_is_never_consulted n st :
  nfs_run n st ->
  never_hit st /\
  forall cfg e frame,
    let r := Nfs.nfs_server_tc cfg e frame st in
    Nfs.nfs_file_cache (Nfs.st_out r) = Nfs.nfs_file_cache st /\
    (Nfs.decision r = KernelServed ->
     Nfs.enable_kernel_processing cfg = true /\
     exists rpc, nfs_recognised frame rpc /\
                 Nfs.procedure rpc = Nfs.NFSPROC3_NULL).
Proof.
  intros Hr. split; [by eapply nfs_run_never_hit|].
  intros cfg e frame. apply nfs_tc_no_handle. by eapply nfs_run_handles.
Qed.

Lemma reachable_cache_is_never_consulted_witness :
  Nfs.decision
    (Nfs.nfs_server_tc Nfs.default_config env0 (nfs_frame 2049 1)
       nfs_refreshed) = ForwardToControlPlane /\
  Nfs.nfs_file_cache nfs_refreshed !! Nfs.name_key "test.txt" image_tail
    <> None /\
  never_hit nfs_refreshed.
Proof.
  split; [vm_compute; reflexivity|]. split; [vm_compute; congruence|].
  apply (reachable_cache_is_never_consulted 0 nfs_refreshed).
  apply (nfs_run_refresh 0 Nfs.init_state true 0 (nfs_fs test_file)
           "test.txt" image_tail).
  apply nfs_run_init.
Defined.
(** ** C2 *)





(** ** C3 *)





(** ** The name and the method of a request *)

Lemma ch_inj a b : ch a = ch b -> a = b.
Proof.
  unfold ch. intros E. apply N2Z.inj in E.
  apply (f_equal Byte.of_N) in E. rewrite !Byte.of_to_N in E.
  by injection E.
Qed.

Lemma ch_eqb a b : (ch a =? ch b) = bool_decide (a = b).
Proof.
  case_bool_decide as E.
  - subst. apply Z.eqb_refl.
  - apply Z.eqb_neq. intros H. by apply E, ch_inj.
Qed.

Lemma u8_app pre payload i :
  0 <= i ->
  u8 (pre ++ payload) (Z.of_nat (length pre) + i) =
  ch (nth (Z.to_nat i) payload x00).
Proof.
  intros Hi. unfold u8.
  destruct (_ <? 0) eqn:E; [apply Z.ltb_lt in E; lia|].
  f_equal. rewrite Z2Nat.inj_add, Nat2Z.id by lia.
  rewrite app_nth2 by lia. f_equal. lia.
Qed.

Lemma extract_loop_length n frame p len i acc :
  (length (Http.extract_loop n frame p len i acc)
   <= Nat.max (length acc) 8)%nat.
Proof.
  revert i acc. induction n as [|n IH]; intros i acc; simpl; [lia|].
  destruct (_ && _) eqn:C; [|lia].
  destruct (_ >=? _); [lia|].
  destruct (_ || _); [lia|].
  etrans; [apply IH|].
  to_prop. rewrite length_app. simpl. lia.
Qed.

Lemma extract_filename_length frame p len :
  (length (Http.extract_filename frame p len) <= 8)%nat.
Proof.
  unfold Http.extract_filename.
  destruct (_ || _); [simpl; lia|].
  destruct (_ && _); [|simpl; lia].
  apply (extract_loop_length 8 frame p (wrap16 len) 5 []).
Qed.

Lemma length_strip_nul bs : (length (strip_nul bs) <= length bs)%nat.
Proof.
  induction bs as [|b bs IH]; simpl; [done|].
  destruct (strip_nul bs); [case_decide|]; simpl in *; lia.
Qed.

Lemma length_string_of_list_byte l :
  String.length (string_of_list_byte l) = length l.
Proof.
  unfold string_of_list_byte.
  induction l as [|b l IH]; simpl; [done|]. by rewrite IH.
Qed.

Lemma extract_request_key m frame p len :
  let key := key_of_buffer (Http.r_filename
                              (Http.extract_request m frame p len)) in
  key = "index.html"%string \/ (String.length key <= 8)%nat.
Proof.
  cbv zeta. unfold Http.extract_request. cbn [Http.r_filename].
  destruct (_ =? 0).
  - by left.
  - right. unfold key_of_buffer. rewrite length_string_of_list_byte.
    etrans; [apply length_strip_nul|]. apply extract_filename_length.
Qed.

Lemma http_decide_cache_other cfg e rq st k :
  k <> key_of_buffer (Http.r_filename rq) ->
  Http.file_cache (Http.decide_request cfg e rq st).2 !! k
  = Http.file_cache st !! k.
Proof.
  intros Hk. unfold Http.decide_request.
  destruct (_ && _); [|done].
  destruct (Http.check_file_exists _); [|done].
  destruct (Http.file_cache st !! _) as [ce|]; [|done].
  destruct (Http.valid ce); [|done].
  simpl. by rewrite lookup_insert_ne.
Qed.

Lemma http_ingress_cache_other cfg e frame st k :
  (forall rq, http_recognised frame rq ->
              k <> key_of_buffer (Http.r_filename rq)) ->
  Http.file_cache (Http.st_out (Http.fileserver_ingress cfg e frame st)) !! k
  = Http.file_cache st !! k.
Proof.
  intros Hk.
  destruct (http_ingress_shape cfg e frame st)
    as [E|(rq & Hrec & [[Hs E]|[Hs E]])]; rewrite E; clear E; try done.
  set (st1 := Http.set_stats _ st).
  pose proof (http_decide_cache_other cfg e rq st1 k (Hk rq Hrec)) as Hd.
  destruct (Http.decide_request cfg e rq st1) as [[[d ik] fev] st2].
  done.
Qed.

Lemma http_long_name cfg e frame st name :
  (8 < String.length name)%nat ->
  name <> "index.html"%string ->
  Http.file_cache (Http.st_out (Http.fileserver_ingress cfg e frame st))
    !! name
  = Http.file_cache st !! name.
Proof.
  intros Hl Hn. apply http_ingress_cache_other.
  intros rq (p & len & _ & _ & ->) ->.
  destruct (extract_request_key (Http.parse_http_method frame p len)
              frame p len) as [E|E]; cbv zeta in E; [done|lia].
Qed.

(** X7.  The engine looks the cache up under at most eight characters.
    The key of a recognised request is either [index.html] or at most
    eight characters long, so an entry the control plane stored under a
    longer name is never hit, whatever the frame. *)
Theorem long_names_are_never_hit cfg e frame st name :
  (8 < String.length name)%nat ->
  name <> "index.html"%string ->
  (forall rq, http_recognised frame rq ->
              key_of_buffer (Http.r_filename rq) <> name) /\
  Http.file_cache (Http.st_out (Http.fileserver_ingress cfg e frame st))
    !! name
  = Http.file_cache st !! name.
Proof.
  intros Hl Hn. split; [|by apply http_long_name].
  intros rq (p & len & _ & _ & ->) E.
  destruct (extract_request_key (Http.parse_http_method frame p len)
              frame p len) as [E'|E']; cbv zeta in E'.
  - congruence.
  - rewrite E in E'. lia.
Qed.

Lemma long_names_are_never_hit_witness :
  Http.file_cache
    (Http.st_out (Http.fileserver_ingress Http.default_config env0
                    get_static (http_cached "static.html" 0)))
    !! "static.html"%string
  = Some (http_entry "static.html" 0).
Proof.
  refine (eq_trans
    (proj2 (long_names_are_never_hit Http.default_config env0 get_static
              (http_cached "static.html" 0) "static.html" _ _)) _).
  - simpl. lia.
  - vm_compute. congruence.
  - vm_compute. reflexivity.
Defined.

Lemma extract_loop_spec n pre payload len i acc :
  i = 5 + Z.of_nat (length acc) ->
  (8 <= n + length acc)%nat ->
  Http.extract_loop n (pre ++ payload) (Z.of_nat (length pre)) len i acc =
  acc ++ until_delimiter
           (take (Z.to_nat (Z.min (8 - Z.of_nat (length acc)) (len - i)))
                 (drop (Z.to_nat i) payload)).
Proof.
  revert i acc. induction n as [|n IH]; intros i acc Hi Hn.
  - simpl. replace (Z.to_nat _) with 0%nat by lia.
    by rewrite take_0, app_nil_r.
  - cbn [Http.extract_loop].
    destruct (_ && _) eqn:C.
    + to_prop.
      destruct (_ >=? _) eqn:B; to_prop.
      * rewrite length_app in B.
        rewrite drop_ge by lia. by rewrite take_nil, app_nil_r.
      * rewrite length_app in B.
        destruct (lookup_lt_is_Some_2 payload (Z.to_nat i)) as [b Hb];
          [lia|].
        rewrite (u8_app pre payload i) by lia.
        replace (nth (Z.to_nat (Z.of_nat (length pre) + i))
                   (pre ++ payload) x00) with b.
        2:{ rewrite Z2Nat.inj_add, Nat2Z.id by lia.
            rewrite app_nth2 by lia.
            replace (_ + _ - _)%nat with (Z.to_nat i) by lia.
            by rewrite nth_lookup, Hb. }
        rewrite nth_lookup, Hb.
        rewrite (drop_S _ _ _ Hb).
        replace (Z.to_nat (Z.min (8 - Z.of_nat (length acc)) (len - i)))
          with (S (Z.to_nat (Z.min (8 - Z.of_nat (length (acc ++ [b])))
                               (len - (i + 1)))))
          by (rewrite length_app; simpl; lia).
        cbn [take until_delimiter from_option id]. unfold delimiter.
        destruct (_ || _); [by rewrite app_nil_r|].
        rewrite IH by (rewrite length_app; simpl; lia).
        rewrite <-app_assoc. cbn [app].
        by replace (Z.to_nat (i + 1)) with (S (Z.to_nat i)) by lia.
    + replace (Z.to_nat _) with 0%nat.
      { by rewrite take_0, app_nil_r. }
      apply Bool.andb_false_iff in C as [C|C];
        [apply Bool.andb_false_iff in C as [C|C]|]; to_prop; lia.
Qed.

Lemma take_min_length {A} (l : list A) k :
  take (Z.to_nat (Z.min (Z.of_nat k) (Z.of_nat (length l)))) l = take k l.
Proof.
  destruct (decide (k <= length l)%nat).
  - f_equal. lia.
  - replace (Z.to_nat _) with (length l) by lia.
    by rewrite !take_ge by lia.
Qed.

Lemma extract_filename_wrap pre payload len :
  Http.extract_filename (pre ++ payload) (Z.of_nat (length pre)) len
  = requested_name (take (Z.to_nat (wrap16 len)) payload).
Proof.
  unfold Http.extract_filename, requested_name. cbv zeta.
  assert (Hw : 0 <= wrap16 len) by (apply Z.mod_pos_bound; lia).
  set (n := wrap16 len) in *.
  rewrite length_app.
  destruct (decide (n < 5)) as [Hs|Hn].
  { replace (n <? 5) with true by (symmetry; apply Z.ltb_lt; lia).
    cbn [orb]. rewrite bool_decide_false; [done|].
    intros E. apply (f_equal length) in E.
    change (length (list_byte_of_string "GET /")) with 5%nat in E.
    rewrite !length_take in E. lia. }
  replace (n <? 5) with false by (symmetry; apply Z.ltb_ge; lia).
  destruct (decide (length payload < 5)%nat) as [Hs|Hl].
  { replace (_ >? _) with true
      by (symmetry; rewrite Z.gtb_ltb; apply Z.ltb_lt; lia).
    cbn [orb]. rewrite bool_decide_false; [done|].
    intros E. apply (f_equal length) in E.
    change (length (list_byte_of_string "GET /")) with 5%nat in E.
    rewrite !length_take in E. lia. }
  replace (_ >? _) with false
    by (symmetry; rewrite Z.gtb_ltb; apply Z.ltb_ge; lia).
  cbn [orb].
  rewrite (extract_loop_spec 8 pre payload _ 5 []) by (simpl; lia).
  cbn [length app]. change (Z.to_nat 5) with 5%nat.
  rewrite !(u8_app pre payload) by lia.
  change (Z.to_nat 0) with 0%nat. change (Z.to_nat 1) with 1%nat.
  change (Z.to_nat 2) with 2%nat. change (Z.to_nat 3) with 3%nat.
  change (Z.to_nat 4) with 4%nat.
  rewrite take_take, (Nat.min_l 5) by lia.
  rewrite skipn_firstn_comm, take_take.
  replace (Z.to_nat (Z.min (8 - Z.of_nat 0) (n - 5)))
    with (8 `min` (Z.to_nat n - 5))%nat by lia.
  destruct payload as [|a [|b [|c [|d [|f rest]]]]];
    try (simpl in Hl; lia).
  cbn [drop take nth].
  change (list_byte_of_string "GET /")
    with ["G"; "E"; "T"; " "; "/"]%byte.
  rewrite !ch_eqb.
  repeat case_bool_decide; subst; cbn [andb]; try done.
  all: exfalso; simplify_eq.
Qed.

Lemma extract_filename_spec pre payload :
  Z.of_nat (length payload) < 65536 ->
  Http.extract_filename (pre ++ payload) (Z.of_nat (length pre))
    (Z.of_nat (length payload))
  = requested_name payload.
Proof.
  intros Hl. rewrite extract_filename_wrap.
  unfold wrap16. rewrite Z.mod_small by lia.
  by rewrite Nat2Z.id, firstn_all.
Qed.

(** X8.  [extract_filename] on the characters of the payload, for every
    value [len] of its caller; the function reads it as a 16-bit
    number.  For a payload whose first [len mod 2^16] characters start
    with [GET /] it returns what follows, up to the first space, question
    mark, carriage return or line feed, and at most eight characters of
    it, none of them beyond those [len mod 2^16]; for every other payload
    it returns nothing.  So a payload of 65541 characters, passed with
    its length, yields the empty name whatever it holds. *)
Theorem extracted_name_is_the_bounded_path pre payload len :
  Http.extract_filename (pre ++ payload) (Z.of_nat (length pre)) len
  = requested_name (take (Z.to_nat (wrap16 len)) payload).
Proof. exact (extract_filename_wrap pre payload len). Qed.

Lemma extract_needs_get frame p len :
  Http.parse_http_method frame p len <> Http.HTTP_GET ->
  Http.extract_filename frame p len = [].
Proof.
  unfold Http.parse_http_method, Http.extract_filename. cbv zeta.
  intros H.
  destruct ((wrap16 len <? 5) || _) eqn:A; [done|].
  destruct (_ && _) eqn:B; [|done].
  exfalso. apply H.
  apply Bool.orb_false_iff in A as [A1 A2].
  apply Z.ltb_ge in A1. rewrite Z.gtb_ltb in A2. apply Z.ltb_ge in A2.
  replace (_ || _) with false; [done|].
  symmetry. apply Bool.orb_false_iff. rewrite Z.gtb_ltb.
  split; apply Z.ltb_ge; lia.
Qed.

Lemma http_other_methods cfg e frame st rq :
  http_recognised frame rq ->
  Http.r_method rq <> Http.HTTP_GET ->
  req_slot e = true ->
  let r := Http.fileserver_ingress cfg e frame st in
  key_of_buffer (Http.r_filename rq) = "index.html"%string /\
  Http.decision r = ForwardToControlPlane /\
  Http.file_cache (Http.st_out r) = Http.file_cache st /\
  Http.events (Http.st_out r) =
    Http.events st ++ [Http.ReqRecord (http_req_record rq false)].
Proof.
  intros Hrec Hm Hs. cbv zeta.
  rewrite (http_ingress_decides cfg e frame st rq Hrec Hs).
  destruct Hrec as (p & len & _ & _ & ->).
  cbn [Http.extract_request Http.r_method Http.r_filename] in *.
  unfold Http.decide_request.
  cbn [Http.r_method Http.extract_request].
  rewrite (bool_decide_false _ Hm), Bool.andb_false_r.
  rewrite (extract_needs_get _ _ _ Hm). by repeat split.
Qed.

(** X9.  Only GET requests carry a name and reach the cache.  A
    recognised request of another method is always handed to the
    control plane, under the default name [index.html] whatever path
    the frame names; no cache entry is looked up, and the request
    record is the only record put on the channel. *)
Theorem other_methods_are_forwarded_unnamed cfg e frame st rq :
  http_recognised frame rq ->
  Http.r_method rq <> Http.HTTP_GET ->
  req_slot e = true ->
  let r := Http.fileserver_ingress cfg e frame st in
  key_of_buffer (Http.r_filename rq) = "index.html"%string /\
  Http.decision r = ForwardToControlPlane /\
  Http.file_cache (Http.st_out r) = Http.file_cache st /\
  Http.events (Http.st_out r) =
    Http.events st ++ [Http.ReqRecord (http_req_record rq false)].
Proof. exact (http_other_methods cfg e frame st rq). Qed.

Lemma other_methods_are_forwarded_unnamed_witness :
  let rq := Http.extract_request Http.HTTP_POST post_test 54 23 in
  let r := Http.fileserver_ingress Http.default_config env0 post_test
             http_refreshed in
  key_of_buffer (Http.r_filename rq) = "index.html"%string /\
  Http.decision r = ForwardToControlPlane /\
  Http.file_cache (Http.st_out r) = Http.file_cache http_refreshed /\
  Http.events (Http.st_out r) =
    Http.events http_refreshed ++ [Http.ReqRecord (http_req_record rq false)].
Proof.
  apply (other_methods_are_forwarded_unnamed Http.default_config env0
           post_test http_refreshed).
  - exists 54, 23. repeat apply conj; vm_compute; (reflexivity || congruence).
  - vm_compute. congruence.
  - reflexivity.
Defined.

(** ** The client tables *)

Lemma bpf_update_lookup `{Countable K} {V : Type} n (m : gmap K V) k v :
  bpf_map_update_elem n m k v !! k =
  match m !! k with
  | Some _ => Some v
  | None => if decide (size m < n)%nat then Some v else None
  end.
Proof.
  unfold bpf_map_update_elem.
  destruct (m !! k) eqn:E.
  - by rewrite lookup_insert_eq.
  - case_decide; [by rewrite lookup_insert_eq | done].
Qed.

Lemma bpf_update_lookup_ne `{Countable K} {V : Type} n (m : gmap K V)
    k k' v :
  k' <> k -> bpf_map_update_elem n m k v !! k' = m !! k'.
Proof.
  intros Hne. unfold bpf_map_update_elem.
  destruct (m !! k); [by rewrite lookup_insert_ne|].
  case_decide; [by rewrite lookup_insert_ne | done].
Qed.




Lemma http_ingress_conn cfg e frame st :
  let r := Http.fileserver_ingress cfg e frame st in
  Http.conn_track (Http.st_out r) =
  match Http.decision r with
  | PassThrough | NoDecision => Http.conn_track st
  | _ => bpf_map_update_elem 4096 (Http.conn_track st) (ip_saddr frame)
           (now e)
  end.
Proof.
  cbv zeta.
  destruct (http_ingress_shape cfg e frame st)
    as [E|(rq & Hrec & [[Hs E]|[Hs E]])]; rewrite E; clear E; try done.
  set (st1 := Http.set_stats _ st).
  pose proof (http_decide_events cfg e rq st1) as Hd.
  destruct (Http.decide_request cfg e rq st1) as [[[d ik] fev] st2].
  destruct Hd as (_ & Hc & _ & Ho & _).
  destruct Hrec as (p & len & _ & _ & ->).
  cbn [Http.submit Http.decision Http.st_out Http.conn_track
       Http.set_events Http.set_conn_track Http.extract_request
       Http.r_client_ip].
  rewrite Hc. by destruct Ho as [-> |[-> | ->]].
Qed.

(** X11.  The connection table of [fileserver_ingress] holds, for each
    client it has room for, the time of its last decided request: a
    decided request stores the time of the invocation under the source
    address (a new address only while the table holds fewer than 4096),
    while a frame passed through and a request whose record found no
    room leave the table alone. *)
Theorem connection_table_tracks_decided_requests cfg e frame st :
  let r := Http.fileserver_ingress cfg e frame st in
  let ip := ip_saddr frame in
  (forall k, k <> ip ->
     Http.conn_track (Http.st_out r) !! k = Http.conn_track st !! k) /\
  match Http.decision r with
  | PassThrough | NoDecision =>
      Http.conn_track (Http.st_out r) = Http.conn_track st
  | _ =>
      Http.conn_track (Http.st_out r) !! ip =
      match Http.conn_track st !! ip with
      | Some _ => Some (now e)
      | None =>
          if decide (size (Http.conn_track st) < 4096)%nat
          then Some (now e) else None
      end
  end.
Proof.
  cbv zeta. rewrite http_ingress_conn.
  destruct (Http.decision _); split; try done;
    try (intros k Hk; by apply bpf_update_lookup_ne);
    apply bpf_update_lookup.
Qed.

(** ** The XDP programs *)

Lemma fileserver_xdp_spec frame st :
  (fileserver_xdp frame st).1 = XDP_PASS /\
  Http.file_cache (fileserver_xdp frame st).2 = Http.file_cache st /\
  Http.conn_track (fileserver_xdp frame st).2 = Http.conn_track st /\
  Http.events (fileserver_xdp frame st).2 = Http.events st /\
  (Http.stats (fileserver_xdp frame st).2 = Http.stats st \/
   Http.stats (fileserver_xdp frame st).2
   = update_stats 4 1 (Http.stats st)).
Proof.
  unfold fileserver_xdp.
  repeat (case_match; [by repeat split; auto|]). by repeat split; auto.
Qed.

Lemma fileserver_xdp_counts frame p len st :
  Http.walk_headers frame = Some (p, len) ->
  Http.stats (fileserver_xdp frame st).2 = update_stats 4 1 (Http.stats st).
Proof.
  unfold Http.walk_headers, fileserver_xdp. cbv zeta.
  destruct (ETH_HLEN >? _); [done|].
  destruct (negb (eth_proto frame =? ETH_P_IP)); [done|].
  by destruct (ETH_HLEN + IP_HLEN >? _).
Qed.

Lemma nfs_server_xdp_spec frame st :
  (nfs_server_xdp frame st).1 = XDP_PASS /\
  Nfs.nfs_file_cache (nfs_server_xdp frame st).2 = Nfs.nfs_file_cache st /\
  Nfs.fh_to_name (nfs_server_xdp frame st).2 = Nfs.fh_to_name st /\
  Nfs.client_track (nfs_server_xdp frame st).2 = Nfs.client_track st /\
  Nfs.nfs_events (nfs_server_xdp frame st).2 = Nfs.nfs_events st /\
  (Nfs.nfs_stats (nfs_server_xdp frame st).2 = Nfs.nfs_stats st \/
   Nfs.nfs_stats (nfs_server_xdp frame st).2
   = update_stats 4 1 (Nfs.nfs_stats st)).
Proof.
  unfold nfs_server_xdp.
  repeat (case_match; [by repeat split; auto|]). by repeat split; auto.
Qed.

Lemma nfs_server_xdp_counts frame p len st :
  Nfs.walk_headers frame = Some (p, len) ->
  Nfs.nfs_stats (nfs_server_xdp frame st).2
  = update_stats 4 1 (Nfs.nfs_stats st).
Proof.
  unfold Nfs.walk_headers, nfs_server_xdp. cbv zeta.
  destruct (ETH_HLEN >? _); [done|].
  destruct (negb (eth_proto frame =? ETH_P_IP)); [done|].
  destruct (ETH_HLEN + IP_HLEN >? _); [done|].
  destruct (negb (ip_protocol frame =? IPPROTO_UDP)); [done|].
  destruct (l4_off frame + UDP_HLEN >? _); [done|].
  destruct (l4_dest frame =? Nfs.NFS_PORT); [|done].
  done.
Qed.

(** X12.  The XDP programs only count.  Both always return [XDP_PASS]
    and change nothing but counter 4 of their statistics array, by at
    most one.  Every frame that the traffic-control handler of the same
    object recognises is counted: [fileserver_xdp] counts every IPv4
    frame with a full IP header, [nfs_server_xdp] every UDP frame to
    port 2049. *)
Theorem xdp_programs_only_count :
  (forall frame st,
     (fileserver_xdp frame st).1 = XDP_PASS /\
     Http.file_cache (fileserver_xdp frame st).2 = Http.file_cache st /\
     Http.conn_track (fileserver_xdp frame st).2 = Http.conn_track st /\
     Http.events (fileserver_xdp frame st).2 = Http.events st /\
     (Http.stats (fileserver_xdp frame st).2 = Http.stats st \/
      Http.stats (fileserver_xdp frame st).2
      = update_stats 4 1 (Http.stats st))) /\
  (forall cfg e frame st,
     Http.decision (Http.fileserver_ingress cfg e frame st) <> PassThrough ->
     Http.stats (fileserver_xdp frame st).2
     = update_stats 4 1 (Http.stats st)) /\
  (forall frame st,
     (nfs_server_xdp frame st).1 = XDP_PASS /\
     Nfs.nfs_file_cache (nfs_server_xdp frame st).2 = Nfs.nfs_file_cache st /\
     Nfs.fh_to_name (nfs_server_xdp frame st).2 = Nfs.fh_to_name st /\
     Nfs.client_track (nfs_server_xdp frame st).2 = Nfs.client_track st /\
     Nfs.nfs_events (nfs_server_xdp frame st).2 = Nfs.nfs_events st /\
     (Nfs.nfs_stats (nfs_server_xdp frame st).2 = Nfs.nfs_stats st \/
      Nfs.nfs_stats (nfs_server_xdp frame st).2
      = update_stats 4 1 (Nfs.nfs_stats st))) /\
  (forall cfg e frame st,
     Nfs.decision (Nfs.nfs_server_tc cfg e frame st) <> PassThrough ->
     Nfs.nfs_stats (nfs_server_xdp frame st).2
     = update_stats 4 1 (Nfs.nfs_stats st)).
Proof.
  split; [exact fileserver_xdp_spec|].
  split.
  { intros cfg e frame st Hd.
    destruct (Http.walk_headers frame) as [[p len]|] eqn:Hw.
    - by eapply fileserver_xdp_counts.
    - exfalso. apply Hd. unfold Http.fileserver_ingress. by rewrite Hw. }
  split; [exact nfs_server_xdp_spec|].
  intros cfg e frame st Hd.
  destruct (Nfs.walk_headers frame) as [[p len]|] eqn:Hw.
  - by eapply nfs_server_xdp_counts.
  - exfalso. apply Hd. unfold Nfs.nfs_server_tc. by rewrite Hw.
Qed.

Lemma xdp_programs_only_count_witness :
  Http.stats (fileserver_xdp get_test Http.init_state).2
  = update_stats 4 1 (Http.stats Http.init_state) /\
  Nfs.nfs_stats (nfs_server_xdp (nfs_frame 2049 1) Nfs.init_state).2
  = update_stats 4 1 (Nfs.nfs_stats Nfs.init_state).
Proof.
  split.
  - apply (proj1 (proj2 xdp_programs_only_count) Http.default_config env0
             get_test Http.init_state).
    vm_compute. congruence.
  - apply (proj2 (proj2 (proj2 xdp_programs_only_count)) Nfs.default_config
             env0 (nfs_frame 2049 1) Nfs.init_state).
    vm_compute. congruence.
Defined.

(** ** Names that are refused *)

Lemma three_chars (name : list byte) (a b c : byte) :
  a <> x00 -> b <> x00 -> c <> x00 ->
  bool_decide (Http.buf_at name 0 = a) && bool_decide (Http.buf_at name 1 = b)
    && bool_decide (Http.buf_at name 2 = c) = true
  <-> take 3 name = [a; b; c].
Proof.
  intros Ha Hb Hc. unfold Http.buf_at.
  destruct name as [|x [|y [|z rest]]]; simpl; rewrite ?take_0;
    repeat case_bool_decide; simpl; split; intros E;
    try done; try congruence.
Qed.

Lemma first_of_three (x y z : bool) :
  (if x then true else if y then true else if z then true else false) = true
  <-> x = true \/ y = true \/ z = true.
Proof. destruct x, y, z; simpl; intuition discriminate. Qed.

Lemma check_file_exists_spec name :
  Http.check_file_exists name = true <-> servable_name name.
Proof.
  unfold Http.check_file_exists, servable_name. cbv zeta.
  change (list_byte_of_string "ind") with ["i"; "n"; "d"]%byte.
  change (list_byte_of_string "sta") with ["s"; "t"; "a"]%byte.
  change (list_byte_of_string "tes") with ["t"; "e"; "s"]%byte.
  rewrite <-!(three_chars name) by done.
  apply first_of_three.
Qed.

Lemma http_not_found cfg e frame st rq :
  http_recognised frame rq ->
  req_slot e = true ->
  let r := Http.fileserver_ingress cfg e frame st in
  (Http.decision r = NotFound <->
   Http.enable_kernel_processing cfg = true /\
   Http.r_method rq = Http.HTTP_GET /\
   ~ servable_name (Http.r_filename rq)) /\
  (Http.decision r = NotFound ->
   Http.file_cache (Http.st_out r) = Http.file_cache st).
Proof.
  intros Hrec Hs. cbv zeta.
  rewrite (http_ingress_decides cfg e frame st rq Hrec Hs).
  rewrite <-check_file_exists_spec.
  set (st1 := Http.set_stats _ st).
  change (Http.file_cache st) with (Http.file_cache st1).
  clearbody st1. clear Hrec.
  unfold Http.decide_request.
  destruct (Http.enable_kernel_processing cfg); simpl.
  2:{ split; [|done]. split; [done|]. by intros (? & _). }
  case_bool_decide as Hm; simpl.
  2:{ split; [|done]. split; [done|]. by intros (_ & ? & _). }
  destruct (Http.check_file_exists _) eqn:Hc.
  - destruct (Http.file_cache st1 !! _) as [ce|]; [destruct (Http.valid ce)|];
      simpl; (split; [|done]); (split; [done|]); by intros (_ & _ & ?).
  - simpl. split; [|done]. split; [|done]. intros _.
    split; [done|]. split; [done|]. by intros ?.
Qed.

(** X13.  Not found is decided on the name alone.  With the switch on,
    a recognised GET request whose record is reserved is refused as not
    found exactly when its name does not start with [ind], [sta] or
    [tes]; requests of other methods and requests with the switch off
    are never refused.  The cache is not consulted for a refused
    request: an entry stored under such a name is never served. *)
Theorem not_found_is_decided_by_the_name cfg e frame st rq :
  http_recognised frame rq ->
  req_slot e = true ->
  let r := Http.fileserver_ingress cfg e frame st in
  (Http.decision r = NotFound <->
   Http.enable_kernel_processing cfg = true /\
   Http.r_method rq = Http.HTTP_GET /\
   ~ servable_name (Http.r_filename rq)) /\
  (Http.decision r = NotFound ->
   Http.file_cache (Http.st_out r) = Http.file_cache st).
Proof. exact (http_not_found cfg e frame st rq). Qed.

Lemma not_found_is_decided_by_the_name_witness :
  let r := Http.fileserver_ingress Http.default_config env0 get_hello
             (http_cached "hello.tx" 0) in
  (Http.decision r = NotFound <->
   Http.enable_kernel_processing Http.default_config = true /\
   Http.r_method (Http.extract_request Http.HTTP_GET get_hello 54 23)
     = Http.HTTP_GET /\
   ~ servable_name
       (Http.r_filename (Http.extract_request Http.HTTP_GET get_hello 54 23)))
  /\
  (Http.decision r = NotFound ->
   Http.file_cache (Http.st_out r)
   = Http.file_cache (http_cached "hello.tx" 0)).
Proof.
  apply (not_found_is_decided_by_the_name Http.default_config env0 get_hello
           (http_cached "hello.tx" 0)).
  - exists 54, 23. repeat apply conj; vm_compute; (reflexivity || congruence).
  - reflexivity.
Defined.

(** ** Handles and the names behind them *)

Lemma ch_of_Z z :
  0 <= z < 256 -> ch (default x00 (Byte.of_N (Z.to_N z))) = z.
Proof.
  intros Hz. unfold ch.
  destruct (Byte.of_N (Z.to_N z)) as [b|] eqn:E; simpl.
  - apply Byte.to_of_N in E. rewrite E. lia.
  - apply Byte.of_N_None_iff in E. lia.
Qed.

Lemma le32_store v rest :
  0 <= v -> le32 (store_le32 v ++ rest) 0 = wrap32 v.
Proof.
  intros Hv. unfold le32, store_le32, u8, wrap32. cbv zeta. simpl.
  rewrite !ch_of_Z by (apply Z.mod_pos_bound; lia).
  change (2 ^ 0) with 1. change (2 ^ 8) with 256.
  change (2 ^ 16) with 65536. change (2 ^ 24) with 16777216.
  change (2 ^ 32) with 4294967296.
  Z.div_mod_to_equations. lia.
Qed.

Lemma server_hash_range name h :
  0 <= h < 2 ^ 32 -> 0 <= Nfs.server_hash name h < 2 ^ 32.
Proof.
  revert h. induction name as [|c rest IH]; intros h Hh; simpl; [done|].
  case_bool_decide; [done|].
  apply IH. unfold wrap32. apply Z.mod_pos_bound. lia.
Qed.

Lemma handle_of_inj n1 n2 :
  handle_of n1 = handle_of n2 <->
  Nfs.server_hash (list_byte_of_string n1) 0
  = Nfs.server_hash (list_byte_of_string n2) 0.
Proof.
  unfold handle_of, Nfs.generate_nfs_file_handle, Nfs.put_handle.
  split; [|by intros ->].
  intros E. apply (f_equal Nfs.fh_data) in E. cbn [Nfs.fh_data] in E.
  apply (f_equal (fun l => le32 l 0)) in E.
  pose proof (server_hash_range (list_byte_of_string n1) 0 ltac:(lia)).
  pose proof (server_hash_range (list_byte_of_string n2) 0 ltac:(lia)).
  rewrite !le32_store in E by lia.
  unfold wrap32 in E. by rewrite !Z.mod_small in E by lia.
Qed.

Lemma nfs_collision wall1 wall2 fs n1 n2 a1 a2 st st1 st2 :
  Nfs.server_hash (list_byte_of_string n1) 0
  = Nfs.server_hash (list_byte_of_string n2) 0 ->
  n1 <> n2 ->
  Nfs.cache_file_in_kernel true wall1 fs n1 a1 st = (0, st1) ->
  Nfs.cache_file_in_kernel true wall2 fs n2 a2 st1 = (0, st2) ->
  is_Some (Nfs.nfs_file_cache st2 !! Nfs.name_key n1 a1) /\
  is_Some (Nfs.nfs_file_cache st2 !! Nfs.name_key n2 a2) /\
  Nfs.fh_to_name st2 !! handle_of n1 = Some (Nfs.name_key n2 a2).
Proof.
  intros Hh Hne H1 H2.
  apply nfs_refresh_ok in H1 as (f1 & _ & _ & _ & Hc1 & _).
  apply nfs_refresh_ok in H2 as (f2 & _ & _ & _ & Hc2 & Hf2).
  cbv zeta in *. rewrite Hc2, Hf2, Hc1.
  split; [|split].
  - destruct (decide (Nfs.name_key n2 a2 = Nfs.name_key n1 a1)) as [E|E].
    + rewrite E. by rewrite lookup_insert_eq.
    + rewrite lookup_insert_ne by done. by rewrite lookup_insert_eq.
  - by rewrite lookup_insert_eq.
  - apply handle_of_inj in Hh. rewrite Hh.
    apply lookup_insert_eq.
Qed.

(** X14.  A handle stands for the 32-bit hash of the name and nothing
    else: two names get the same handle exactly when their hashes are
    equal.  When the control plane caches two different names of equal
    hash one after the other, both get a cache entry, but the side
    table sends their common handle to the one cached last. *)
Theorem handle_is_the_hash_of_the_name :
  (forall n1 n2,
     handle_of n1 = handle_of n2 <->
     Nfs.server_hash (list_byte_of_string n1) 0
     = Nfs.server_hash (list_byte_of_string n2) 0) /\
  (forall wall1 wall2 fs n1 n2 a1 a2 st st1 st2,
     Nfs.server_hash (list_byte_of_string n1) 0
     = Nfs.server_hash (list_byte_of_string n2) 0 ->
     n1 <> n2 ->
     Nfs.cache_file_in_kernel true wall1 fs n1 a1 st = (0, st1) ->
     Nfs.cache_file_in_kernel true wall2 fs n2 a2 st1 = (0, st2) ->
     is_Some (Nfs.nfs_file_cache st2 !! Nfs.name_key n1 a1) /\
     is_Some (Nfs.nfs_file_cache st2 !! Nfs.name_key n2 a2) /\
     Nfs.fh_to_name st2 !! handle_of n1 = Some (Nfs.name_key n2 a2)).
Proof. split; [exact handle_of_inj | exact nfs_collision]. Qed.

Lemma handle_is_the_hash_of_the_name_witness :
  let st1 := (Nfs.cache_file_in_kernel true 0 every_name "Aa" image_tail
                Nfs.init_state).2 in
  let st2 := (Nfs.cache_file_in_kernel true 0 every_name "BB" image_tail
                st1).2 in
  is_Some (Nfs.nfs_file_cache st2 !! Nfs.name_key "Aa" image_tail) /\
  is_Some (Nfs.nfs_file_cache st2 !! Nfs.name_key "BB" image_tail) /\
  Nfs.fh_to_name st2 !! handle_of "Aa" = Some (Nfs.name_key "BB" image_tail).
Proof.
  cbv zeta.
  apply (proj2 handle_is_the_hash_of_the_name 0 0 every_name "Aa" "BB"
           image_tail image_tail Nfs.init_state
           (Nfs.cache_file_in_kernel true 0 every_name "Aa" image_tail
              Nfs.init_state).2).
  - vm_compute. reflexivity.
  - vm_compute. congruence.
  - vm_compute. reflexivity.
  - vm_compute. reflexivity.
Defined.

(** ** The control plane of the remote-filesystem variant *)

Lemma length_be_bytes v : length (NfsControl.be_bytes v) = 4%nat.
Proof. done. Qed.

Lemma u8_drop frame p i :
  0 <= p -> 0 <= i ->
  u8 (drop (Z.to_nat p) frame) i = u8 frame (p + i).
Proof.
  intros Hp Hi. unfold u8.
  destruct (i <? 0) eqn:E; [apply Z.ltb_lt in E; lia|].
  destruct (p + i <? 0) eqn:E'; [apply Z.ltb_lt in E'; lia|].
  f_equal. rewrite !nth_lookup, lookup_drop. do 2 f_equal. lia.
Qed.

Lemma be32_drop frame p i :
  0 <= p -> 0 <= i ->
  be32 (drop (Z.to_nat p) frame) i = be32 frame (p + i).
Proof.
  intros Hp Hi. unfold be32.
  rewrite !u8_drop by lia. by rewrite !Z.add_assoc.
Qed.

Lemma be32_app pre l i :
  0 <= i ->
  be32 (pre ++ l) (Z.of_nat (length pre) + i) = be32 l i.
Proof.
  intros Hi. unfold be32.
  rewrite <-!Z.add_assoc, !u8_app by lia.
  unfold u8.
  repeat match goal with |- context [?a <? 0] =>
    let E := fresh in destruct (a <? 0) eqn:E; [apply Z.ltb_lt in E; lia|]
  end.
  done.
Qed.

Lemma be32_be_bytes v rest : be32 (NfsControl.be_bytes v ++ rest) 0 = wrap32 v.
Proof.
  unfold be32, NfsControl.be_bytes, u8, bytes_of. cbv zeta. simpl.
  pose proof (Z.mod_pos_bound v (2 ^ 32) ltac:(lia)) as Hv.
  fold (wrap32 v) in Hv. set (w := wrap32 v) in *. clearbody w.
  rewrite !ch_of_Z.
  - change (2 ^ 8) with 256. change (2 ^ 16) with 65536.
    change (2 ^ 24) with 16777216.
    change (2 ^ 32) with 4294967296 in Hv.
    Z.div_mod_to_equations. lia.
  - apply Z.mod_pos_bound. lia.
  - apply Z.mod_pos_bound. lia.
  - apply Z.mod_pos_bound. lia.
  - change (2 ^ 24) with 16777216.
    change (2 ^ 32) with 4294967296 in Hv.
    Z.div_mod_to_equations. lia.
Qed.

Lemma sent_encode_u32 v c :
  (NfsControl.pos c + 4 <= length (NfsControl.buf c))%nat ->
  let c' := NfsControl.xdr_encode_u32 v c in
  NfsControl.sent c' = NfsControl.sent c ++ NfsControl.be_bytes v /\
  NfsControl.pos c' = (NfsControl.pos c + 4)%nat /\
  length (NfsControl.buf c') = length (NfsControl.buf c) /\
  (forall k, (NfsControl.pos c + 4 <= k)%nat ->
     drop k (NfsControl.buf c') = drop k (NfsControl.buf c)).
Proof.
  intros Hb. cbv zeta.
  unfold NfsControl.sent, NfsControl.xdr_encode_u32, NfsControl.poke.
  cbn [NfsControl.buf NfsControl.pos].
  rewrite length_be_bytes.
  assert (length (take (NfsControl.pos c) (NfsControl.buf c))
          = NfsControl.pos c) as Hl by (rewrite length_take; lia).
  repeat split.
  - rewrite app_assoc, take_app_length'; [done|].
    rewrite length_app, Hl, length_be_bytes. done.
  - rewrite !length_app, Hl, length_be_bytes, length_drop. lia.
  - intros k Hk.
    rewrite app_assoc, drop_app_ge
      by (rewrite length_app, Hl, length_be_bytes; lia).
    rewrite length_app, Hl, length_be_bytes, drop_drop. f_equal. lia.
Qed.

Lemma decode_encode_u32 v c :
  (NfsControl.pos c + 4 <= length (NfsControl.buf c))%nat ->
  NfsControl.xdr_decode_u32 (NfsControl.buf (NfsControl.xdr_encode_u32 v c))
    (Z.of_nat (NfsControl.pos c))
  = (wrap32 v, Z.of_nat (NfsControl.pos (NfsControl.xdr_encode_u32 v c))).
Proof.
  intros Hb. unfold NfsControl.xdr_decode_u32. f_equal.
  - unfold NfsControl.xdr_encode_u32, NfsControl.poke.
    cbn [NfsControl.buf].
    assert (length (take (NfsControl.pos c) (NfsControl.buf c))
            = NfsControl.pos c) as Hl by (rewrite length_take; lia).
    replace (Z.of_nat (NfsControl.pos c))
      with (Z.of_nat (length (take (NfsControl.pos c) (NfsControl.buf c)))
            + 0) by lia.
    rewrite be32_app by lia. apply be32_be_bytes.
  - simpl. lia.
Qed.

Lemma decoders_agree frame p off :
  0 <= p -> 0 <= off ->
  p + off + 4 <= Z.of_nat (length frame) ->
  Nfs.extract_be32 frame p off
  = (NfsControl.xdr_decode_u32 (drop (Z.to_nat p) frame) off).1.
Proof.
  intros Hp Ho Hb. unfold Nfs.extract_be32, NfsControl.xdr_decode_u32.
  cbn [fst]. rewrite be32_drop by lia.
  destruct (_ >? _) eqn:E; [|done].
  rewrite Z.gtb_ltb in E. apply Z.ltb_lt in E. lia.
Qed.

(** X15.  The two XDR decoders and the encoder fit together.  Decoding
    at the place where [xdr_encode_u32] stored a value yields that
    value, reduced to 32 bits, and moves the cursor as the encoder did.
    And the engine's [extract_be32] reads from a frame exactly what the
    control plane's [xdr_decode_u32] reads from the datagram the frame
    carries, wherever the four bytes lie inside the frame. *)
Theorem xdr_words_round_trip :
  (forall v c,
     (NfsControl.pos c + 4 <= length (NfsControl.buf c))%nat ->
     NfsControl.xdr_decode_u32
       (NfsControl.buf (NfsControl.xdr_encode_u32 v c))
       (Z.of_nat (NfsControl.pos c))
     = (wrap32 v,
        Z.of_nat (NfsControl.pos (NfsControl.xdr_encode_u32 v c)))) /\
  (forall frame p off,
     0 <= p -> 0 <= off ->
     p + off + 4 <= Z.of_nat (length frame) ->
     Nfs.extract_be32 frame p off
     = (NfsControl.xdr_decode_u32 (drop (Z.to_nat p) frame) off).1).
Proof. split; [exact decode_encode_u32 | exact decoders_agree]. Qed.

Lemma xdr_words_round_trip_witness :
  NfsControl.xdr_decode_u32
    (NfsControl.buf
       (NfsControl.xdr_encode_u32 0x12345678
          {| NfsControl.buf := replicate 8 x00; NfsControl.pos := 4 |})) 4
  = (0x12345678, 8) /\
  Nfs.extract_be32 (nfs_frame 2049 1) 42 0
  = (NfsControl.xdr_decode_u32 (drop 42 (nfs_frame 2049 1)) 0).1.
Proof.
  split.
  - apply (proj1 xdr_words_round_trip 0x12345678
             {| NfsControl.buf := replicate 8 x00; NfsControl.pos := 4 |}).
    simpl. lia.
  - apply (proj2 xdr_words_round_trip (nfs_frame 2049 1) 42 0);
      vm_compute; congruence.
Defined.

Lemma sent_encode_all vs c :
  (NfsControl.pos c + 4 * length vs <= length (NfsControl.buf c))%nat ->
  let c' := foldl (fun c v => NfsControl.xdr_encode_u32 v c) c vs in
  NfsControl.sent c'
    = NfsControl.sent c ++ concat (map NfsControl.be_bytes vs) /\
  NfsControl.pos c' = (NfsControl.pos c + 4 * length vs)%nat /\
  length (NfsControl.buf c') = length (NfsControl.buf c) /\
  (forall k, (NfsControl.pos c + 4 * length vs <= k)%nat ->
     drop k (NfsControl.buf c') = drop k (NfsControl.buf c)).
Proof.
  revert c. induction vs as [|v vs IH]; intros c Hb; cbv zeta.
  - cbn [foldl map concat length]. rewrite app_nil_r.
    split; [done|]. split; [lia|]. by split.
  - cbn [foldl map concat length] in *.
    destruct (sent_encode_u32 v c ltac:(lia)) as (Hs & Hp & Hl & Hd).
    cbv zeta in Hs, Hp, Hl, Hd.
    destruct (IH (NfsControl.xdr_encode_u32 v c)) as (Hs' & Hp' & Hl' & Hd').
    { rewrite Hp, Hl. lia. }
    cbv zeta in Hs', Hp', Hl', Hd'.
    rewrite Hs', Hp', Hl', Hs, Hp, <-app_assoc.
    split; [done|]. split; [lia|]. split; [done|].
    intros k Hk. rewrite Hd' by lia. apply Hd. lia.
Qed.

Lemma be_bytes_wrap v : NfsControl.be_bytes (wrap32 v) = NfsControl.be_bytes v.
Proof.
  unfold NfsControl.be_bytes. cbv zeta. unfold wrap32.
  by rewrite Z.mod_mod by lia.
Qed.

Lemma u64_bytes_wrap v : NfsControl.u64_bytes (wrap64 v) = NfsControl.u64_bytes v.
Proof.
  unfold NfsControl.u64_bytes. cbv zeta. unfold wrap64.
  by rewrite Z.mod_mod by lia.
Qed.

Lemma nfs_getattr_reply fs stack request req_len xid s :
  (116 <= length stack)%nat ->
  NfsControl.handle_nfs_getattr fs stack request req_len xid s =
  match fs "test.txt"%string with
  | None =>
      (NfsControl.header_bytes xid ++ NfsControl.be_bytes 2, s)
  | Some f =>
      (NfsControl.header_bytes xid ++ NfsControl.be_bytes 0 ++
       NfsControl.fattr_bytes
         (Nfs.attr (Nfs.fill_entry 0 f "test.txt" [])),
       NfsControl.count_user_processed s)
  end.
Proof.
  intros Hl. unfold NfsControl.handle_nfs_getattr. cbv zeta.
  destruct (fs "test.txt"%string) as [f|]; f_equal.
  etrans.
  { exact (proj1 (sent_encode_all
      [xid; 1; 0; 0; 0; 0; 0;
       (if Nfs.S_ISDIR (Nfs.st_mode f) then 2 else 1);
       Nfs.st_mode f; Nfs.st_nlink f; Nfs.st_uid f; Nfs.st_gid f;
       Z.shiftr (wrap64 (Nfs.st_size f)) 32;
       Z.land (wrap64 (Nfs.st_size f)) 0xFFFFFFFF;
       Z.shiftr (wrap64 (Nfs.st_blocks f * 512)) 32;
       Z.land (wrap64 (Nfs.st_blocks f * 512)) 0xFFFFFFFF;
       Z.shiftr (wrap64 1) 32; Z.land (wrap64 1) 0xFFFFFFFF;
       Z.shiftr (wrap64 (Nfs.st_ino f)) 32;
       Z.land (wrap64 (Nfs.st_ino f)) 0xFFFFFFFF;
       Z.shiftr (wrap64 (Nfs.st_atime f)) 32;
       Z.land (wrap64 (Nfs.st_atime f)) 0xFFFFFFFF; 0;
       Z.shiftr (wrap64 (Nfs.st_mtime f)) 32;
       Z.land (wrap64 (Nfs.st_mtime f)) 0xFFFFFFFF; 0;
       Z.shiftr (wrap64 (Nfs.st_ctime f)) 32;
       Z.land (wrap64 (Nfs.st_ctime f)) 0xFFFFFFFF; 0]
      {| NfsControl.buf := stack; NfsControl.pos := 0 |}
      ltac:(cbn [length NfsControl.pos NfsControl.buf]; lia))). }
  unfold NfsControl.sent, NfsControl.header_bytes, NfsControl.fattr_bytes.
  cbn [NfsControl.pos NfsControl.buf take map concat app Nfs.attr
       Nfs.fill_entry Nfs.type Nfs.mode Nfs.nlink Nfs.uid Nfs.gid
       Nfs.attr_size Nfs.used Nfs.fsid Nfs.fileid Nfs.atime_sec
       Nfs.atime_nsec Nfs.mtime_sec Nfs.mtime_nsec Nfs.ctime_sec
       Nfs.ctime_nsec].
  rewrite !u64_bytes_wrap, !be_bytes_wrap.
  unfold NfsControl.u64_bytes. cbv zeta.
  rewrite app_nil_r, <-!app_assoc. reflexivity.
Qed.

(** X16.  The GETATTR reply of the control plane.  Whatever the request
    names and whatever the reply buffer held before, the reply echoes the
    transaction id in an accepted-reply header and then describes
    test.txt: status 2 and nothing else when [stat] fails, else status 0
    and exactly the attributes that [cache_file_in_kernel] puts in the
    cache entry of that file, in 116 bytes all told.  Only the second
    case counts as processed by the control plane. *)
Theorem getattr_reply_matches_the_cached_attributes
    fs stack request req_len xid s :
  (116 <= length stack)%nat ->
  NfsControl.handle_nfs_getattr fs stack request req_len xid s =
  match fs "test.txt"%string with
  | None =>
      (NfsControl.header_bytes xid ++ NfsControl.be_bytes 2, s)
  | Some f =>
      (NfsControl.header_bytes xid ++ NfsControl.be_bytes 0 ++
       NfsControl.fattr_bytes
         (Nfs.attr (Nfs.fill_entry 0 f "test.txt" [])),
       NfsControl.count_user_processed s)
  end.
Proof. exact (nfs_getattr_reply fs stack request req_len xid s). Qed.

Lemma getattr_reply_matches_the_cached_attributes_witness :
  (NfsControl.handle_nfs_getattr (nfs_fs test_file) stale_stack [] 0
     0x12345678 NfsControl.stats0).1
  = NfsControl.header_bytes 0x12345678 ++ NfsControl.be_bytes 0 ++
    NfsControl.fattr_bytes
      (Nfs.attr (default (Nfs.fill_entry 0 test_file "" [])
                   (Nfs.nfs_file_cache nfs_refreshed
                      !! Nfs.name_key "test.txt" image_tail))).
Proof.
  rewrite (getattr_reply_matches_the_cached_attributes (nfs_fs test_file)
             stale_stack [] 0 0x12345678 NfsControl.stats0).
  - vm_compute. reflexivity.
  - vm_compute. lia.
Defined.

Lemma nfs_read_reply fs stack request req_len xid s f :
  (4096 <= length stack)%nat ->
  fs "test.txt"%string = Some f ->
  Nfs.openable f = true ->
  Nfs.S_ISDIR (Nfs.st_mode f) = false ->
  let data := take 1024 (Nfs.contents f) in
  let n := Z.of_nat (length data) in
  NfsControl.handle_nfs_read fs stack request req_len xid s =
  (NfsControl.header_bytes xid ++ NfsControl.be_bytes 0 ++
   NfsControl.be_bytes n ++
   NfsControl.be_bytes (if n <? 1024 then 1 else 0) ++
   NfsControl.be_bytes n ++
   take (length data) (drop 4 (data ++ drop (36 + length data) stack)),
   NfsControl.count_user_processed s).
Proof.
  intros Hl Hf Ho Hd. cbv zeta.
  unfold NfsControl.handle_nfs_read. cbv zeta. rewrite Hf, Ho, Hd.
  cbn [negb]. f_equal.
  set (data := take 1024 (Nfs.contents f)).
  assert (length data <= 1024)%nat as Hn
    by (subst data; rewrite length_take; lia).
  destruct (sent_encode_all [xid; 1; 0; 0; 0; 0]
              {| NfsControl.buf := stack; NfsControl.pos := 0 |}
              ltac:(cbn [length NfsControl.pos NfsControl.buf]; lia))
    as (Hs6 & Hp6 & Hl6 & Hd6).
  cbv zeta in Hs6, Hp6, Hl6, Hd6.
  cbn [foldl length NfsControl.pos NfsControl.buf map concat] in *.
  fold (NfsControl.reply_header xid
          {| NfsControl.buf := stack; NfsControl.pos := 0 |}) in *.
  set (c6 := NfsControl.reply_header xid _) in *.
  change (0 + 4 * 6)%nat with 24%nat in *.
  set (c7 := {| NfsControl.buf :=
                  NfsControl.poke (NfsControl.buf c6)
                    (NfsControl.pos c6 + 12) data;
                NfsControl.pos := NfsControl.pos c6 |}).
  assert (length (NfsControl.buf c7) = length stack) as Hl7.
  { subst c7. cbn [NfsControl.buf]. unfold NfsControl.poke.
    rewrite !length_app, length_take, length_drop. lia. }
  assert (NfsControl.sent c7 = NfsControl.sent c6) as Hs7.
  { subst c7. unfold NfsControl.sent, NfsControl.poke.
    cbn [NfsControl.buf NfsControl.pos]. rewrite Hp6.
    rewrite take_app_le by (rewrite length_take; lia).
    rewrite take_take. f_equal. }
  assert (drop 40 (NfsControl.buf c7)
          = drop 4 (data ++ drop (36 + length data) stack)) as Hd7.
  { subst c7. unfold NfsControl.poke. cbn [NfsControl.buf]. rewrite Hp6.
    change (24 + 12)%nat with 36%nat.
    rewrite drop_app_ge by (rewrite length_take; lia).
    rewrite length_take.
    replace (40 - _)%nat with 4%nat by lia.
    by rewrite (Hd6 (36 + length data)%nat) by lia. }
  destruct (sent_encode_all
              [0; Z.of_nat (length data);
               (if Z.of_nat (length data) <? Z.of_nat 1024 then 1 else 0);
               Z.of_nat (length data)] c7)
    as (Hs & Hp & Hl' & Hd').
  { rewrite Hl7. change (NfsControl.pos c7) with (NfsControl.pos c6).
    rewrite Hp6. cbn [length]. lia. }
  cbv zeta in Hs, Hp, Hl', Hd'.
  cbn [foldl length map concat] in Hs, Hp, Hl', Hd'.
  set (c11 := NfsControl.xdr_encode_u32 _ _) in *.
  unfold NfsControl.sent at 1. cbn [NfsControl.buf NfsControl.pos].
  rewrite <-take_take_drop.
  fold (NfsControl.sent c11).
  replace (NfsControl.pos c11) with 40%nat
    by (rewrite Hp; change (NfsControl.pos c7) with (NfsControl.pos c6);
        rewrite Hp6; lia).
  rewrite Hs, Hs7, Hs6.
  rewrite (Hd' 40%nat)
    by (change (NfsControl.pos c7) with (NfsControl.pos c6);
        rewrite Hp6; lia).
  rewrite Hd7.
  unfold NfsControl.sent at 1, NfsControl.header_bytes.
  cbn [NfsControl.pos NfsControl.buf take app].
  rewrite app_nil_r, <-!app_assoc. reflexivity.
Qed.

(** X17.  The READ reply of the control plane.  For test.txt as a
    regular file that can be opened, the reply announces the number of
    bytes read twice, as count and as data length, but the data area
    that follows holds the content from its fifth byte on, and after it
    what the reply buffer held at that place: the data is read twelve
    bytes past the cursor while sixteen bytes of results are then
    encoded at the cursor, so that the last of them lies over the first
    four bytes of the data. *)
Theorem read_reply_drops_four_bytes fs stack request req_len xid s f :
  (4096 <= length stack)%nat ->
  fs "test.txt"%string = Some f ->
  Nfs.openable f = true ->
  Nfs.S_ISDIR (Nfs.st_mode f) = false ->
  let data := take 1024 (Nfs.contents f) in
  let n := Z.of_nat (length data) in
  NfsControl.handle_nfs_read fs stack request req_len xid s =
  (NfsControl.header_bytes xid ++ NfsControl.be_bytes 0 ++
   NfsControl.be_bytes n ++
   NfsControl.be_bytes (if n <? 1024 then 1 else 0) ++
   NfsControl.be_bytes n ++
   take (length data) (drop 4 (data ++ drop (36 + length data) stack)),
   NfsControl.count_user_processed s).
Proof. exact (nfs_read_reply fs stack request req_len xid s f). Qed.

Lemma read_reply_drops_four_bytes_witness :
  drop 40 (NfsControl.handle_nfs_read (nfs_fs test_file) stale_stack [] 0
             0x12345678 NfsControl.stats0).1
  = list_byte_of_string "o from NFS server!" ++ [x0a; xff; xff; xff; xff].
Proof.
  rewrite (read_reply_drops_four_bytes (nfs_fs test_file) stale_stack [] 0
             0x12345678 NfsControl.stats0 test_file).
  - vm_compute. reflexivity.
  - vm_compute. lia.
  - reflexivity.
  - reflexivity.
  - reflexivity.
Defined.

Lemma l4_off_nonneg frame : 0 <= l4_off frame.
Proof.
  unfold l4_off, ip_ihl, ETH_HLEN.
  assert (0 <= Z.land (u8 frame 14) 15); [|lia].
  apply Z.land_nonneg. right. lia.
Qed.

Lemma nfs_recognised_words frame rpc :
  nfs_recognised frame rpc ->
  let b := drop (Z.to_nat (l4_off frame + UDP_HLEN)) frame in
  be32 b 0 = Nfs.xid rpc /\ be32 b 4 = 0 /\ be32 b 8 = 2 /\
  be32 b 12 = Nfs.RPC_PROGRAM_NFS /\ be32 b 16 = Nfs.NFS_VERSION_3 /\
  be32 b 20 = Nfs.procedure rpc.
Proof.
  intros (p & len & Hw & Hp & Hv). cbv zeta.
  apply nfs_walk_Some in Hw as (_ & _ & _ & ->).
  pose proof (l4_off_nonneg frame) as H0.
  assert (0 <= l4_off frame + UDP_HLEN) as H1 by (unfold UDP_HLEN; lia).
  unfold Nfs.parse_rpc_header in Hp.
  destruct (len <? _); [done|].
  destruct (_ >? _) eqn:Hb; [done|].
  rewrite Z.gtb_ltb in Hb. apply Z.ltb_ge in Hb.
  injection Hp as <-.
  unfold Nfs.not_nfs_call in Hv.
  cbn [Nfs.msg_type Nfs.rpc_version Nfs.program Nfs.version Nfs.xid
       Nfs.procedure] in *.
  rewrite !extract_be32_in_bounds in *
    by (unfold Nfs.RPC_HEADER_SIZE in *; lia).
  rewrite !be32_drop by lia.
  to_prop. unfold Nfs.RPC_CALL in *. by repeat split.
Qed.

Lemma nfs_process_accepts fs stack buffer len s :
  24 <= len ->
  be32 buffer 4 = 0 -> be32 buffer 8 = 2 ->
  be32 buffer 12 = Nfs.RPC_PROGRAM_NFS ->
  be32 buffer 16 = Nfs.NFS_VERSION_3 ->
  let r := NfsControl.process_nfs_request fs stack buffer len s in
  let proc := be32 buffer 20 in
  NfsControl.total_requests r.2
    = wrap64 (NfsControl.total_requests s + 1) /\
  match r.1 with
  | Some reply =>
      (proc = Nfs.NFSPROC3_GETATTR \/ proc = Nfs.NFSPROC3_READ) /\
      take 24 reply = NfsControl.header_bytes (be32 buffer 0)
  | None =>
      proc <> Nfs.NFSPROC3_GETATTR /\ proc <> Nfs.NFSPROC3_READ /\
      r.2 = NfsControl.count_request s
  end.
Proof.
  intros Hl H1 H2 H3 H4. cbv zeta.
  cbv beta iota zeta
    delta [NfsControl.process_nfs_request NfsControl.xdr_decode_u32].
  replace (len <? 24) with false by (symmetry; apply Z.ltb_ge; lia).
  change (0 + 4) with 4. change (4 + 4) with 8. change (8 + 4) with 12.
  change (12 + 4) with 16. change (16 + 4) with 20.
  rewrite H1, H2, H3, H4, !Z.eqb_refl.
  cbn [negb orb].
  destruct (be32 buffer 20 =? Nfs.NFSPROC3_GETATTR) eqn:Eg.
  { apply Z.eqb_eq in Eg.
    unfold NfsControl.handle_nfs_getattr. cbv zeta.
    destruct (fs "test.txt"%string); cbn [fst snd]; auto. }
  destruct (be32 buffer 20 =? Nfs.NFSPROC3_READ) eqn:Er.
  { apply Z.eqb_eq in Er.
    unfold NfsControl.handle_nfs_read. cbv zeta.
    destruct (fs "test.txt"%string) as [f|]; cbn [fst snd]; auto.
    destruct (negb (Nfs.openable f)); cbn [fst snd]; auto.
    destruct (Nfs.S_ISDIR _); cbn [fst snd]; auto. }
  apply Z.eqb_neq in Eg, Er. cbn [fst snd]. auto.
Qed.

Lemma nfs_process_recognised fs stack frame rpc len s :
  nfs_recognised frame rpc ->
  24 <= len ->
  let buffer := drop (Z.to_nat (l4_off frame + UDP_HLEN)) frame in
  let r := NfsControl.process_nfs_request fs stack buffer len s in
  NfsControl.total_requests r.2
    = wrap64 (NfsControl.total_requests s + 1) /\
  match r.1 with
  | Some reply =>
      (Nfs.procedure rpc = Nfs.NFSPROC3_GETATTR \/
       Nfs.procedure rpc = Nfs.NFSPROC3_READ) /\
      take 24 reply = NfsControl.header_bytes (Nfs.xid rpc)
  | None =>
      Nfs.procedure rpc <> Nfs.NFSPROC3_GETATTR /\
      Nfs.procedure rpc <> Nfs.NFSPROC3_READ /\
      r.2 = NfsControl.count_request s
  end.
Proof.
  intros Hrec Hl.
  destruct (nfs_recognised_words frame rpc Hrec)
    as (Hx & H1 & H2 & H3 & H4 & Hp).
  cbv zeta in *. rewrite <-Hx, <-Hp.
  by apply nfs_process_accepts.
Qed.

Lemma nfs_short_datagram cfg e frame st :
  Z.of_nat (length frame) < l4_off frame + UDP_HLEN + 32 ->
  Nfs.nfs_server_tc cfg e frame st = Nfs.pass frame st.
Proof.
  intros Hs. unfold Nfs.nfs_server_tc.
  destruct (Nfs.walk_headers frame) as [[p len]|] eqn:Hw; [|done].
  exfalso. revert Hw. unfold Nfs.walk_headers. cbv zeta.
  destruct (ETH_HLEN >? _); [done|].
  destruct (negb _); [done|].
  destruct (ETH_HLEN + IP_HLEN >? _); [done|].
  destruct (negb _); [done|].
  destruct (l4_off frame + UDP_HLEN >? _); [done|].
  destruct (negb _); [done|].
  destruct (l4_off frame + UDP_HLEN >=? _) eqn:Hge; [done|].
  rewrite Z.geb_leb in Hge. apply Z.leb_gt in Hge.
  destruct (wrap16 _ <? _) eqn:Hlt; [done|].
  apply Z.ltb_ge in Hlt. unfold wrap16, Nfs.RPC_HEADER_SIZE in Hlt.
  rewrite Z.mod_small in Hlt by lia. lia.
Qed.

(** X18.  What the control plane makes of a call.  A datagram of at
    least 24 bytes whose envelope is that of an NFSv3 call is counted as
    a request; it is answered only when the procedure is GETATTR or
    READ, by a reply that echoes its transaction id, and otherwise gets
    no answer at all.  Every call that the engine recognises in a frame
    is such a datagram, with the same transaction id and procedure.  The
    engine in turn passes through every frame with fewer than 32 bytes
    of payload, which the control plane accepts from 24 bytes on. *)
Theorem control_plane_answers_getattr_and_read :
  (forall fs stack frame rpc len s,
     nfs_recognised frame rpc ->
     24 <= len ->
     let buffer := drop (Z.to_nat (l4_off frame + UDP_HLEN)) frame in
     let r := NfsControl.process_nfs_request fs stack buffer len s in
     NfsControl.total_requests r.2
       = wrap64 (NfsControl.total_requests s + 1) /\
     match r.1 with
     | Some reply =>
         (Nfs.procedure rpc = Nfs.NFSPROC3_GETATTR \/
          Nfs.procedure rpc = Nfs.NFSPROC3_READ) /\
         take 24 reply = NfsControl.header_bytes (Nfs.xid rpc)
     | None =>
         Nfs.procedure rpc <> Nfs.NFSPROC3_GETATTR /\
         Nfs.procedure rpc <> Nfs.NFSPROC3_READ /\
         r.2 = NfsControl.count_request s
     end) /\
  (forall fs stack buffer len s,
     24 <= len ->
     be32 buffer 4 = 0 -> be32 buffer 8 = 2 ->
     be32 buffer 12 = Nfs.RPC_PROGRAM_NFS ->
     be32 buffer 16 = Nfs.NFS_VERSION_3 ->
     let r := NfsControl.process_nfs_request fs stack buffer len s in
     let proc := be32 buffer 20 in
     NfsControl.total_requests r.2
       = wrap64 (NfsControl.total_requests s + 1) /\
     match r.1 with
     | Some reply =>
         (proc = Nfs.NFSPROC3_GETATTR \/ proc = Nfs.NFSPROC3_READ) /\
         take 24 reply = NfsControl.header_bytes (be32 buffer 0)
     | None =>
         proc <> Nfs.NFSPROC3_GETATTR /\ proc <> Nfs.NFSPROC3_READ /\
         r.2 = NfsControl.count_request s
     end) /\
  (forall cfg e frame st,
     Z.of_nat (length frame) < l4_off frame + UDP_HLEN + 32 ->
     Nfs.nfs_server_tc cfg e frame st = Nfs.pass frame st).
Proof.
  split; [exact nfs_process_recognised|].
  split; [exact nfs_process_accepts | exact nfs_short_datagram].
Qed.

Lemma control_plane_answers_getattr_and_read_witness :
  Nfs.nfs_server_tc Nfs.default_config env0 short_call nfs_refreshed
  = Nfs.pass short_call nfs_refreshed /\
  is_Some (NfsControl.process_nfs_request (nfs_fs test_file) stale_stack
             (drop 42 short_call) 24 NfsControl.stats0).1 /\
  (NfsControl.process_nfs_request (nfs_fs test_file) stale_stack
     (drop 42 (nfs_frame 2049 0)) 32 NfsControl.stats0).1 = None.
Proof.
  split; [|split].
  - apply (proj2 (proj2 control_plane_answers_getattr_and_read)).
    vm_compute. reflexivity.
  - pose proof (proj1 (proj2 control_plane_answers_getattr_and_read)
                  (nfs_fs test_file) stale_stack (drop 42 short_call) 24
                  NfsControl.stats0) as H.
    cbv zeta in H.
    destruct (NfsControl.process_nfs_request _ _ _ _ _).1 as [reply|].
    + by exists reply.
    + exfalso.
      destruct H as (_ & Hp & _);
        [lia | vm_compute; reflexivity | vm_compute; reflexivity
        | vm_compute; reflexivity | vm_compute; reflexivity
        | vm_compute in Hp; congruence].
  - pose proof (proj1 control_plane_answers_getattr_and_read
                  (nfs_fs test_file) stale_stack (nfs_frame 2049 0)
                  (call_rpc 0) 32 NfsControl.stats0) as H.
    cbv zeta in H.
    change (Z.to_nat (l4_off (nfs_frame 2049 0) + UDP_HLEN)) with 42%nat in H.
    destruct (NfsControl.process_nfs_request _ _ _ _ _).1 as [reply|];
      [|done].
    exfalso.
    destruct H as (_ & [Hp|Hp] & _);
      [exists 42, 32; repeat apply conj; vm_compute; reflexivity
      | lia | vm_compute in Hp; congruence | vm_compute in Hp; congruence].
Defined.

(** ** What the control planes learn from the records *)

Lemma http_poll cfg e frame st s :
  let r := Http.fileserver_ingress cfg e frame st in
  FileControl.poll
    (drop (length (Http.events st)) (Http.events (Http.st_out r))) s
  = if bool_decide (Http.decision r = KernelServed)
    then FileControl.count_kernel_processed s else s.
Proof.
  cbv zeta.
  destruct (http_ingress_events cfg e frame st) as (new & -> & Hn).
  cbv zeta in Hn. rewrite drop_app_length.
  destruct (Http.decision _);
    try (rewrite Hn; done);
    destruct Hn as (rq & fev & _ & -> & _);
    unfold FileControl.poll; cbn [foldl FileControl.handle_event];
    by destruct fev.
Qed.

Lemma nfs_poll cfg e frame st s :
  let r := Nfs.nfs_server_tc cfg e frame st in
  let d := Nfs.decision r in
  let s' := NfsControl.poll
              (drop (length (Nfs.nfs_events st))
                 (Nfs.nfs_events (Nfs.st_out r))) s in
  NfsControl.kernel_processed s' =
    (if bool_decide (d = KernelServed)
     then wrap64 (NfsControl.kernel_processed s + 1)
     else NfsControl.kernel_processed s) /\
  NfsControl.cache_misses s' =
    (if bool_decide (d = ForwardToControlPlane)
     then wrap64 (NfsControl.cache_misses s + 1)
     else NfsControl.cache_misses s) /\
  (NfsControl.cache_hits s' = NfsControl.cache_hits s \/
   d = KernelServed /\
   NfsControl.cache_hits s' = wrap64 (NfsControl.cache_hits s + 1)) /\
  NfsControl.total_requests s' = NfsControl.total_requests s /\
  NfsControl.user_processed s' = NfsControl.user_processed s.
Proof.
  cbv zeta.
  destruct (nfs_tc_events cfg e frame st) as (new & -> & Hn).
  cbv zeta in Hn. rewrite drop_app_length.
  destruct (Nfs.decision _);
    try (rewrite Hn; by repeat split; auto);
    destruct Hn as (rpc & ev & _ & -> & _ & _ & _ & _ & _ & Hf & Hr & Hc);
    unfold NfsControl.poll; cbn [foldl NfsControl.handle_event];
    cbn [NfsControl.kernel_processed NfsControl.cache_misses
         NfsControl.cache_hits NfsControl.total_requests
         NfsControl.user_processed];
    rewrite Hf, Hr; cbn [bool_decide decide_rel negb andb].
  - rewrite !bool_decide_true by done.
    rewrite (bool_decide_false (KernelServed = ForwardToControlPlane))
      by done.
    cbn [negb andb]. rewrite Bool.andb_false_r.
    destruct (Nfs.from_cache ev); repeat split; auto.
  - rewrite (bool_decide_false (ForwardToControlPlane = KernelServed))
      by done.
    rewrite !bool_decide_true by done.
    cbn [negb andb]. rewrite (Hc eq_refl). repeat split; auto.
Qed.

(** X19.  What the control planes learn from the records of one
    invocation.  The file-fetch control plane counts a request as
    processed in the kernel exactly when the engine's outcome is kernel
    served.  The remote-filesystem control plane does the same, counts a
    cache miss exactly when the outcome is forwarded, counts a cache hit
    at most for a kernel-served call, and leaves its request counters to
    the datagrams it receives itself. *)
Theorem control_planes_count_from_the_records :
  (forall cfg e frame st s,
     let r := Http.fileserver_ingress cfg e frame st in
     FileControl.poll
       (drop (length (Http.events st)) (Http.events (Http.st_out r))) s
     = if bool_decide (Http.decision r = KernelServed)
       then FileControl.count_kernel_processed s else s) /\
  (forall cfg e frame st s,
     let r := Nfs.nfs_server_tc cfg e frame st in
     let d := Nfs.decision r in
     let s' := NfsControl.poll
                 (drop (length (Nfs.nfs_events st))
                    (Nfs.nfs_events (Nfs.st_out r))) s in
     NfsControl.kernel_processed s' =
       (if bool_decide (d = KernelServed)
        then wrap64 (NfsControl.kernel_processed s + 1)
        else NfsControl.kernel_processed s) /\
     NfsControl.cache_misses s' =
       (if bool_decide (d = ForwardToControlPlane)
        then wrap64 (NfsControl.cache_misses s + 1)
        else NfsControl.cache_misses s) /\
     (NfsControl.cache_hits s' = NfsControl.cache_hits s \/
      d = KernelServed /\
      NfsControl.cache_hits s' = wrap64 (NfsControl.cache_hits s + 1)) /\
     NfsControl.total_requests s' = NfsControl.total_requests s /\
     NfsControl.user_processed s' = NfsControl.user_processed s).
Proof. split; [exact http_poll | exact nfs_poll]. Qed.

(** ** The control plane of the file-fetch variant *)

Lemma serve_file_cases fs malloc_ok filename s :
  let '(rc, response, s') :=
    FileControl.serve_file fs malloc_ok filename s in
  exists code ct body,
    response = FileControl.send_http_response code ct body
                 (Z.of_nat (length body)) /\
    (code = 200 /\ rc = 0 /\ s' = FileControl.count_user_processed s /\
     ct = FileControl.content_type_of filename /\
     (exists f, fs filename = Some f /\ Http.st_reg f = true /\
                body = take (Z.to_nat (Http.st_size f)) (Http.contents f) /\
                Z.of_nat (length body) = Http.st_size f)
     \/ code = 403 /\ rc = -1 /\ s' = s
     \/ code = 404 /\ rc = -1 /\ s' = FileControl.count_not_found s
     \/ code = 500 /\ rc = -1 /\ s' = FileControl.count_error s).
Proof.
  unfold FileControl.serve_file, FileControl.server_error. cbv zeta.
  destruct (_ || _).
  { exists 403, "text/plain"%string, (FileControl.body_of "Forbidden").
    split; [done|]. by right; left. }
  destruct (fs filename) as [f|] eqn:Hf.
  2:{ exists 404, "text/html"%string,
        (FileControl.body_of
           "<html><body><h1>404 Not Found</h1></body></html>").
      split; [done|]. by right; right; left. }
  destruct (Http.st_reg f) eqn:Hreg; cbn [negb].
  2:{ exists 404, "text/html"%string,
        (FileControl.body_of
           "<html><body><h1>404 Not Found</h1></body></html>").
      split; [done|]. by right; right; left. }
  destruct (negb (Http.openable f)).
  { exists 500, "text/plain"%string,
      (FileControl.body_of "Internal Server Error").
    split; [done|]. by right; right; right. }
  destruct (negb malloc_ok).
  { exists 500, "text/plain"%string,
      (FileControl.body_of "Internal Server Error").
    split; [done|]. by right; right; right. }
  destruct (_ =? _) eqn:Hsz; cbn [negb].
  2:{ exists 500, "text/plain"%string,
        (FileControl.body_of "Internal Server Error").
      split; [done|]. by right; right; right. }
  apply Z.eqb_eq in Hsz.
  eexists 200, _, _. split; [reflexivity|]. left.
  repeat split; try done. by exists f.
Qed.



Lemma http_refused_yet_cached en fs malloc_ok request path version st s :
  FileControl.sscanf3 request
    = Some (list_byte_of_string "GET", path, version) ->
  let filename := FileControl.filename_of path in
  FileControl.strstr filename ".." || FileControl.strstr filename "//"
    = true ->
  FileControl.handle_http_request en fs malloc_ok request st s =
  (FileControl.send_http_response 403 "text/plain"
     (FileControl.body_of "Forbidden") 9,
   (Http.cache_file_in_kernel en fs filename st).2,
   FileControl.count_request s).
Proof.
  intros Hs filename Ht. unfold FileControl.handle_http_request.
  rewrite Hs. cbv zeta. rewrite bool_decide_true by done.
  fold filename.
  destruct (Http.cache_file_in_kernel en fs filename st) as [rc st1].
  unfold FileControl.serve_file. cbv zeta. by rewrite Ht.
Qed.

Lemma http_refresh_stores fs filename st st1 :
  Http.cache_file_in_kernel true fs filename st = (0, st1) ->
  exists f,
    fs filename = Some f /\ Http.st_reg f = true /\
    0 <= Http.st_size f <= Http.MAX_PACKET_SIZE /\
    let data := take (Z.to_nat (Http.st_size f)) (Http.contents f) in
    Z.of_nat (length data) = Http.st_size f /\
    Http.file_cache st1 !! filename
    = Some (Http.fill_entry f filename data).
Proof.
  unfold Http.cache_file_in_kernel. cbn [negb].
  destruct (fs filename) as [f|]; [|done].
  destruct (Http.st_reg f) eqn:Hreg; cbn [negb orb]; [|done].
  destruct (_ >? _) eqn:Hsz; [done|].
  destruct (negb (Http.openable f)); [done|].
  destruct (_ =? _) eqn:Hr; cbn [negb]; [|done].
  match goal with |- context [try_update 1024 ?m ?k ?v] =>
    destruct (try_update 1024 m k v) as [c|] eqn:Hu end; [|done].
  intros [= <-]. apply try_update_Some in Hu. subst c.
  exists f. to_prop. unfold Http.MAX_PACKET_SIZE in *.
  repeat split; try done; try lia.
  apply lookup_insert_eq.
Qed.

(** X21.  A path that climbs out of the document root is refused to the
    client but still offered to the kernel cache.  For a GET whose name
    contains [..] or [//] the response is 403 Forbidden, yet
    [cache_file_in_kernel] has run on that name before the check: when
    it succeeds, the cache holds the content of that file under that
    name. *)
Theorem refused_paths_are_still_cached
    en fs malloc_ok request path version st s :
  FileControl.sscanf3 request
    = Some (list_byte_of_string "GET", path, version) ->
  let filename := FileControl.filename_of path in
  FileControl.strstr filename ".." || FileControl.strstr filename "//"
    = true ->
  FileControl.handle_http_request en fs malloc_ok request st s =
  (FileControl.send_http_response 403 "text/plain"
     (FileControl.body_of "Forbidden") 9,
   (Http.cache_file_in_kernel en fs filename st).2,
   FileControl.count_request s) /\
  forall st1,
    Http.cache_file_in_kernel en fs filename st = (0, st1) ->
    en = true ->
    exists f,
      fs filename = Some f /\
      Http.file_cache st1 !! filename
      = Some (Http.fill_entry f filename
                (take (Z.to_nat (Http.st_size f)) (Http.contents f))).
Proof.
  intros Hs filename Ht. split; [by eapply http_refused_yet_cached|].
  intros st1 Hc ->.
  apply http_refresh_stores in Hc as (f & Hf & _ & _ & _ & Hl).
  by exists f.
Qed.

Lemma refused_paths_are_still_cached_witness :
  let r := FileControl.handle_http_request true fs_above true get_above
             Http.init_state FileControl.stats0 in
  r.1.1 = FileControl.send_http_response 403 "text/plain"
            (FileControl.body_of "Forbidden") 9 /\
  Http.cached_data
    <$> (Http.file_cache r.1.2 !! "../secret"%string) = Some test_txt.
Proof.
  cbv zeta.
  destruct (refused_paths_are_still_cached true fs_above true get_above
              (list_byte_of_string "/../secret")
              (list_byte_of_string "HTTP/1.1")
              Http.init_state FileControl.stats0) as [E _].
  - vm_compute. reflexivity.
  - vm_compute. reflexivity.
  - rewrite E. split; [reflexivity|]. vm_compute. reflexivity.
Defined.

Lemma http_served_is_cached fs malloc_ok filename st st1 s response s1 :
  FileControl.serve_file fs malloc_ok filename s = (0, response, s1) ->
  Http.cache_file_in_kernel true fs filename st = (0, st1) ->
  exists ce,
    Http.file_cache st1 !! filename = Some ce /\
    response = FileControl.send_http_response 200
                 (FileControl.content_type_of filename)
                 (Http.cached_data ce) (Http.file_size ce).
Proof.
  intros Hs Hc.
  apply http_refresh_stores in Hc as (f & Hf & Hreg & Hsz & Hl & Hk).
  cbv zeta in *.
  pose proof (serve_file_cases fs malloc_ok filename s) as Hcases.
  rewrite Hs in Hcases.
  destruct Hcases as (code & ct & body & -> & Hcode).
  destruct Hcode as [(-> & _ & _ & -> & f' & Hf' & _ & -> & Hl')
                    |[(_ & ? & _)|[(_ & ? & _)|(_ & ? & _)]]]; try done.
  rewrite Hf in Hf'. injection Hf' as <-.
  eexists. split; [exact Hk|].
  cbn [Http.cached_data Http.file_size Http.fill_entry].
  unfold wrap32, Http.MAX_PACKET_SIZE in *.
  rewrite Z.mod_small by lia. by rewrite Hl.
Qed.

(** X22.  What the control plane serves is what it caches.  When a GET
    is answered 200 and the same file was stored in the kernel cache on
    the way, the body and the Content-Length of the response are the
    content and the size of the cache entry. *)
Theorem served_body_is_the_cached_content
    fs malloc_ok filename st st1 s response s1 :
  FileControl.serve_file fs malloc_ok filename s = (0, response, s1) ->
  Http.cache_file_in_kernel true fs filename st = (0, st1) ->
  exists ce,
    Http.file_cache st1 !! filename = Some ce /\
    response = FileControl.send_http_response 200
                 (FileControl.content_type_of filename)
                 (Http.cached_data ce) (Http.file_size ce).
Proof.
  exact (http_served_is_cached fs malloc_ok filename st st1 s response s1).
Qed.

Lemma served_body_is_the_cached_content_witness :
  exists ce,
    Http.file_cache http_refreshed !! "test.txt"%string = Some ce /\
    (FileControl.serve_file http_fs true "test.txt" FileControl.stats0).1.2
    = FileControl.send_http_response 200 "text/plain"
        (Http.cached_data ce) (Http.file_size ce).
Proof.
  apply (served_body_is_the_cached_content http_fs true "test.txt"
           Http.init_state http_refreshed FileControl.stats0
           (FileControl.serve_file http_fs true "test.txt"
              FileControl.stats0).1.2
           (FileControl.serve_file http_fs true "test.txt"
              FileControl.stats0).2).
  - vm_compute. reflexivity.
  - vm_compute. reflexivity.
Defined.

(** ** The name of a file, in the engine and in the control plane *)

Lemma scan_chars_token w tok sp rest :
  Forall (fun b => FileControl.isspace b = false) tok ->
  (length tok <= w)%nat ->
  FileControl.isspace sp = true ->
  FileControl.scan_chars w (tok ++ sp :: rest) = (tok, sp :: rest).
Proof.
  revert w. induction tok as [|b tok IH]; intros w Ht Hl Hs.
  - destruct w; simpl; [done|]. by rewrite Hs.
  - destruct w; simpl in *; [lia|].
    apply Forall_cons in Ht as [Hb Ht]. rewrite Hb.
    by rewrite IH by (done || lia).
Qed.

Lemma scan_chars_end w tok :
  Forall (fun b => FileControl.isspace b = false) tok ->
  (length tok <= w)%nat ->
  FileControl.scan_chars w tok = (tok, []).
Proof.
  revert w. induction tok as [|b tok IH]; intros w Ht Hl.
  - by destruct w.
  - destruct w; simpl in *; [lia|].
    apply Forall_cons in Ht as [Hb Ht]. rewrite Hb.
    by rewrite IH by (done || lia).
Qed.

Lemma scan_s_space w sp l :
  FileControl.isspace sp = true ->
  FileControl.scan_s w (sp :: l) = FileControl.scan_s w l.
Proof. intros Hs. unfold FileControl.scan_s. simpl. by rewrite Hs. Qed.

Lemma scan_s_token w b tok sp rest :
  Forall (fun b => FileControl.isspace b = false) (b :: tok) ->
  (length (b :: tok) <= w)%nat ->
  FileControl.isspace sp = true ->
  FileControl.scan_s w (b :: tok ++ sp :: rest) = Some (b :: tok, sp :: rest).
Proof.
  intros Ht Hl Hs. unfold FileControl.scan_s.
  pose proof Ht as [Hb _]%Forall_cons.
  cbn [FileControl.skip_space]. rewrite Hb. cbv iota. f_equal.
  by apply (scan_chars_token w (b :: tok)).
Qed.

Lemma scan_s_end w b tok :
  Forall (fun b => FileControl.isspace b = false) (b :: tok) ->
  (length (b :: tok) <= w)%nat ->
  FileControl.scan_s w (b :: tok) = Some (b :: tok, []).
Proof.
  intros Ht Hl. unfold FileControl.scan_s.
  pose proof Ht as [Hb _]%Forall_cons.
  cbn [FileControl.skip_space]. rewrite Hb. cbv iota. f_equal.
  by apply (scan_chars_end w (b :: tok)).
Qed.

Lemma sscanf3_get_line name :
  plain_name name -> (length name <= 254)%nat ->
  FileControl.sscanf3 (get_line name)
  = Some (list_byte_of_string "GET", "/"%byte :: name,
          list_byte_of_string "HTTP/1.1").
Proof.
  intros Hp Hl. unfold FileControl.sscanf3, get_line.
  change (list_byte_of_string "GET /" ++ ?l)
    with ("G"%byte :: ["E"; "T"]%byte ++ " "%byte :: "/"%byte :: l).
  change (list_byte_of_string " HTTP/1.1")
    with (" "%byte :: list_byte_of_string "HTTP/1.1").
  rewrite scan_s_token; [|by repeat constructor|simpl; lia|done].
  rewrite scan_s_space by done.
  rewrite (scan_s_token 255 "/"%byte name); [| |simpl; lia|done].
  2:{ constructor; [done|]. eapply Forall_impl; [exact Hp|].
      by intros b (? & _). }
  rewrite scan_s_space by done.
  change (list_byte_of_string "HTTP/1.1")
    with ("H"%byte :: list_byte_of_string "TTP/1.1") at 1.
  rewrite scan_s_end; [done|by repeat constructor|simpl; lia].
Qed.

Lemma until_delimiter_plain k name sp rest :
  Forall (fun b => delimiter b = false) name ->
  delimiter sp = true ->
  until_delimiter (take k (name ++ sp :: rest)) = take k name.
Proof.
  revert k. induction name as [|b name IH]; intros k Hn Hs.
  - destruct k; simpl; [done|]. by rewrite Hs.
  - destruct k; simpl; [done|].
    apply Forall_cons in Hn as [Hb Hn]. rewrite Hb.
    by rewrite IH.
Qed.

Lemma strip_nul_plain l : Forall (fun b => b <> x00) l -> strip_nul l = l.
Proof.
  induction l as [|b l IH]; intros Hl; [done|].
  apply Forall_cons in Hl as [Hb Hl]. simpl. rewrite IH by done.
  destruct l; [|done]. by rewrite decide_False.
Qed.

Lemma length_get_line name :
  length (get_line name) = (length name + 14)%nat.
Proof. unfold get_line. rewrite !length_app. simpl. lia. Qed.

Lemma engine_key_of_get_line pre name m :
  plain_name name -> name <> [] -> (length name <= 254)%nat ->
  key_of_buffer
    (Http.r_filename
       (Http.extract_request m (pre ++ get_line name)
          (Z.of_nat (length pre)) (Z.of_nat (length (get_line name)))))
  = string_of_list_byte (take 8 name).
Proof.
  intros Hp Hn Hlen. unfold Http.extract_request. cbn [Http.r_filename].
  rewrite extract_filename_spec by (rewrite length_get_line; lia).
  unfold requested_name, get_line.
  rewrite take_app_length' by done.
  rewrite bool_decide_true by done.
  rewrite drop_app_length' by done.
  change (list_byte_of_string " HTTP/1.1")
    with (" "%byte :: list_byte_of_string "HTTP/1.1").
  rewrite until_delimiter_plain; [| |done].
  2:{ eapply Forall_impl; [exact Hp|]. by intros b (_ & ? & _). }
  replace (Z.of_nat (length (take 8 name)) =? 0) with false.
  2:{ symmetry. apply Z.eqb_neq. rewrite length_take.
      destruct name; [done|]. simpl. lia. }
  unfold key_of_buffer. f_equal. apply strip_nul_plain, Forall_take.
  eapply Forall_impl; [exact Hp|]. by intros c (_ & _ & ?).
Qed.

Lemma control_key_of_path name :
  name <> [] -> (length name <= 254)%nat ->
  FileControl.filename_of ("/"%byte :: name) = string_of_list_byte name.
Proof.
  intros Hn Hl. unfold FileControl.filename_of.
  rewrite bool_decide_false.
  - change (drop 1 ("/"%byte :: name)) with name.
    by rewrite take_ge by lia.
  - destruct name; [done|]. discriminate.
Qed.

Lemma string_of_list_byte_inj l1 l2 :
  string_of_list_byte l1 = string_of_list_byte l2 -> l1 = l2.
Proof.
  intros E. apply (f_equal list_byte_of_string) in E.
  by rewrite !list_byte_of_string_of_list_byte in E.
Qed.

(** X23.  The engine and the control plane name the same file
    differently.  For a GET of a plain, non-empty name the control plane
    caches the file under the whole name, while the engine looks the
    cache up under the first eight characters of it: the two keys are
    the same exactly for names of at most eight characters. *)
Theorem cache_keys_agree_up_to_eight_characters pre name m :
  plain_name name -> name <> [] -> (length name <= 254)%nat ->
  let engine_key :=
    key_of_buffer
      (Http.r_filename
         (Http.extract_request m (pre ++ get_line name)
            (Z.of_nat (length pre)) (Z.of_nat (length (get_line name))))) in
  exists path version,
    FileControl.sscanf3 (get_line name)
      = Some (list_byte_of_string "GET", path, version) /\
    FileControl.filename_of path = string_of_list_byte name /\
    engine_key = string_of_list_byte (take 8 name) /\
    (engine_key = FileControl.filename_of path <-> (length name <= 8)%nat).
Proof.
  intros Hp Hn Hl. cbv zeta.
  exists ("/"%byte :: name), (list_byte_of_string "HTTP/1.1").
  rewrite sscanf3_get_line, control_key_of_path, engine_key_of_get_line
    by done.
  repeat split; try done.
  - intros E%string_of_list_byte_inj.
    apply (f_equal length) in E. rewrite length_take in E. lia.
  - intros H8. by rewrite take_ge by lia.
Qed.

Lemma cache_keys_agree_up_to_eight_characters_witness :
  key_of_buffer
    (Http.r_filename
       (Http.extract_request Http.HTTP_GET
          ([] ++ get_line (list_byte_of_string "static.html")) 0 25))
  = "static.h"%string /\
  FileControl.filename_of (list_byte_of_string "/static.html")
  = "static.html"%string.
Proof.
  destruct (cache_keys_agree_up_to_eight_characters []
              (list_byte_of_string "static.html") Http.HTTP_GET)
    as (path & version & Hs & Hf & He & _).
  - repeat constructor; vm_compute; congruence.
  - vm_compute. congruence.
  - vm_compute. lia.
  - split; [exact He|]. vm_compute. reflexivity.
Defined.

(** ** Names, entries and handles *)

Lemma http_run_names n st : http_run n st -> http_names_ok st.
Proof.
  induction 1 as [|n st en fs name Hr IH|n st frame Hr IH
                  |n st cfg e filename Hr IH|n st cfg e frame Hr IH];
    intros k ce.
  - simpl. by rewrite lookup_empty.
  - destruct (http_refresh_cases en fs name st)
      as [E|(f & _ & _ & _ & _ & E)]; cbv zeta in E; rewrite E.
    + apply IH.
    + cbn [Http.file_cache Http.set_file_cache].
      destruct (decide (k = name)) as [-> | Hne].
      * rewrite lookup_insert_eq. by intros [= <-].
      * rewrite lookup_insert_ne by done. apply IH.
  - unfold fileserver_xdp. repeat (case_match; [apply IH|]). apply IH.
  - destruct (trace_file_open_keeps cfg e filename st) as (_ & E & _).
    rewrite E. apply IH.
  - intros Hk. apply http_ingress_cache in Hk as (ce0 & Hk & [-> | ->]).
    + by apply IH.
    + by apply (IH k ce0).
Qed.

Lemma nfs_refresh_names en wall fs name after st :
  nfs_names_ok st ->
  nfs_names_ok (Nfs.cache_file_in_kernel en wall fs name after st).2.
Proof.
  intros [Hc Hf]. unfold Nfs.cache_file_in_kernel.
  destruct (negb en); [done|].
  destruct (fs name) as [f|]; [|done].
  destruct (negb (Nfs.S_ISREG _)); [done|].
  destruct (_ >? _); [done|].
  destruct (negb (Nfs.openable f)); [done|].
  destruct (negb _); [done|].
  cbv zeta.
  set (ce := Nfs.fill_entry wall f name _).
  set (key := Nfs.name_key name after).
  assert (Nfs.ce_filename ce = Nfs.strncpy_name name /\
          Nfs.ce_fh ce = handle_of name) as Hce by done.
  clearbody ce.
  destruct (try_update 1024 _ key ce) as [c|] eqn:Hu; [|done].
  apply try_update_Some in Hu. subst c.
  assert (forall k ce', <[key := ce]> (Nfs.nfs_file_cache st) !! k = Some ce' ->
            exists name' after',
              k = Nfs.name_key name' after' /\
              Nfs.ce_filename ce' = Nfs.strncpy_name name' /\
              Nfs.ce_fh ce' = handle_of name') as Hc'.
  { intros k ce'. destruct (decide (k = key)) as [-> | Hne].
    - rewrite lookup_insert_eq. intros [= <-]. by exists name, after.
    - rewrite lookup_insert_ne by done. apply Hc. }
  assert (forall h v, Nfs.fh_to_name st !! h = Some v ->
            exists name' after',
              v = Nfs.name_key name' after' /\
              h = handle_of name' /\
              is_Some (<[key := ce]> (Nfs.nfs_file_cache st) !! v)) as Hf'.
  { intros h v Hh. destruct (Hf h v Hh) as (n' & a' & Hv & Hh' & Hs).
    exists n', a'. split; [done|]. split; [done|].
    destruct (decide (v = key)) as [-> | Hne].
    - by rewrite lookup_insert_eq.
    - by rewrite lookup_insert_ne. }
  cbn [Nfs.fh_to_name Nfs.set_cache].
  destruct (try_update 2048 _ (Nfs.ce_fh ce) key) as [m|] eqn:Hu2.
  2:{ by split. }
  apply try_update_Some in Hu2. subst m.
  split; [exact Hc'|].
  intros h v. cbn [snd Nfs.fh_to_name Nfs.set_fh_to_name
                    Nfs.nfs_file_cache Nfs.set_cache].
  destruct (decide (h = Nfs.ce_fh ce)) as [-> | Hne].
  - rewrite lookup_insert_eq. intros [= <-].
    exists name, after. split; [done|]. split; [apply Hce|].
    by rewrite lookup_insert_eq.
  - rewrite lookup_insert_ne by done. apply Hf'.
Qed.

Lemma nfs_run_names n st : nfs_run n st -> nfs_names_ok st.
Proof.
  induction 1 as [|n st en wall fs name after Hr IH|n st frame Hr IH
                  |n st cfg Hr IH|n st cfg e frame Hr IH].
  - split; intros ? ?; simpl; by rewrite lookup_empty.
  - by apply nfs_refresh_names.
  - unfold nfs_server_xdp. by repeat (case_match; try done).
  - unfold trace_openat. by case_match.
  - destruct (nfs_tc_no_handle cfg e frame st (nfs_run_handles _ _ Hr))
      as [Hc _].
    cbv zeta in Hc. unfold nfs_names_ok.
    by rewrite Hc, nfs_tc_handles.
Qed.

Lemma c_string_app_nul a rest :
  x00 ∉ a -> Nfs.c_string (a ++ x00 :: rest) = a.
Proof.
  induction a as [|b a IH]; intros Hn; simpl.
  - done.
  - rewrite decide_False by (intros ->; apply Hn; left).
    f_equal. apply IH. intros Hin. apply Hn. by right.
Qed.

Lemma c_string_plain a : x00 ∉ a -> Nfs.c_string a = a.
Proof.
  induction a as [|b a IH]; intros Hn; simpl; [done|].
  rewrite decide_False by (intros ->; apply Hn; left).
  f_equal. apply IH. intros Hin. apply Hn. by right.
Qed.

Lemma strip_nul_cons b l :
  strip_nul (b :: l) = [] \/ strip_nul (b :: l) = b :: strip_nul l.
Proof.
  simpl. destruct (strip_nul l) eqn:E.
  - case_decide; [by left|by right].
  - by right.
Qed.

Lemma strip_nul_plain_app a l :
  x00 ∉ a ->
  strip_nul (a ++ l) = a \/ strip_nul (a ++ l) = a ++ strip_nul l.
Proof.
  induction a as [|b a IH]; intros Hn.
  - right. done.
  - assert (b <> x00) as Hb by (intros ->; apply Hn; left).
    assert (x00 ∉ a) as Ha by (intros Hin; apply Hn; by right).
    cbn [app]. simpl.
    destruct (IH Ha) as [E|E]; rewrite E.
    + left. destruct a; [by rewrite decide_False|done].
    + destruct (a ++ strip_nul l) eqn:F.
      * left. rewrite decide_False by done.
        destruct a; [done|discriminate].
      * by right.
Qed.

(** The key of a name, read as a C string, is the name. *)
Lemma name_key_c_string name after :
  x00 ∉ list_byte_of_string name ->
  (length (list_byte_of_string name) < 256)%nat ->
  Nfs.c_string (list_byte_of_string (Nfs.name_key name after))
  = list_byte_of_string name.
Proof.
  intros Hn Hl. unfold Nfs.name_key, key_of_buffer.
  rewrite list_byte_of_string_of_list_byte.
  set (a := list_byte_of_string name) in *.
  rewrite take_app_ge by lia.
  destruct (256 - length a)%nat as [|k] eqn:Hk; [lia|].
  cbn [take].
  destruct (strip_nul_plain_app a (x00 :: take k after) Hn) as [E|E];
    rewrite E.
  - by apply c_string_plain.
  - destruct (strip_nul_cons x00 (take k after)) as [F|F]; rewrite F.
    + rewrite app_nil_r. by apply c_string_plain.
    + by apply c_string_app_nul.
Qed.

(** X24.  Names, entries and handles stay consistent.  In every state
    reached from the empty maps by refreshes and program invocations,
    each file-fetch entry carries the name it is stored under (cut to
    255 characters).  Each remote-filesystem entry carries the name it
    was filled for and the handle of that name; its key is made of the
    256 bytes at the pointer to that name, so that it is the name only
    when zeros follow the name in memory, but the key read as a C string
    is always a name of fewer than 256 characters; and the side table
    sends the handle of a name to the key of that name, which is in the
    cache. *)
Theorem entries_carry_their_names :
  (forall n st, http_run n st -> http_names_ok st) /\
  (forall n st, nfs_run n st -> nfs_names_ok st) /\
  (forall name after,
     x00 ∉ list_byte_of_string name ->
     (length (list_byte_of_string name) < 256)%nat ->
     Nfs.c_string (list_byte_of_string (Nfs.name_key name after))
     = list_byte_of_string name).
Proof.
  split; [exact http_run_names|]. split; [exact nfs_run_names|].
  exact name_key_c_string.
Qed.

Lemma entries_carry_their_names_witness :
  http_names_ok http_refreshed /\ nfs_names_ok nfs_refreshed /\
  Nfs.nfs_file_cache nfs_refreshed !! "test.txt"%string = None /\
  Nfs.c_string (list_byte_of_string (Nfs.name_key "test.txt" image_tail))
  = list_byte_of_string "test.txt".
Proof.
  split; [|split; [|split]].
  - apply (proj1 entries_carry_their_names 0%nat).
    apply (http_run_refresh 0 Http.init_state true http_fs "test.txt").
    apply http_run_init.
  - apply (proj1 (proj2 entries_carry_their_names) 0%nat).
    apply (nfs_run_refresh 0 Nfs.init_state true 0 (nfs_fs test_file)
             "test.txt" image_tail).
    apply nfs_run_init.
  - vm_compute. reflexivity.
  - apply (proj2 (proj2 entries_carry_their_names)).
    + apply (bool_decide_unpack _). vm_compute. exact I.
    + vm_compute. lia.
Defined.

(** ** The file-open probe *)

Lemma trace_file_open_spec cfg e filename st s :
  let r := trace_file_open cfg e filename st in
  r.1 = 0 /\
  Http.file_cache r.2 = Http.file_cache st /\
  Http.conn_track r.2 = Http.conn_track st /\
  Http.stats r.2 = Http.stats st /\
  exists new,
    Http.events r.2 = Http.events st ++ new /\
    (length new <= 1)%nat /\
    (new <> [] <->
     Http.enable_kernel_processing cfg = true /\ is_Some filename /\
     req_slot e = true) /\
    FileControl.poll new s = s.
Proof.
  cbv zeta. unfold trace_file_open.
  destruct (Http.enable_kernel_processing cfg); cbn [negb].
  2:{ repeat split; try done. exists []. rewrite app_nil_r.
      repeat split; try done; [simpl; lia|]. by intros (? & _). }
  destruct filename as [name|].
  2:{ repeat split; try done. exists []. rewrite app_nil_r.
      repeat split; try done; [simpl; lia|]. by intros (_ & [? ?] & _). }
  destruct (req_slot e); cbn [negb].
  2:{ repeat split; try done. exists []. rewrite app_nil_r.
      repeat split; try done; [simpl; lia|]. by intros (_ & _ & ?). }
  repeat split; try done. eexists [_]. repeat split; try done.
Qed.

(** X25.  The file-open probe only reports.  [trace_file_open] returns 0
    and changes neither the cache nor the connection table nor the
    counters; it puts at most one record on the channel, and none when
    the switch is off, the name is missing or the record finds no room.
    The control plane's statistics ignore that record. *)
Theorem file_open_probe_only_reports cfg e filename st s :
  let r := trace_file_open cfg e filename st in
  r.1 = 0 /\
  Http.file_cache r.2 = Http.file_cache st /\
  Http.conn_track r.2 = Http.conn_track st /\
  Http.stats r.2 = Http.stats st /\
  exists new,
    Http.events r.2 = Http.events st ++ new /\
    (length new <= 1)%nat /\
    (new <> [] <->
     Http.enable_kernel_processing cfg = true /\ is_Some filename /\
     req_slot e = true) /\
    FileControl.poll new s = s.
Proof. exact (trace_file_open_spec cfg e filename st s). Qed.

(** ** From the control plane's cache to the engine's decision *)

Lemma parse_get_line pre name :
  (length name <= 254)%nat ->
  Http.parse_http_method (pre ++ get_line name) (Z.of_nat (length pre))
    (Z.of_nat (length (get_line name)))
  = Http.HTTP_GET.
Proof.
  intros Hlen. unfold Http.parse_http_method. cbv zeta.
  assert (5 <= length (get_line name))%nat as Hl
    by (unfold get_line; rewrite length_app; simpl; lia).
  unfold wrap16.
  rewrite Z.mod_small by (rewrite length_get_line; lia).
  rewrite length_app.
  replace (_ || _) with false.
  2:{ symmetry. apply Bool.orb_false_iff. rewrite Z.gtb_ltb.
      split; apply Z.ltb_ge; lia. }
  rewrite !(u8_app pre (get_line name)) by lia.
  by rewrite !ch_eqb.
Qed.

Lemma extract_get_line pre name m :
  plain_name name -> name <> [] -> (length name <= 8)%nat ->
  Http.r_filename
    (Http.extract_request m (pre ++ get_line name)
       (Z.of_nat (length pre)) (Z.of_nat (length (get_line name))))
  = name.
Proof.
  intros Hp Hn Hl. unfold Http.extract_request. cbn [Http.r_filename].
  rewrite extract_filename_spec by (rewrite length_get_line; lia).
  unfold requested_name, get_line.
  rewrite take_app_length' by done.
  rewrite bool_decide_true by done.
  rewrite drop_app_length' by done.
  change (list_byte_of_string " HTTP/1.1")
    with (" "%byte :: list_byte_of_string "HTTP/1.1").
  rewrite until_delimiter_plain; [| |done].
  2:{ eapply Forall_impl; [exact Hp|]. by intros b (_ & ? & _). }
  rewrite take_ge by lia.
  replace (Z.of_nat (length name) =? 0) with false; [done|].
  symmetry. apply Z.eqb_neq. destruct name; [done|]. simpl. lia.
Qed.

Lemma http_cached_then_served cfg e fs malloc_ok pre name st st1 s :
  plain_name name -> name <> [] -> (length name <= 8)%nat ->
  servable_name name ->
  Http.walk_headers (pre ++ get_line name)
    = Some (Z.of_nat (length pre), Z.of_nat (length (get_line name))) ->
  Http.enable_kernel_processing cfg = true ->
  req_slot e = true ->
  Http.cache_file_in_kernel true fs (string_of_list_byte name) st
    = (0, st1) ->
  (FileControl.handle_http_request true fs malloc_ok (get_line name) st s).1.2
    = st1 /\
  let r := Http.fileserver_ingress cfg e (pre ++ get_line name) st1 in
  Http.decision r = KernelServed /\
  exists f,
    fs (string_of_list_byte name) = Some f /\
    Http.file_cache (Http.st_out r) !! string_of_list_byte name
    = Some (Http.hit
              (Http.fill_entry f (string_of_list_byte name)
                 (take (Z.to_nat (Http.st_size f)) (Http.contents f)))).
Proof.
  intros Hp Hn Hl Hsv Hw Hen Hslot Hc. split.
  - unfold FileControl.handle_http_request.
    rewrite sscanf3_get_line by (done || lia). cbv zeta.
    rewrite bool_decide_true by done.
    rewrite control_key_of_path by (done || lia). rewrite Hc.
    by destruct (FileControl.serve_file _ _ _ _) as [[rc response] s1].
  - cbv zeta.
    set (frame := pre ++ get_line name).
    set (rq := Http.extract_request Http.HTTP_GET frame
                 (Z.of_nat (length pre)) (Z.of_nat (length (get_line name)))).
    assert (http_recognised frame rq) as Hrec.
    { exists (Z.of_nat (length pre)), (Z.of_nat (length (get_line name))).
      subst frame rq. rewrite parse_get_line by lia. by repeat split. }
    assert (Http.r_filename rq = name) as Hname
      by (subst rq frame; by apply extract_get_line).
    assert (key_of_buffer (Http.r_filename rq) = string_of_list_byte name)
      as Hkey.
    { subst rq frame. rewrite engine_key_of_get_line by (done || lia).
      by rewrite take_ge by lia. }
    apply http_refresh_stores in Hc as (f & Hf & _ & _ & _ & Hk).
    cbv zeta in Hk.
    rewrite (http_ingress_decides cfg e frame st1 rq Hrec Hslot).
    set (st2 := Http.set_stats (update_stats 0 1 (Http.stats st1)) st1).
    assert (Http.check_file_exists (Http.r_filename rq) = true) as Hx
      by (rewrite Hname; by apply check_file_exists_spec).
    assert (Http.file_cache st2 !! key_of_buffer (Http.r_filename rq)
            = Some (Http.fill_entry f (string_of_list_byte name)
                      (take (Z.to_nat (Http.st_size f)) (Http.contents f))))
      as Hk2 by (rewrite Hkey; exact Hk).
    rewrite (http_decide_hit cfg e rq st2 _ Hen eq_refl Hx Hk2 eq_refl).
    cbn [Http.submit Http.decision Http.st_out Http.file_cache
         Http.set_events Http.set_conn_track Http.set_stats
         Http.set_file_cache].
    split; [done|]. exists f. split; [done|].
    rewrite Hkey. apply lookup_insert_eq.
Qed.

(** X26.  From the control plane's cache to the engine's decision.  Take
    a plain name of at most eight characters that starts with [ind],
    [sta] or [tes].  When the control plane handles a GET for it and
    [cache_file_in_kernel] succeeds, the maps it leaves are those of
    that call, and the engine decides the next frame that carries the
    same request line as kernel served, marking one hit on the entry
    that holds the content of the file. *)
Theorem cached_by_one_request_served_to_the_next
    cfg e fs malloc_ok pre name st st1 s :
  plain_name name -> name <> [] -> (length name <= 8)%nat ->
  servable_name name ->
  Http.walk_headers (pre ++ get_line name)
    = Some (Z.of_nat (length pre), Z.of_nat (length (get_line name))) ->
  Http.enable_kernel_processing cfg = true ->
  req_slot e = true ->
  Http.cache_file_in_kernel true fs (string_of_list_byte name) st
    = (0, st1) ->
  (FileControl.handle_http_request true fs malloc_ok (get_line name) st s).1.2
    = st1 /\
  let r := Http.fileserver_ingress cfg e (pre ++ get_line name) st1 in
  Http.decision r = KernelServed /\
  exists f,
    fs (string_of_list_byte name) = Some f /\
    Http.file_cache (Http.st_out r) !! string_of_list_byte name
    = Some (Http.hit
              (Http.fill_entry f (string_of_list_byte name)
                 (take (Z.to_nat (Http.st_size f)) (Http.contents f)))).
Proof.
  exact (http_cached_then_served cfg e fs malloc_ok pre name st st1 s).
Qed.

Lemma cached_by_one_request_served_to_the_next_witness :
  (FileControl.handle_http_request true http_fs true
     (get_line (list_byte_of_string "test.txt")) Http.init_state
     FileControl.stats0).1.2 = http_refreshed /\
  Http.decision
    (Http.fileserver_ingress Http.default_config env0
       ((eth_ip 6 ++ tcp_hdr 8080)
        ++ get_line (list_byte_of_string "test.txt")) http_refreshed)
  = KernelServed.
Proof.
  destruct (cached_by_one_request_served_to_the_next Http.default_config
              env0 http_fs true (eth_ip 6 ++ tcp_hdr 8080)
              (list_byte_of_string "test.txt") Http.init_state
              http_refreshed FileControl.stats0) as (H1 & H2 & _).
  - repeat constructor; vm_compute; congruence.
  - vm_compute. congruence.
  - vm_compute. lia.
  - right; right. vm_compute. reflexivity.
  - vm_compute. reflexivity.
  - reflexivity.
  - reflexivity.
  - vm_compute. reflexivity.
  - split; [exact H1 | exact H2].
Defined.
